(** * cinebot: the Prince Charles Cinema scraper (app/scraper.py)

    A shallow embedding of [parse_pcc_date], [parse_pcc_time] and
    [scrape_pcc], with the library calls they make:
    - [str] methods and [int]/[str] conversions        (module [PyStr]);
    - the backtracking matcher of [re] and [re.sub]    (module [Re]);
    - [datetime.date] arithmetic and [datetime.strptime]
      for the two formats the scraper uses             (modules [Datetime], [Strptime]);
    - the part of the BeautifulSoup tree API it calls  (module [Bs4]).

    Strings are Rocq strings: sequences of code points below 256.  The
    locale is the C/English one.  The instant read by [datetime.now()] and
    the module constant [CURRENT_YEAR] are fields of the [World] a run
    executes in. *)

From Stdlib Require Import ZArith List String Ascii Bool Arith Lia.
Import ListNotations.
Local Open Scope string_scope.
Local Open Scope nat_scope.

(* ================================================================== *)
(** ** Python strings *)

Module PyStr.

(** [str.isspace] on one code point below 256. *)
Definition isspace (c : ascii) : bool :=
  let n := nat_of_ascii c in
  ((9 <=? n) && (n <=? 13)) || ((28 <=? n) && (n <=? 32))
  || (n =? 133) || (n =? 160).

(** [\d] / [str.isdecimal] on one code point below 256. *)
Definition isdigit (c : ascii) : bool :=
  let n := nat_of_ascii c in (48 <=? n) && (n <=? 57).

Definition in_range (lo hi c : ascii) : bool :=
  (nat_of_ascii lo <=? nat_of_ascii c) && (nat_of_ascii c <=? nat_of_ascii hi).

(** [str.lower] on one code point below 256. *)
Definition lower_char (c : ascii) : ascii :=
  let n := nat_of_ascii c in
  if ((65 <=? n) && (n <=? 90))
     || ((192 <=? n) && (n <=? 222) && negb (n =? 215))
  then ascii_of_nat (n + 32) else c.

Fixpoint lower (s : string) : string :=
  match s with
  | EmptyString => EmptyString
  | String c s' => String (lower_char c) (lower s')
  end.

Fixpoint lstrip (s : string) : string :=
  match s with
  | String c s' => if isspace c then lstrip s' else s
  | EmptyString => EmptyString
  end.

Fixpoint rstrip (s : string) : string :=
  match s with
  | EmptyString => EmptyString
  | String c s' =>
      match rstrip s' with
      | EmptyString => if isspace c then EmptyString else String c EmptyString
      | r => String c r
      end
  end.

Definition strip (s : string) : string := rstrip (lstrip s).

(** [needle in haystack] for two strings. *)
Fixpoint contains (needle haystack : string) : bool :=
  prefix needle haystack
  || match haystack with
     | EmptyString => false
     | String _ h' => contains needle h'
     end.

(** [sep.join(l)]. *)
Fixpoint join (sep : string) (l : list string) : string :=
  match l with
  | [] => ""
  | [x] => x
  | x :: rest => x ++ sep ++ join sep rest
  end.

Definition digit_val (c : ascii) : Z := (Z.of_nat (nat_of_ascii c) - 48)%Z.

Fixpoint all_chars (p : ascii -> bool) (s : string) : bool :=
  match s with
  | EmptyString => true
  | String c s' => p c && all_chars p s'
  end.

Fixpoint digits_val (acc : Z) (s : string) : Z :=
  match s with
  | EmptyString => acc
  | String c s' => digits_val (10 * acc + digit_val c)%Z s'
  end.

(** [int(s)] for an unsigned decimal numeral with optional surrounding
    white space; [None] stands for [ValueError]. *)
Definition int (s : string) : option Z :=
  match strip s with
  | EmptyString => None
  | t => if all_chars isdigit t then Some (digits_val 0%Z t) else None
  end.

Definition digit_char (d : Z) : ascii := ascii_of_nat (48 + Z.to_nat d).

Fixpoint str_pos (fuel : nat) (n : Z) (acc : string) : string :=
  match fuel with
  | O => acc
  | S f =>
      let acc' := String (digit_char (n mod 10)%Z) acc in
      if (n <? 10)%Z then acc' else str_pos f (n / 10)%Z acc'
  end.

(** [str(n)] for an [int]: at most [Z.log2 n + 1] decimal digits. *)
Definition str (n : Z) : string :=
  if (n <? 0)%Z
  then String "-" (str_pos (S (Z.to_nat (Z.log2 (- n)))) (- n)%Z "")
  else str_pos (S (Z.to_nat (Z.log2 n))) n "".

(** ["%0<w>d" % n] for [0 <= n]. *)
Fixpoint zfill_aux (k : nat) (s : string) : string :=
  match k with
  | O => s
  | S k' => String "0" (zfill_aux k' s)
  end.

Definition zfill (w : nat) (n : Z) : string :=
  let s := str n in zfill_aux (w - String.length s) s.

End PyStr.

(* ================================================================== *)
(** ** The [re] module: a backtracking matcher

    [matches r s] lists, in the order Python's engine tries them, the ways
    [r] can match a prefix of [s]: the group dictionary and the text left
    over.  [re.match] takes the first. *)

Module Re.

Inductive regex : Type :=
| Eps
| Chr (p : ascii -> bool)          (* one character of a class *)
| Seq (r1 r2 : regex)
| Alt (r1 r2 : regex)              (* r1|r2, r1 tried first *)
| Plus (p : ascii -> bool)         (* greedy class+ *)
| Group (name : string) (r : regex).

Definition groupdict := list (string * string).

(** The text consumed between [s] and its suffix [rest]. *)
Definition consumed (s rest : string) : string :=
  substring 0 (String.length s - String.length rest) s.

(** Rests after zero or more characters of class [p], longest run first. *)
Fixpoint star_rests (p : ascii -> bool) (s : string) : list string :=
  match s with
  | String c s' => if p c then (star_rests p s' ++ [s])%list else [s]
  | EmptyString => [EmptyString]
  end.

Fixpoint matches (r : regex) (s : string) : list (groupdict * string) :=
  match r with
  | Eps => [([], s)]
  | Chr p =>
      match s with
      | String c s' => if p c then [([], s')] else []
      | EmptyString => []
      end
  | Seq r1 r2 =>
      flat_map (fun m1 =>
                  map (fun m2 => ((fst m1 ++ fst m2)%list, snd m2))
                      (matches r2 (snd m1)))
               (matches r1 s)
  | Alt r1 r2 => (matches r1 s ++ matches r2 s)%list
  | Plus p =>
      match s with
      | String c s' => if p c then map (pair []) (star_rests p s') else []
      | EmptyString => []
      end
  | Group name r1 =>
      map (fun m => ((name, consumed s (snd m)) :: fst m, snd m))
          (matches r1 s)
  end.

(** [re.match(r, s)]: the first way, if any. *)
Definition re_match (r : regex) (s : string) : option (groupdict * string) :=
  hd_error (matches r s).

Fixpoint group (name : string) (g : groupdict) : option string :=
  match g with
  | [] => None
  | (n, v) :: g' => if String.eqb n name then Some v else group name g'
  end.

(** Building blocks. *)
Definition char_is (c : ascii) : ascii -> bool := Ascii.eqb c.
Definition char_is_ci (c : ascii) : ascii -> bool :=
  fun x => Ascii.eqb (PyStr.lower_char x) (PyStr.lower_char c).

Fixpoint lit (s : string) : regex :=
  match s with
  | EmptyString => Eps
  | String c EmptyString => Chr (char_is c)
  | String c s' => Seq (Chr (char_is c)) (lit s')
  end.

(** A literal under [re.IGNORECASE]. *)
Fixpoint lit_ci (s : string) : regex :=
  match s with
  | EmptyString => Eps
  | String c EmptyString => Chr (char_is_ci c)
  | String c s' => Seq (Chr (char_is_ci c)) (lit_ci s')
  end.

Fixpoint alts (l : list regex) : regex :=
  match l with
  | [] => Chr (fun _ => false)
  | [r] => r
  | r :: l' => Alt r (alts l')
  end.

Fixpoint seqs (l : list regex) : regex :=
  match l with
  | [] => Eps
  | [r] => r
  | r :: l' => Seq r (seqs l')
  end.

Definition digit : regex := Chr PyStr.isdigit.
Definition range (lo hi : ascii) : regex := Chr (PyStr.in_range lo hi).

(** [re.sub(pat, r'\1', s)]: scan left to right; at a position where
    [pat] matches, emit group 1 and resume after the match, else copy one
    character.  [pat] never matches the empty string here.  The fuel
    bounds the number of positions visited. *)
Fixpoint sub_group1 (fuel : nat) (pat : regex) (s : string) : string :=
  match fuel with
  | O => s
  | S f =>
      match s with
      | EmptyString => EmptyString
      | String c s' =>
          match re_match pat s with
          | Some (g, rest) =>
              match group "1" g with
              | Some g1 => g1 ++ sub_group1 f pat rest
              | None => sub_group1 f pat rest
              end
          | None => String c (sub_group1 f pat s')
          end
      end
  end.

Definition sub1 (pat : regex) (s : string) : string :=
  sub_group1 (String.length s) pat s.

End Re.

(* ================================================================== *)
(** ** Exceptions and log records *)

Inductive exn : Type :=
| ValueError
| ConnectionError          (* requests.exceptions: subclasses of RequestException *)
| Timeout
| HTTPError
| UnboundLocalError (name : string)
| OtherError.

(** [isinstance(e, requests.exceptions.RequestException)]. *)
Definition is_RequestException (e : exn) : bool :=
  match e with
  | ConnectionError | Timeout | HTTPError => true
  | _ => false
  end.

(* ================================================================== *)
(** ** [datetime]: the proleptic Gregorian calendar *)

Module Datetime.
Local Open Scope Z_scope.

Record date : Type := mkdate { year : Z; month : Z; day : Z }.

Definition MINYEAR : Z := 1.
Definition MAXYEAR : Z := 9999.

Definition is_leap (y : Z) : bool :=
  (y mod 4 =? 0) && (negb (y mod 100 =? 0) || (y mod 400 =? 0)).

Definition days_before_year (y : Z) : Z :=
  let y1 := y - 1 in y1 * 365 + y1 / 4 - y1 / 100 + y1 / 400.

Definition DAYS_IN_MONTH : list Z :=
  [31; 28; 31; 30; 31; 30; 31; 31; 30; 31; 30; 31].

Definition days_in_month (y m : Z) : Z :=
  if (m =? 2) && is_leap y then 29
  else nth (Z.to_nat (m - 1)) DAYS_IN_MONTH 0.

Definition DAYS_BEFORE_MONTH : list Z :=
  [0; 31; 59; 90; 120; 151; 181; 212; 243; 273; 304; 334].

Definition days_before_month (y m : Z) : Z :=
  nth (Z.to_nat (m - 1)) DAYS_BEFORE_MONTH 0
  + (if (2 <? m) && is_leap y then 1 else 0).

Definition ymd2ord (y m d : Z) : Z :=
  days_before_year y + days_before_month y m + d.

(** [date(y, m, d)]: checks the fields, [ValueError] otherwise. *)
Definition new_date (y m d : Z) : exn + date :=
  if (MINYEAR <=? y) && (y <=? MAXYEAR) && (1 <=? m) && (m <=? 12)
     && (1 <=? d) && (d <=? days_in_month y m)
  then inr (mkdate y m d) else inl ValueError.

Definition toordinal (dt : date) : Z := ymd2ord (year dt) (month dt) (day dt).

(** [date.weekday()]: Monday is 0, Sunday is 6. *)
Definition weekday (dt : date) : Z := (toordinal dt + 6) mod 7.

(** [(a - b).days]. *)
Definition days_between (a b : date) : Z := toordinal a - toordinal b.

(** [str(date)], that is [date.isoformat()]. *)
Definition isoformat (dt : date) : string :=
  (PyStr.zfill 4 (year dt) ++ "-" ++ PyStr.zfill 2 (month dt) ++ "-"
   ++ PyStr.zfill 2 (day dt))%string.

(** The fields of a [datetime] the scraper reads. *)
Record datetime : Type :=
  mkdatetime { dt_date : date; hour : Z; minute : Z }.

End Datetime.

(* ================================================================== *)
(** ** [datetime.strptime] (CPython's [_strptime]), C/English locale

    The regexes of the directives are those of CPython 3.12. *)

Module Strptime.
Import Re.

Definition f_weekday : list string :=
  ["monday"; "tuesday"; "wednesday"; "thursday"; "friday"; "saturday";
   "sunday"].

Definition f_month : list string :=
  [""; "january"; "february"; "march"; "april"; "may"; "june"; "july";
   "august"; "september"; "october"; "november"; "december"].

Definition am_pm : list string := ["am"; "pm"].

(** [sorted(l, key=len, reverse=True)]: stable, longest first. *)
Fixpoint insert_by_len (x : string) (l : list string) : list string :=
  match l with
  | [] => [x]
  | y :: l' =>
      if String.length y <=? String.length x then x :: l
      else y :: insert_by_len x l'
  end.

Definition sort_by_len (l : list string) : list string :=
  fold_right insert_by_len [] l.

(** [TimeRE.__seqToRE]: an alternation of the names, as a named group. *)
Definition seqToRE (to_convert : list string) (directive : string) : regex :=
  Group directive (alts (map lit_ci (sort_by_len to_convert))).

Definition ws : regex := Plus PyStr.isspace.

(** The directives of [TimeRE] that the two formats use. *)
Definition directive_re (d : ascii) : option regex :=
  if Ascii.eqb d "d" then
    (* 3[0-1]|[1-2]\d|0[1-9]|[1-9]| [1-9] *)
    Some (Group "d" (alts [Seq (Chr (char_is "3")) (range "0" "1");
                           Seq (range "1" "2") digit;
                           Seq (Chr (char_is "0")) (range "1" "9");
                           range "1" "9";
                           Seq (Chr (char_is " ")) (range "1" "9")]))
  else if Ascii.eqb d "I" then
    (* 1[0-2]|0[1-9]|[1-9] *)
    Some (Group "I" (alts [Seq (Chr (char_is "1")) (range "0" "2");
                           Seq (Chr (char_is "0")) (range "1" "9");
                           range "1" "9"]))
  else if Ascii.eqb d "M" then
    (* [0-5]\d|\d *)
    Some (Group "M" (alts [Seq (range "0" "5") digit; digit]))
  else if Ascii.eqb d "Y" then
    (* \d\d\d\d *)
    Some (Group "Y" (seqs [digit; digit; digit; digit]))
  else if Ascii.eqb d "A" then Some (seqToRE f_weekday "A")
  else if Ascii.eqb d "B" then Some (seqToRE (tl f_month) "B")
  else if Ascii.eqb d "p" then Some (seqToRE am_pm "p")
  else None.

(** [TimeRE.pattern]: a run of white space in the format becomes [\s+],
    a directive its regex, any other character itself (the pattern is
    compiled with [re.IGNORECASE]).  [None]: a directive outside the
    table. *)
Fixpoint pattern_aux (in_ws : bool) (format : string) : option (list regex) :=
  match format with
  | EmptyString => Some []
  | String c rest =>
      if PyStr.isspace c then
        option_map (fun l => if in_ws then l else ws :: l)
                   (pattern_aux true rest)
      else if Ascii.eqb c "%" then
        match rest with
        | EmptyString => None
        | String d rest' =>
            match directive_re d, pattern_aux false rest' with
            | Some r, Some l => Some (r :: l)
            | _, _ => None
            end
        end
      else option_map (cons (Chr (char_is_ci c))) (pattern_aux false rest)
  end.

Definition pattern (format : string) : option regex :=
  option_map seqs (pattern_aux false format).

Fixpoint index (x : string) (l : list string) : option nat :=
  match l with
  | [] => None
  | y :: l' => if String.eqb y x then Some 0 else option_map S (index x l')
  end.

(** The field a group converts to, or its default when the format has
    no such directive; [None] stands for [ValueError]. *)
Definition int_group (name : string) (found : groupdict) (default : Z)
  : option Z :=
  match group name found with
  | Some v => PyStr.int v
  | None => Some default
  end.

Definition name_group (name : string) (names : list string)
           (found : groupdict) (default : Z) : option Z :=
  match group name found with
  | Some v => option_map Z.of_nat (index (PyStr.lower v) names)
  | None => Some default
  end.

(** The 12-hour clock of [%I] with the [%p] indicator. *)
Definition hour24 (hour : Z) (found : groupdict) : Z :=
  let ampm := match group "p" found with
              | Some v => PyStr.lower v
              | None => ""
              end in
  if String.eqb ampm "" || String.eqb ampm (nth 0 am_pm "")
  then (if (hour =? 12)%Z then 0%Z else hour)
  else if String.eqb ampm (nth 1 am_pm "")
  then (if (hour =? 12)%Z then hour else (hour + 12)%Z)
  else hour.

(** [datetime.strptime(data_string, format)].  The weekday a [%A] group
    names is looked up but takes no part in building the result. *)
Definition strptime (data_string format : string) : exn + Datetime.datetime :=
  match pattern format with
  | None => inl ValueError
  | Some format_regex =>
      match re_match format_regex data_string with
      | None => inl ValueError                 (* does not match format *)
      | Some (found, rest) =>
          if negb (String.eqb rest "") then inl ValueError
                                               (* unconverted data remains *)
          else
            match int_group "Y" found 1900, name_group "B" f_month found 1,
                  int_group "d" found 1, name_group "A" f_weekday found 0,
                  int_group "M" found 0
            with
            | Some year, Some month, Some day, Some _, Some minute =>
                let hour :=
                  match group "I" found with
                  | Some v => option_map (fun h => hour24 h found) (PyStr.int v)
                  | None => Some 0%Z
                  end in
                match hour, Datetime.new_date year month day with
                | Some hour, inr d => inr (Datetime.mkdatetime d hour minute)
                | _, _ => inl ValueError
                end
            | _, _, _, _, _ => inl ValueError
            end
      end
  end.

(** [dt.strftime('%H:%M')]. *)
Definition strftime_HM (dt : Datetime.datetime) : string :=
  PyStr.zfill 2 (Datetime.hour dt) ++ ":" ++ PyStr.zfill 2 (Datetime.minute dt).

End Strptime.

(* ================================================================== *)
(** ** BeautifulSoup: the parsed document

    The tree [BeautifulSoup(response.text, 'lxml')] builds.  A tag keeps
    its name, the value of its multi-valued [class] attribute ([None] when
    the tag has none) and its contents; no other attribute is read by the
    scraper.  Strings are [NavigableString]s; comments and the like, which
    [text] would leave out, are not part of the tree. *)

Module Bs4.
#[local] Set Warnings "-register-all".

Inductive PageElement : Type :=
| Tag (name : string) (class_ : option (list string))
      (contents : list PageElement)
| NavigableString (s : string).

Definition name (e : PageElement) : string :=
  match e with Tag n _ _ => n | NavigableString _ => "" end.

(** [tag.children]. *)
Definition children (e : PageElement) : list PageElement :=
  match e with Tag _ _ cs => cs | NavigableString _ => [] end.

(** [tag.get('class', [])]. *)
Definition get_class (e : PageElement) : list string :=
  match e with Tag _ (Some l) _ => l | _ => [] end.

(** [tag.descendants]: document order, the tag itself excluded. *)
Fixpoint descendants (e : PageElement) : list PageElement :=
  match e with
  | Tag _ _ cs =>
      (fix go (l : list PageElement) : list PageElement :=
         match l with
         | [] => []
         | c :: l' => (c :: descendants c) ++ go l'
         end)%list cs
  | NavigableString _ => []
  end.

(** [tag.text]: the strings below the tag, concatenated. *)
Fixpoint text (e : PageElement) : string :=
  match e with
  | Tag _ _ cs =>
      (fix go (l : list PageElement) : string :=
         match l with
         | [] => ""
         | c :: l' => text c ++ go l'
         end) cs
  | NavigableString s => s
  end.

(** How a filter on [class_] is applied to a tag: to each value of the
    attribute, then to the values joined by one space; a tag without the
    attribute is offered as [None]. *)
Definition class_matches (against : option string -> bool)
           (class_ : option (list string)) : bool :=
  match class_ with
  | None => against None
  | Some l =>
      existsb (fun v => against (Some v)) l || against (Some (PyStr.join " " l))
  end.

(** A string filter, [class_='liveeventtitle']. *)
Definition class_is (v : string) : option string -> bool :=
  fun markup => match markup with Some m => String.eqb m v | None => false end.

Definition tag_matches (tag_name : string) (against : option string -> bool)
           (e : PageElement) : bool :=
  match e with
  | Tag n cl _ => String.eqb n tag_name && class_matches against cl
  | NavigableString _ => false
  end.

(** [tag.find_all(name, class_=...)] and [tag.find(name, class_=...)]. *)
Definition find_all (tag_name : string) (against : option string -> bool)
           (e : PageElement) : list PageElement :=
  filter (tag_matches tag_name against) (descendants e).

Definition find (tag_name : string) (against : option string -> bool)
           (e : PageElement) : option PageElement :=
  hd_error (find_all tag_name against e).

End Bs4.

(* ================================================================== *)
(** ** app/scraper.py *)

Import Datetime Bs4.

Inductive Level : Type := DEBUG | INFO | WARNING | ERROR.

(** One constructor per logging call of the module, with the values its
    message interpolates. *)
Inductive Message : Type :=
| AttemptingDate (date_str : string)
| EmptyDateString
| DateNextYear (date_str : string) (d : date)
| DateParsed (date_str_with_year : string) (d : date)
| DateError (date_str cleaned : string)
| AttemptingTime (time_str : string)
| EmptyTimeString
| TimeParsed (time_str formatted : string)
| TimeError (time_str : string)
| StartingScrape
| NoFilmContainers
| FoundEntries (n : nat)
| SkippingNoTitle
| NoScreeningsList (film_title : string)
| FailedDateHeading (date_str_raw film_title : string)
| TimeWithNoDate (film_title : string)
| NoSpanTime (film_title : string) (current_date : date)
| NoValidScreenings (film_title : string)
| NetworkError (e : exn)
| UnexpectedError
| Finished (processed skipped : Z) (extracted : nat).

Definition LogRecord : Type := Level * Message.

(** What a run reads from outside: the module constant fixed at import,
    the date of [datetime.now()], and what [requests.get] does. *)
Record Response : Type :=
  mkResponse { status_code : Z; soup : PageElement }.

Record World : Type :=
  mkWorld { CURRENT_YEAR : Z; today : date; get : exn + Response }.

Definition VENUE : string := "Prince Charles Cinema".

(** [(\d+)(st|nd|rd|th)] *)
Definition ordinal_re : Re.regex :=
  Re.Seq (Re.Group "1" (Re.Plus PyStr.isdigit))
         (Re.Group "2" (Re.alts (map Re.lit ["st"; "nd"; "rd"; "th"]))).

Definition parse_pcc_date (w : World) (date_str : string)
  : option date * list LogRecord :=
  let l0 := [(DEBUG, AttemptingDate date_str)] in
  if String.eqb date_str "" then (None, l0 ++ [(WARNING, EmptyDateString)])%list
  else
    let cleaned_date_str := Re.sub1 ordinal_re (PyStr.strip date_str) in
    let date_str_with_year :=
      cleaned_date_str ++ " " ++ PyStr.str (CURRENT_YEAR w) in
    match Strptime.strptime date_str_with_year "%A %d %B %Y" with
    | inl _ => (None, l0 ++ [(ERROR, DateError date_str cleaned_date_str)])%list
    | inr parsed_dt =>
        if (days_between (today w) (dt_date parsed_dt) >? 60)%Z then
          let date_str_with_year :=
            cleaned_date_str ++ " " ++ PyStr.str (CURRENT_YEAR w + 1) in
          match Strptime.strptime date_str_with_year "%A %d %B %Y" with
          | inl _ =>
              (None, l0 ++ [(ERROR, DateError date_str cleaned_date_str)])%list
          | inr parsed_dt =>
              (Some (dt_date parsed_dt),
               l0 ++ [(DEBUG, DateNextYear date_str (dt_date parsed_dt))])%list
          end
        else
          (Some (dt_date parsed_dt),
           l0 ++ [(DEBUG, DateParsed date_str_with_year (dt_date parsed_dt))])%list
    end.

Definition parse_pcc_time (time_str : string) : option string * list LogRecord :=
  let l0 := [(DEBUG, AttemptingTime time_str)] in
  if String.eqb time_str "" then (None, l0 ++ [(WARNING, EmptyTimeString)])%list
  else
    match Strptime.strptime (PyStr.lower time_str) "%I:%M %p" with
    | inl _ => (None, l0 ++ [(ERROR, TimeError time_str)])%list
    | inr parsed_time_obj =>
        let formatted_time := Strptime.strftime_HM parsed_time_obj in
        (Some formatted_time, l0 ++ [(DEBUG, TimeParsed time_str formatted_time)])%list
    end.

Record Screening : Type :=
  mkScreening { Venue : string; Film : string; Date : string; Time : string }.

(** The locals of [scrape_pcc] that the loops update, with the records
    logged so far. *)
Record Frame : Type :=
  mkFrame { screenings : list Screening;
            processed_count : Z;
            skipped_count : Z;
            current_date : option date;
            found_screenings_for_film : Z;
            log : list LogRecord }.

Definition emit_all (l : list LogRecord) (fr : Frame) : Frame :=
  mkFrame (screenings fr) (processed_count fr) (skipped_count fr)
          (current_date fr) (found_screenings_for_film fr) (log fr ++ l).

Definition emit (lvl : Level) (m : Message) (fr : Frame) : Frame :=
  emit_all [(lvl, m)] fr.

Definition set_current_date (d : option date) (fr : Frame) : Frame :=
  mkFrame (screenings fr) (processed_count fr) (skipped_count fr)
          d (found_screenings_for_film fr) (log fr).

Definition skip_container (fr : Frame) : Frame :=
  mkFrame (screenings fr) (processed_count fr) (skipped_count fr + 1)
          (current_date fr) (found_screenings_for_film fr) (log fr).

(** Lines 116-118: a film with a title and a list starts with no date. *)
Definition start_film (fr : Frame) : Frame :=
  mkFrame (screenings fr) (processed_count fr + 1) (skipped_count fr)
          None 0 (log fr).

Definition append_screening (s : Screening) (fr : Frame) : Frame :=
  mkFrame (screenings fr ++ [s]) (processed_count fr) (skipped_count fr)
          (current_date fr) (found_screenings_for_film fr + 1) (log fr).

(** The body of [for child in perf_list.children] (lines 121-151). *)
Definition visit_child (w : World) (film_title : string)
           (fr : Frame) (child : PageElement) : Frame :=
  match child with
  | NavigableString _ => fr                    (* not isinstance(child, Tag) *)
  | Tag nm _ _ =>
      if String.eqb nm "div" && existsb (String.eqb "heading") (get_class child)
      then
        let date_str_raw := PyStr.strip (text child) in
        let '(d, lg) := parse_pcc_date w date_str_raw in
        let fr1 := set_current_date d (emit_all lg fr) in
        match d with
        | None => emit WARNING (FailedDateHeading date_str_raw film_title) fr1
        | Some _ => fr1
        end
      else if String.eqb nm "li" then
        match current_date fr with
        | None => emit WARNING (TimeWithNoDate film_title) fr
        | Some cd =>
            match find "span" (class_is "time") child with
            | None => emit WARNING (NoSpanTime film_title cd) fr
            | Some time_span =>
                let time_str_raw := PyStr.strip (text time_span) in
                let '(t, lg) := parse_pcc_time time_str_raw in
                let fr1 := emit_all lg fr in
                match t with
                | None => fr1
                | Some parsed_time_str =>
                    if String.eqb parsed_time_str "" then fr1
                    else append_screening
                           (mkScreening VENUE film_title (isoformat cd)
                                        parsed_time_str) fr1
                end
            end
        end
      else fr
  end.

(** Lines 102-103: the title, [""] standing also for the [None] of a
    missing anchor (both are falsy at line 105). *)
Definition film_title_of (container : PageElement) : string :=
  match find "a" (class_is "liveeventtitle") container with
  | Some title_anchor => PyStr.strip (text title_anchor)
  | None => ""
  end.

(** Line 110. *)
Definition perf_list_of (container : PageElement) : option PageElement :=
  find "ul" (class_is "performance-list-items") container.

(** The body of [for container in film_containers] (lines 102-154). *)
Definition visit_container (w : World) (fr : Frame) (container : PageElement)
  : Frame :=
  let film_title := film_title_of container in
  if String.eqb film_title "" then
    skip_container (emit WARNING SkippingNoTitle fr)
  else
    match perf_list_of container with
    | None => skip_container (emit DEBUG (NoScreeningsList film_title) fr)
    | Some perf_list =>
        let fr1 :=
          fold_left (visit_child w film_title) (children perf_list)
                    (start_film fr) in
        if (found_screenings_for_film fr1 =? 0)%Z
        then emit INFO (NoValidScreenings film_title) fr1
        else fr1
    end.

(** The filter of line 89-91, applied to what BeautifulSoup offers it. *)
Definition film_container_class (c_list : option string) : bool :=
  match c_list with
  | None => false
  | Some c =>
      negb (String.eqb c "")
      && PyStr.contains "jacro-event" c
      && PyStr.contains "movie-tabs" c
      && PyStr.contains "row" c
  end.

(** How the [try] block of [scrape_pcc] ends. *)
Inductive TryOutcome : Type :=
| Raised (e : exn) (l : list LogRecord)        (* lines 85-86 raise *)
| ReturnedEarly (result : list Screening) (l : list LogRecord)   (* line 95 *)
| Completed (fr : Frame).                      (* the loop ran to its end *)

Definition try_block (w : World) (l0 : list LogRecord) : TryOutcome :=
  match get w with
  | inl e => Raised e l0
  | inr response =>
      (* response.raise_for_status() *)
      if ((400 <=? status_code response) && (status_code response <? 600))%Z
      then Raised HTTPError l0
      else
        let film_containers :=
          find_all "div" film_container_class (soup response) in
        match film_containers with
        | [] => ReturnedEarly [] (l0 ++ [(ERROR, NoFilmContainers)])
        | _ =>
            let fr0 :=
              mkFrame [] 0 0 None 0
                      (l0 ++ [(INFO, FoundEntries (List.length film_containers))]) in
            Completed (fold_left (visit_container w) film_containers fr0)
        end
  end.

(** [scrape_pcc()]: the value returned or the exception that escapes, and
    the records logged.  When the [try] block raises, the handlers log and
    control reaches line 161, whose message reads [processed_count]: a
    local that line 98 never bound. *)
Definition scrape_pcc (w : World) : (exn + list Screening) * list LogRecord :=
  match try_block w [(INFO, StartingScrape)] with
  | Raised e l =>
      let l1 :=
        if is_RequestException e then (l ++ [(ERROR, NetworkError e)])%list
        else (l ++ [(ERROR, UnexpectedError)])%list in
      (inl (UnboundLocalError "processed_count"), l1)
  | ReturnedEarly result l => (inr result, l)
  | Completed fr =>
      (inr (screenings fr),
       (log fr ++ [(INFO, Finished (processed_count fr) (skipped_count fr)
                                   (List.length (screenings fr)))])%list)
  end.

(* ================================================================== *)
(** ** [save_showtimes] and the command line (lines 168-182) *)

(** *** [json.dump(data, f, indent=2, ensure_ascii=False)]

    The text the encoder writes for the data [scrape_pcc] builds: a list
    of dicts from strings to strings.  With [ensure_ascii=False] a string
    is written as it is but for the characters of [ESCAPE], which are the
    quote, the backslash and the code points below 32. *)

Module Json.

Definition quote : ascii := ascii_of_nat 34.
Definition backslash : ascii := ascii_of_nat 92.
Definition newline : ascii := ascii_of_nat 10.

(** One digit of ['{0:04x}'.format(n)]. *)
Definition hex_digit (n : nat) : ascii :=
  if n <? 10 then ascii_of_nat (48 + n) else ascii_of_nat (87 + n).

(** [ESCAPE_DCT]: what a character is written as. *)
Definition escape_char (c : ascii) : string :=
  let n := nat_of_ascii c in
  if n =? 92 then String backslash (String backslash "")
  else if n =? 34 then String backslash (String quote "")
  else if n =? 8 then String backslash "b"
  else if n =? 12 then String backslash "f"
  else if n =? 10 then String backslash "n"
  else if n =? 13 then String backslash "r"
  else if n =? 9 then String backslash "t"
  else if n <? 32 then
    String backslash
           ("u00" ++ String (hex_digit (n / 16))
                            (String (hex_digit (n mod 16)) ""))
  else String c "".

Fixpoint escape (s : string) : string :=
  match s with
  | EmptyString => ""
  | String c s' => escape_char c ++ escape s'
  end.

(** [encode_basestring]. *)
Definition encode_basestring (s : string) : string :=
  String quote (escape s ++ String quote "").

Fixpoint blanks (n : nat) : string :=
  match n with
  | O => ""
  | S n' => String " " (blanks n')
  end.

(** ['\n' + ' ' * (indent * level)], with [indent = 2]. *)
Definition newline_indent (level : nat) : string :=
  String newline (blanks (2 * level)).

(** A dict in insertion order. *)
Definition dict : Type := list (string * string).

(** [_iterencode_dict]: the item separator is [','] and the key separator
    [': '] when an indent is given. *)
Definition encode_dict (level : nat) (d : dict) : string :=
  match d with
  | [] => "{}"
  | _ =>
      "{" ++ newline_indent (S level)
      ++ PyStr.join ("," ++ newline_indent (S level))
                    (map (fun kv => encode_basestring (fst kv) ++ ": "
                                    ++ encode_basestring (snd kv)) d)
      ++ newline_indent level ++ "}"
  end.

(** [_iterencode_list]. *)
Definition encode_list (level : nat) (l : list dict) : string :=
  match l with
  | [] => "[]"
  | _ =>
      "[" ++ newline_indent (S level)
      ++ PyStr.join ("," ++ newline_indent (S level))
                    (map (encode_dict (S level)) l)
      ++ newline_indent level ++ "]"
  end.

(** The text [json.dump] writes for a list of dicts. *)
Definition dumps (data : list dict) : string := encode_list 0 data.

End Json.

(** *** [os.path.dirname] and [os.makedirs] *)

Module Os.

Definition sep : ascii := "/".

(** [p[:p.rfind('/') + 1]]. *)
Fixpoint head_of (p : string) : string :=
  match p with
  | EmptyString => ""
  | String c p' =>
      match head_of p' with
      | EmptyString => if Ascii.eqb c sep then String c "" else ""
      | h => String c h
      end
  end.

(** [head.rstrip('/')]. *)
Fixpoint rstrip_sep (s : string) : string :=
  match s with
  | EmptyString => ""
  | String c s' =>
      match rstrip_sep s' with
      | EmptyString => if Ascii.eqb c sep then "" else String c ""
      | r => String c r
      end
  end.

(** [posixpath.dirname]: the head is kept as it is when it is empty or
    made of slashes only, and loses its trailing slashes otherwise. *)
Definition dirname (p : string) : string :=
  let head := head_of p in
  if String.eqb head "" || PyStr.all_chars (Ascii.eqb sep) head then head
  else rstrip_sep head.

Inductive OSError : Type :=
| FileNotFoundError
| FileExistsError
| NotADirectoryError
| IsADirectoryError
| PermissionError.

(** What the file system does to the calls of a run: the exception
    [os.makedirs(name, exist_ok=True)] ends in for a name that is not
    empty, and the one [open(filename, "w", encoding="utf-8")] ends in;
    [None] when the call succeeds. *)
Record FileSystem : Type :=
  mkFileSystem { makedirs_raises : string -> option OSError;
                 open_raises : string -> option OSError }.

(** [os.makedirs(name, exist_ok=True)].  The empty name has no head and no
    tail to create, [mkdir("")] fails with [ENOENT] and [""] is not a
    directory, so [FileNotFoundError] is raised whatever the file system
    holds. *)
Definition makedirs (fs : FileSystem) (name : string) : option OSError :=
  if String.eqb name "" then Some FileNotFoundError
  else makedirs_raises fs name.

End Os.

(** What a run leaves outside the process. *)
Inductive Output : Type :=
| Banner                        (* line 179 *)
| Done (saved : nat).           (* line 182 *)

Inductive Effect : Type :=
| Printed (o : Output)
| MadeDirs (name : string)
| Wrote (filename text : string).

(** The dict of lines 145-150. *)
Definition to_dict (s : Screening) : Json.dict :=
  [("Venue", Venue s); ("Film", Film s); ("Date", Date s); ("Time", Time s)].

(** [save_showtimes(data, filename)] for the data of [scrape_pcc]: the
    exception that escapes, if any, and what was done to the file
    system. *)
Definition save_showtimes (fs : Os.FileSystem) (data : list Screening)
           (filename : string) : option Os.OSError * list Effect :=
  let dir := Os.dirname filename in
  match Os.makedirs fs dir with
  | Some e => (Some e, [])
  | None =>
      match Os.open_raises fs filename with
      | Some e => (Some e, [MadeDirs dir])
      | None =>
          (None,
           [MadeDirs dir; Wrote filename (Json.dumps (map to_dict data))])
      end
  end.

Definition DEFAULT_FILENAME : string := "data/showtimes_pcc.json".

(** How the script ends when run from the command line. *)
Inductive Uncaught : Type :=
| FromScraper (e : exn)
| FromSave (e : Os.OSError).

(** Lines 177-182: the exception the process dies of, if any, what it
    printed and did to the file system, and what it logged. *)
Definition main (w : World) (fs : Os.FileSystem)
  : option Uncaught * list Effect * list LogRecord :=
  match scrape_pcc w with
  | (inl e, lg) => (Some (FromScraper e), [Printed Banner], lg)
  | (inr data, lg) =>
      match save_showtimes fs data DEFAULT_FILENAME with
      | (Some e, done) => (Some (FromSave e), Printed Banner :: done, lg)
      | (None, done) =>
          (None,
           (Printed Banner :: done ++ [Printed (Done (List.length data))])%list,
           lg)
      end
  end.

(** *** Sample documents: builders for the fragments of the page *)

Definition li_time (t : string) : PageElement :=
  Tag "li" None [Tag "span" (Some ["time"]) [NavigableString t]].

Definition heading (t : string) : PageElement :=
  Tag "div" (Some ["heading"]) [NavigableString t].

Definition film (title : string) (items : option (list PageElement))
  : PageElement :=
  Tag "div" (Some ["jacro-event"; "movie-tabs"; "row"])
      (Tag "a" (Some ["liveeventtitle"]) [NavigableString title]
       :: match items with
          | Some l => [Tag "ul" (Some ["performance-list-items"]) l]
          | None => []
          end).

Definition page (films : list PageElement) : PageElement :=
  Tag "[document]" None [Tag "html" None [Tag "body" None films]].

(** A run on 1 April 2025 that fetched [doc]. *)
Definition world_2025 (doc : PageElement) : World :=
  mkWorld 2025 (mkdate 2025 4 1) (inr (mkResponse 200 doc)).

(** *** Predicates the statements use *)

(** The test of line 124. *)
Definition is_heading (child : PageElement) : bool :=
  match child with
  | Tag nm _ _ =>
      String.eqb nm "div" && existsb (String.eqb "heading") (get_class child)
  | NavigableString _ => false
  end.

(** The date a heading fragment resolves to, as line 125-126 computes it. *)
Definition heading_date (w : World) (child : PageElement) : option date :=
  fst (parse_pcc_date w (PyStr.strip (text child))).

(** A child that is a heading whose text parses. *)
Definition sets_date (w : World) (child : PageElement) : bool :=
  is_heading child
  && match heading_date w child with Some _ => true | None => false end.

(* ================================================================== *)
(** ** The vocabulary of the statements

    Predicates, sample inputs and reading functions that the
    properties below are stated and proved with. *)

Import Re Strptime.

(** Two frames that agree on everything but the log and, by [k], on the
    skipped count. *)
Definition agree (k : Z) (a b : Frame) : Prop :=
  screenings a = screenings b
  /\ processed_count a = processed_count b
  /\ skipped_count a = (skipped_count b + k)%Z
  /\ current_date a = current_date b
  /\ found_screenings_for_film a = found_screenings_for_film b.

(** The frame the loop over [cs] ends in, from the state of lines 82,
    98-99. *)
Definition run_frame (w : World) (cs : list PageElement) : Frame :=
  fold_left (visit_container w) cs (mkFrame [] 0 0 None 0 []).

Definition fetched (w : World) (response : Response) : Prop :=
  get w = inr response
  /\ ((400 <=? status_code response) && (status_code response <? 600))%Z = false.

Definition film_containers (response : Response) : list PageElement :=
  find_all "div" film_container_class (soup response).

(** A tag carries the three class markers of a film fragment when it is a
    [div] and each marker occurs in the text of its class attribute (the
    class values joined by one space). *)
Definition carries_markers (e : PageElement) : bool :=
  match e with
  | Tag nm (Some l) _ =>
      let c := PyStr.join " " l in
      String.eqb nm "div" && PyStr.contains "jacro-event" c
      && PyStr.contains "movie-tabs" c && PyStr.contains "row" c
  | _ => false
  end.

(** What the fetch of lines 85-86 raises, if it raises: the exception of
    [requests.get], or [HTTPError] from [raise_for_status] on a status
    400..599. *)
Definition fetch_raises (w : World) : option exn :=
  match get w with
  | inl e => Some e
  | inr response =>
      if ((400 <=? status_code response) && (status_code response <? 600))%Z
      then Some HTTPError else None
  end.

(** [derives r w g]: the regex [r] matches exactly the text [w], with the
    groups [g]. *)
Fixpoint derives (r : regex) (w : string) (g : groupdict) : Prop :=
  match r with
  | Eps => w = "" /\ g = []
  | Chr p => exists c, w = String c "" /\ p c = true /\ g = []
  | Seq r1 r2 =>
      exists w1 w2 g1 g2,
        w = w1 ++ w2 /\ g = (g1 ++ g2)%list
        /\ derives r1 w1 g1 /\ derives r2 w2 g2
  | Alt r1 r2 => derives r1 w g \/ derives r2 w g
  | Plus p => w <> "" /\ PyStr.all_chars p w = true /\ g = []
  | Group name r1 => exists g1, g = (name, w) :: g1 /\ derives r1 w g1
  end.

(** A character is a letter when lowering it gives one of [a]..[z]. *)
Definition lower_letter (c : ascii) : bool :=
  PyStr.in_range "a" "z" (PyStr.lower_char c).

(** The longest prefix of characters of class [p], and what follows. *)
Fixpoint span (p : ascii -> bool) (s : string) : string * string :=
  match s with
  | String c s' =>
      if p c then (String c (fst (span p s')), snd (span p s')) else ("", s)
  | EmptyString => ("", "")
  end.

(** [s] is empty or starts outside class [p]. *)
Definition stops (p : ascii -> bool) (s : string) : Prop :=
  match s with
  | String c _ => p c = false
  | EmptyString => True
  end.

Fixpoint starts_with (pre s : string) : bool :=
  match pre with
  | EmptyString => true
  | String a pre' =>
      match s with
      | String b s' => Ascii.eqb a b && starts_with pre' s'
      | EmptyString => false
      end
  end.

Fixpoint sdrop (n : nat) (s : string) : string :=
  match n with
  | O => s
  | S n' => match s with String _ s' => sdrop n' s' | EmptyString => "" end
  end.

(** The first of [names] that [s] starts with, letter case apart, and the
    text after it. *)
Fixpoint match_name (names : list string) (s : string)
  : option (string * string) :=
  match names with
  | [] => None
  | n :: names' =>
      if starts_with n (PyStr.lower s)
      then Some (n, sdrop (String.length n) s)
      else match_name names' s
  end.

(** Names none of which another one starts with. *)
Fixpoint prefix_free_from (n : string) (l : list string) : bool :=
  match l with
  | [] => true
  | m :: l' =>
      (String.eqb n m || negb (starts_with m n || starts_with n m))
      && prefix_free_from n l'
  end.

Definition prefix_free (l : list string) : bool :=
  forallb (fun n => prefix_free_from n l) l.

Definition hour_re : regex :=
  alts [Seq (Chr (char_is "1")) (range "0" "2");
        Seq (Chr (char_is "0")) (range "1" "9");
        range "1" "9"].

Definition minute_re : regex := alts [Seq (range "0" "5") digit; digit].

Definition meridiem_re : regex := alts (map lit_ci ["am"; "pm"]).

Definition time_re : regex :=
  Seq (Group "I" hour_re)
      (Seq (Chr (char_is_ci ":"))
           (Seq (Group "M" minute_re) (Seq ws (Group "p" meridiem_re)))).

(** The texts [%I] and [%M] match. *)
Definition valid_hour (hs : string) : bool :=
  match hs with
  | String a EmptyString => PyStr.in_range "1" "9" a
  | String a (String b EmptyString) =>
      (Ascii.eqb "1" a && PyStr.in_range "0" "2" b)
      || (Ascii.eqb "0" a && PyStr.in_range "1" "9" b)
  | _ => false
  end.

Definition valid_minute (ms : string) : bool :=
  match ms with
  | String a EmptyString => PyStr.isdigit a
  | String a (String b EmptyString) => PyStr.in_range "0" "5" a && PyStr.isdigit b
  | _ => false
  end.







Definition weekday_re : regex := alts (map lit_ci (sort_by_len f_weekday)).

Definition month_re : regex := alts (map lit_ci (sort_by_len (tl f_month))).

Definition day_re : regex :=
  alts [Seq (Chr (char_is "3")) (range "0" "1");
        Seq (range "1" "2") digit;
        Seq (Chr (char_is "0")) (range "1" "9");
        range "1" "9";
        Seq (Chr (char_is " ")) (range "1" "9")].

Definition year_re : regex := seqs [digit; digit; digit; digit].

Definition date_re : regex :=
  Seq (Group "A" weekday_re)
      (Seq ws (Seq (Group "d" day_re)
                   (Seq ws (Seq (Group "B" month_re)
                                (Seq ws (Group "Y" year_re)))))).

(** The digits [%d] accepts. *)
Definition valid_day (ds : string) : bool :=
  match ds with
  | String a EmptyString => PyStr.in_range "1" "9" a
  | String a (String b EmptyString) =>
      (Ascii.eqb "3" a && PyStr.in_range "0" "1" b)
      || (PyStr.in_range "1" "2" a && PyStr.isdigit b)
      || (Ascii.eqb "0" a && PyStr.in_range "1" "9" b)
  | _ => false
  end.

Definition spaces (W : string) : Prop :=
  W <> "" /\ PyStr.all_chars PyStr.isspace W = true.

Definition year_text (wY : string) : Prop :=
  String.length wY = 4 /\ PyStr.all_chars PyStr.isdigit wY = true.

(** The number of the month a [%B] text names; 0 when it names none. *)
Definition month_number (wB : string) : Z :=
  match index (PyStr.lower wB) f_month with
  | Some k => Z.of_nat k
  | None => 0
  end.

(** The fields [strptime] reads from the groups of a match. *)
Definition converts (found : groupdict) (y m d : Z) : Prop :=
  int_group "Y" found 1900 = Some y
  /\ name_group "B" f_month found 1 = Some m
  /\ int_group "d" found 1 = Some d
  /\ (exists k, name_group "A" f_weekday found 0 = Some k)
  /\ int_group "M" found 0 = Some 0%Z
  /\ group "I" found = None.

Fixpoint stake (n : nat) (s : string) : string :=
  match n with
  | O => ""
  | S n' =>
      match s with
      | String c s' => String c (stake n' s')
      | EmptyString => ""
      end
  end.

Definition scan_date (s : string) : option (Z * Z * Z * string) :=
  match match_name f_weekday s with
  | None => None
  | Some (_, r1) =>
      let r2 := snd (span PyStr.isspace r1) in
      let ds := fst (span PyStr.isdigit r2) in
      let r3 := snd (span PyStr.isdigit r2) in
      let r4 := snd (span PyStr.isspace r3) in
      match match_name (tl f_month) r4 with
      | None => None
      | Some (mn, r5) =>
          let r6 := snd (span PyStr.isspace r5) in
          Some (PyStr.digits_val 0 (stake 4 r6), month_number mn,
                PyStr.digits_val 0 ds, sdrop 4 r6)
      end
  end.

(** What [strptime] returns for a text of the shape. *)
Definition date_result (wY wB ds : string) : exn + datetime :=
  match new_date (PyStr.digits_val 0 wY) (month_number wB)
                 (PyStr.digits_val 0 ds) with
  | inr d => inr (mkdatetime d 0 0)
  | inl _ => inl ValueError
  end.

(** The integers [lo], [lo + 1], ..., [lo + n - 1]. *)
Definition Zrange (lo : Z) (n : nat) : list Z :=
  map (fun i => (lo + Z.of_nat i)%Z) (seq 0 n).

(** The ways of writing the meridiem, with whether it is the afternoon. *)
Definition meridiem_texts : list (string * bool) :=
  [("am", false); ("AM", false); ("Am", false); ("aM", false);
   ("pm", true); ("PM", true); ("Pm", true); ("pM", true)].

(** The hour of the day that hour [h] of the 12-hour clock denotes. *)
Definition hour_of_day (h : Z) (pm : bool) : Z :=
  (h mod 12 + (if pm then 12 else 0))%Z.

(** The time text for hour [h] written as [hs], minute [m], meridiem [mer]. *)
Definition time_text (hs : string) (m : Z) (mer : string) : string :=
  hs ++ ":" ++ PyStr.zfill 2 m ++ " " ++ mer.

Definition time_ok (h m : Z) : bool :=
  forallb (fun mp : string * bool =>
             forallb (fun hs =>
                        match fst (parse_pcc_time (time_text hs m (fst mp))) with
                        | Some r =>
                            String.eqb r (PyStr.zfill 2 (hour_of_day h (snd mp))
                                          ++ ":" ++ PyStr.zfill 2 m)
                        | None => false
                        end)
                     [PyStr.str h; PyStr.zfill 2 h])
          meridiem_texts.

Definition year_str_ok (y : Z) : bool :=
  (String.length (PyStr.str y) =? 4)
  && PyStr.all_chars PyStr.isdigit (PyStr.str y)
  && (PyStr.digits_val 0 (PyStr.str y) =? y)%Z.

(** The date a heading text resolves to when [year] is appended to it:
    lines 33-35 (and 38-39) of [parse_pcc_date]. *)
Definition date_under (year : Z) (text : string) : option date :=
  match strptime (Re.sub1 ordinal_re (PyStr.strip text) ++ " " ++ PyStr.str year)
                 "%A %d %B %Y" with
  | inr dt => Some (dt_date dt)
  | inl _ => None
  end.

(** The same day and month in the year after [y], when there is such a
    date. *)
Definition same_day_next_year (y : Z) (d1 : date) : option date :=
  match new_date (y + 1) (month d1) (day d1) with
  | inr d2 => Some d2
  | inl _ => None
  end.

Definition weekday_names : list string :=
  ["Monday"; "Tuesday"; "Wednesday"; "Thursday"; "Friday"; "Saturday";
   "Sunday"].

Definition month_names : list (Z * string) :=
  [(1, "January"); (2, "February"); (3, "March"); (4, "April"); (5, "May");
   (6, "June"); (7, "July"); (8, "August"); (9, "September");
   (10, "October"); (11, "November"); (12, "December")]%Z.

Definition ordinal_suffixes : list string := ["st"; "nd"; "rd"; "th"].

(** "<Weekday> <Day><ordinal> <Month>". *)
Definition heading_text (W : string) (d : Z) (o M : string) : string :=
  W ++ " " ++ PyStr.str d ++ o ++ " " ++ M.

(** The same without the ordinal. *)
Definition plain_text (W : string) (d : Z) (M : string) : string :=
  W ++ " " ++ PyStr.str d ++ " " ++ M.

Definition cleans_ok (W : string) (d : Z) (o : string) (M : string) : bool :=
  negb (String.eqb (heading_text W d o M) "")
  && String.eqb (Re.sub1 ordinal_re (PyStr.strip (heading_text W d o M)))
                (plain_text W d M).

Definition day_str_ok (d : Z) : bool :=
  valid_day (PyStr.str d) && (PyStr.digits_val 0 (PyStr.str d) =? d)%Z.



(** The text [parse_pcc_time] returns for the hour text [wI], the minute
    text [wM] and the meridiem [wp]. *)
Definition time_value (wI wM wp : string) : string :=
  PyStr.zfill 2 (hour_of_day (PyStr.digits_val 0 wI)
                             (String.eqb (PyStr.lower wp) "pm"))
  ++ ":" ++ PyStr.zfill 2 (PyStr.digits_val 0 wM).

(** A text of the form [HH:MM] with [HH] in 00..23 and [MM] in 00..59. *)
Definition is_HH_MM (r : string) : bool :=
  match r with
  | String a (String b (String c (String d (String e EmptyString)))) =>
      PyStr.isdigit a && PyStr.isdigit b && Ascii.eqb c ":"
      && PyStr.isdigit d && PyStr.isdigit e
      && (PyStr.digits_val 0 (String a (String b "")) <=? 23)%Z
      && (PyStr.digits_val 0 (String d (String e "")) <=? 59)%Z
  | _ => false
  end.

(** The fields of a time text, read left to right, each run taken as long
    as it goes. *)
Definition scan_time (s : string) : option (string * string * string * string) :=
  match snd (span PyStr.isdigit s) with
  | String _ r2 =>
      let r4 := snd (span PyStr.isspace (snd (span PyStr.isdigit r2))) in
      Some (fst (span PyStr.isdigit s), fst (span PyStr.isdigit r2),
            stake 2 r4, sdrop 2 r4)
  | EmptyString => None
  end.

Definition time_shape (s wI wM wp : string) : Prop :=
  exists W,
    s = wI ++ ":" ++ wM ++ W ++ wp
    /\ valid_hour wI = true /\ valid_minute wM = true
    /\ spaces W
    /\ (PyStr.lower wp = "am" \/ PyStr.lower wp = "pm").

Definition hh_mm_ok (h m : Z) : bool :=
  is_HH_MM (PyStr.zfill 2 h ++ ":" ++ PyStr.zfill 2 m).

(** A date of the calendar. *)
Definition valid_date (d : date) : Prop :=
  (1 <= year d <= 9999)%Z /\ (1 <= month d <= 12)%Z
  /\ (1 <= day d <= days_in_month (year d) (month d))%Z.

Definition olist {A : Type} (o : option A) : list A :=
  match o with Some x => [x] | None => [] end.

(** The record a list item yields under the date [cd] (lines 131-151). *)
Definition item_record (title : string) (cd : date) (child : PageElement)
  : option Screening :=
  match child with
  | Tag nm _ _ =>
      if String.eqb nm "li" then
        match find "span" (class_is "time") child with
        | Some time_span =>
            match fst (parse_pcc_time (PyStr.strip (text time_span))) with
            | Some t => Some (mkScreening VENUE title (isoformat cd) t)
            | None => None
            end
        | None => None
        end
      else None
  | NavigableString _ => None
  end.

(** The records a child adds when the current date is [cur]. *)
Definition child_records (title : string) (cur : option date)
           (child : PageElement) : list Screening :=
  if is_heading child then []
  else match cur with
       | Some cd => olist (item_record title cd child)
       | None => []
       end.

(** The current date after a child. *)
Definition child_date (w : World) (cur : option date) (child : PageElement)
  : option date :=
  if is_heading child then heading_date w child else cur.

(** The records of a run of children, from the current date [cur]. *)
Fixpoint list_records (w : World) (title : string) (cur : option date)
         (items : list PageElement) : list Screening :=
  match items with
  | [] => []
  | c :: rest =>
      (child_records title cur c
       ++ list_records w title (child_date w cur c) rest)%list
  end.

(** The records one film container yields, on its own. *)
Definition film_screenings (w : World) (c : PageElement) : list Screening :=
  screenings (visit_container w (mkFrame [] 0 0 None 0 []) c).

(** A container with a title and a showings list (lines 105, 111). *)
Definition is_processed (c : PageElement) : bool :=
  negb (String.eqb (film_title_of c) "")
  && match perf_list_of c with Some _ => true | None => false end.

(** The message of line 154. *)
Definition is_no_valid (r : LogRecord) : bool :=
  match snd r with NoValidScreenings _ => true | _ => false end.

(** The ISO text of a date of the calendar: ten characters. *)
Definition zfill_ok (w : nat) (n : Z) : bool :=
  String.length (PyStr.zfill w n) =? w.

(** What a record of a film holds. *)
Definition record_of (title : string) (s : Screening) : Prop :=
  Venue s = VENUE /\ Film s = title
  /\ (exists cd, valid_date cd /\ Date s = isoformat cd)
  /\ is_HH_MM (Time s) = true.

(** A page of two films, the second without a showings list. *)
Definition sample_page : PageElement :=
  page [film "Film A" (Some [heading "Thursday 3rd April";
                             li_time "12:00 pm"; li_time "3:30 pm";
                             heading "Friday 4th April"; li_time "6:15 pm"]);
        film "Film B" None].

Definition sample_response : Response := mkResponse 200 sample_page.

(** The file name has no directory part. *)
Definition bare_name (filename : string) : bool :=
  PyStr.all_chars (fun c => negb (Ascii.eqb c Os.sep)) filename.

(** A file system on which every call succeeds. *)
Definition permissive_fs : Os.FileSystem :=
  Os.mkFileSystem (fun _ => None) (fun _ => None).

(** Reading one character of a JSON string body back: the character and
    the rest of the text, or [None] at the closing quote and at what no
    escape starts with. *)
Definition hex_val (c : ascii) : nat :=
  let n := nat_of_ascii c in
  if n <? 58 then n - 48 else n - 87.

Definition unescape_char (t : string) : option (ascii * string) :=
  match t with
  | EmptyString => None
  | String c r =>
      if Ascii.eqb c Json.quote then None
      else if Ascii.eqb c Json.backslash then
        match r with
        | EmptyString => None
        | String d r' =>
            if Ascii.eqb d Json.backslash then Some (Json.backslash, r')
            else if Ascii.eqb d Json.quote then Some (Json.quote, r')
            else if Ascii.eqb d "b" then Some (ascii_of_nat 8, r')
            else if Ascii.eqb d "f" then Some (ascii_of_nat 12, r')
            else if Ascii.eqb d "n" then Some (ascii_of_nat 10, r')
            else if Ascii.eqb d "r" then Some (ascii_of_nat 13, r')
            else if Ascii.eqb d "t" then Some (ascii_of_nat 9, r')
            else if Ascii.eqb d "u" then
              match r' with
              | String _ (String _ (String h1 (String h2 r''))) =>
                  Some (ascii_of_nat (16 * hex_val h1 + hex_val h2), r'')
              | _ => None
              end
            else None
        end
      else Some (c, r)
  end.

(** What the encoder writes before the value of a key of a record. *)
Definition field_prefix (first : bool) (key : string) : string :=
  (if first then "{" else ",") ++ Json.newline_indent 2
  ++ Json.encode_basestring key ++ ": ".

(* ================================================================== *)
(** * Properties *)

#[local] Arguments Ascii.eqb : simpl never.

(** ** Frames *)

Lemma emit_all_fields l fr :
  screenings (emit_all l fr) = screenings fr
  /\ processed_count (emit_all l fr) = processed_count fr
  /\ skipped_count (emit_all l fr) = skipped_count fr
  /\ current_date (emit_all l fr) = current_date fr
  /\ found_screenings_for_film (emit_all l fr) = found_screenings_for_film fr.
Proof. repeat split. Qed.

Lemma agree_refl fr : agree 0 fr fr.
Proof. unfold agree; repeat split; lia. Qed.

Lemma agree_emit_all_l k l a b : agree k a b -> agree k (emit_all l a) b.
Proof. unfold agree; simpl; tauto. Qed.

Lemma agree_emit_all_r k l a b : agree k a b -> agree k a (emit_all l b).
Proof. unfold agree; simpl; tauto. Qed.

Lemma visit_child_agree w title k a b child :
  agree k a b ->
  agree k (visit_child w title a child) (visit_child w title b child).
Proof.
  intros (Hs & Hp & Hk & Hd & Hf).
  unfold visit_child.
  destruct child as [nm cl cs|t]; [|unfold agree; tauto].
  destruct (String.eqb nm "div" && _).
  - destruct (parse_pcc_date w _) as [[d|] lg]; unfold agree; simpl; tauto.
  - destruct (String.eqb nm "li"); [|unfold agree; tauto].
    rewrite Hd. destruct (current_date b) as [cd|] eqn:Eb;
      [|unfold agree; simpl; intuition congruence].
    destruct (find "span" _ _) as [sp|];
      [|unfold agree; simpl; intuition congruence].
    destruct (parse_pcc_time _) as [[t|] lg];
      [|unfold agree; simpl; intuition congruence].
    destruct (String.eqb t ""); unfold agree; simpl;
      [intuition congruence|].
    rewrite Hs, Hf. intuition congruence.
Qed.

Lemma fold_visit_child_agree w title k items : forall a b,
  agree k a b ->
  agree k (fold_left (visit_child w title) items a)
          (fold_left (visit_child w title) items b).
Proof.
  induction items as [|c items IH]; intros a b H; simpl; [exact H|].
  apply IH, visit_child_agree, H.
Qed.

Lemma visit_container_agree w k a b c :
  agree k a b -> agree k (visit_container w a c) (visit_container w b c).
Proof.
  intros H. unfold visit_container.
  destruct (String.eqb _ "").
  - destruct H as (Hs & Hp & Hk & Hd & Hf). unfold agree; simpl.
    repeat split; auto; lia.
  - destruct (perf_list_of c) as [pl|].
    + assert (H1 : agree k (start_film a) (start_film b)).
      { destruct H as (Hs & Hp & Hk & Hd & Hf). unfold agree; simpl.
        repeat split; auto; lia. }
      apply (fold_visit_child_agree w (film_title_of c) k (children pl)) in H1.
      destruct H1 as (Hs & Hp & Hk & Hd & Hf). rewrite Hf.
      destruct (_ =? 0)%Z; unfold agree; simpl; auto.
    + destruct H as (Hs & Hp & Hk & Hd & Hf). unfold agree; simpl.
      repeat split; auto; lia.
Qed.

Lemma fold_visit_container_agree w k cs : forall a b,
  agree k a b ->
  agree k (fold_left (visit_container w) cs a)
          (fold_left (visit_container w) cs b).
Proof.
  induction cs as [|c cs IH]; intros a b H; simpl; [exact H|].
  apply IH, visit_container_agree, H.
Qed.

(** ** The run as a whole *)

Lemma scrape_pcc_completed w response :
  fetched w response ->
  film_containers response <> [] ->
  exists fr,
    agree 0 fr (run_frame w (film_containers response))
    /\ scrape_pcc w
       = (inr (screenings fr),
          (log fr ++ [(INFO, Finished (processed_count fr) (skipped_count fr)
                                      (List.length (screenings fr)))])%list).
Proof.
  intros [Hget Hst] Hne. unfold scrape_pcc, try_block.
  rewrite Hget, Hst. fold (film_containers response).
  destruct (film_containers response) as [|c cs] eqn:E; [congruence|].
  eexists; split; [|reflexivity].
  apply fold_visit_container_agree. unfold agree; simpl. repeat split; lia.
Qed.

(** ** Skipped film fragments *)

Lemma visit_container_skip w fr c :
  film_title_of c = "" \/ perf_list_of c = None ->
  agree 1 (visit_container w fr c) fr.
Proof.
  intros H. unfold visit_container.
  destruct (String.eqb (film_title_of c) "") eqn:E.
  - unfold agree; simpl; repeat split; lia.
  - destruct H as [H|H]; [rewrite H in E; discriminate|].
    rewrite H. unfold agree; simpl; repeat split; lia.
Qed.

Lemma fold_visit_container_app w l1 l2 fr :
  fold_left (visit_container w) (l1 ++ l2)%list fr
  = fold_left (visit_container w) l2 (fold_left (visit_container w) l1 fr).
Proof. apply fold_left_app. Qed.

(** C8. A film fragment without an extractable title, or with a title but
    without the showings list, adds no record, raises the skipped count by
    one and leaves the processed count alone; the fragments around it
    yield what they yield without it, in the loop and in the result and
    the closing log record of [scrape_pcc]. *)
Theorem skipped_fragment_isolated (w : World) (c : PageElement) :
  film_title_of c = "" \/ perf_list_of c = None ->
  (forall fr,
      screenings (visit_container w fr c) = screenings fr
      /\ skipped_count (visit_container w fr c) = (skipped_count fr + 1)%Z
      /\ processed_count (visit_container w fr c) = processed_count fr)
  /\ (forall before after fr,
         agree 1 (fold_left (visit_container w) (before ++ c :: after)%list fr)
                 (fold_left (visit_container w) (before ++ after)%list fr))
  /\ (forall response before after,
         fetched w response ->
         film_containers response = (before ++ c :: after)%list ->
         let rest := run_frame w (before ++ after) in
         exists l,
           scrape_pcc w
           = (inr (screenings rest),
              (l ++ [(INFO, Finished (processed_count rest)
                                     (skipped_count rest + 1)
                                     (List.length (screenings rest)))])%list)).
Proof.
  intros Hc.
  assert (Hloop : forall before after fr,
             agree 1 (fold_left (visit_container w) (before ++ c :: after)%list fr)
                     (fold_left (visit_container w) (before ++ after)%list fr)).
  { intros before after fr. rewrite !fold_visit_container_app. simpl.
    apply fold_visit_container_agree, visit_container_skip, Hc. }
  split; [|split].
  - intros fr. destruct (visit_container_skip w fr c Hc) as (Hs & Hp & Hk & _).
    auto.
  - exact Hloop.
  - intros response before after Hf Hcs rest.
    destruct (scrape_pcc_completed w response Hf) as (fr & Ha & Heq).
    { rewrite Hcs. destruct before; discriminate. }
    rewrite Hcs in Ha. unfold run_frame in Ha.
    destruct Ha as (Hs & Hp & Hk & _).
    destruct (Hloop before after (mkFrame [] 0 0 None 0 []))
      as (Hs' & Hp' & Hk' & _).
    exists (log fr). rewrite Heq. subst rest. unfold run_frame.
    rewrite Hs, Hp, Hk, Hs', Hp', Hk', Z.add_0_r. reflexivity.
Qed.

Lemma skipped_fragment_isolated_witness :
  let w := world_2025 (page [film "Film A" (Some [heading "Thursday 3rd April";
                                                   li_time "12:00 pm";
                                                   li_time "3:30 pm"]);
                             film "Film B" None]) in
  (film_title_of (film "Film B" None) = ""
   \/ perf_list_of (film "Film B" None) = None)
  /\ skipped_count (visit_container w (mkFrame [] 0 0 None 0 [])
                                    (film "Film B" None)) = 1%Z.
Proof.
  intros w. split; [right; reflexivity|].
  apply (proj1 (skipped_fragment_isolated w (film "Film B" None)
                  (or_intror eq_refl)) (mkFrame [] 0 0 None 0 [])).
Defined.

(** ** Items of a showings list *)

Lemma visit_child_li w title fr cl cs :
  visit_child w title fr (Tag "li" cl cs)
  = match current_date fr with
    | None => emit WARNING (TimeWithNoDate title) fr
    | Some cd =>
        match find "span" (class_is "time") (Tag "li" cl cs) with
        | None => emit WARNING (NoSpanTime title cd) fr
        | Some time_span =>
            let '(t, lg) := parse_pcc_time (PyStr.strip (text time_span)) in
            match t with
            | None => emit_all lg fr
            | Some ts =>
                if String.eqb ts "" then emit_all lg fr
                else append_screening
                       (mkScreening VENUE title (isoformat cd) ts)
                       (emit_all lg fr)
            end
        end
    end.
Proof. reflexivity. Qed.

(** C10. A list item with no [span] of class [time] below it adds no
    record and leaves the current date as it was (a warning is all it
    leaves), and the items after it are visited and yield what they yield
    without it. *)
Theorem item_without_time_span_skipped
        (w : World) (title : string) (fr : Frame)
        (cl : option (list string)) (cs rest : list PageElement) :
  find "span" (class_is "time") (Tag "li" cl cs) = None ->
  let item := Tag "li" cl cs in
  screenings (visit_child w title fr item) = screenings fr
  /\ current_date (visit_child w title fr item) = current_date fr
  /\ (exists m, visit_child w title fr item = emit WARNING m fr)
  /\ agree 0 (fold_left (visit_child w title) (item :: rest) fr)
             (fold_left (visit_child w title) rest fr).
Proof.
  intros Hno item.
  assert (H : exists m, visit_child w title fr item = emit WARNING m fr).
  { unfold item. rewrite visit_child_li, Hno.
    destruct (current_date fr); eexists; reflexivity. }
  destruct H as [m Hm]. rewrite Hm.
  split; [reflexivity|]. split; [reflexivity|]. split; [exists m; reflexivity|].
  cbn [fold_left]. rewrite Hm.
  apply fold_visit_child_agree.
  unfold agree; simpl; repeat split; lia.
Qed.

Lemma item_without_time_span_skipped_witness :
  let w := world_2025 (page []) in
  let fr := mkFrame [] 1 0 (Some (mkdate 2025 4 3)) 0 [] in
  find "span" (class_is "time") (Tag "li" None [NavigableString "sold out"])
  = None
  /\ current_date (visit_child w "Film A" fr
                               (Tag "li" None [NavigableString "sold out"]))
     = Some (mkdate 2025 4 3).
Proof.
  intros w fr. split; [reflexivity|].
  apply (item_without_time_span_skipped w "Film A" fr None
           [NavigableString "sold out"] [] eq_refl).
Defined.

(** ** Headings and the current date *)

Lemma visit_child_heading w title fr child :
  is_heading child = true ->
  visit_child w title fr child
  = let date_str_raw := PyStr.strip (text child) in
    let fr1 := set_current_date (heading_date w child)
                 (emit_all (snd (parse_pcc_date w date_str_raw)) fr) in
    match heading_date w child with
    | None => emit WARNING (FailedDateHeading date_str_raw title) fr1
    | Some _ => fr1
    end.
Proof.
  intros H. destruct child as [nm cl cs|t]; [|discriminate].
  unfold visit_child, heading_date. unfold is_heading in H. rewrite H.
  destruct (parse_pcc_date w _) as [[d|] lg]; reflexivity.
Qed.

Lemma visit_child_no_date w title fr child :
  current_date fr = None -> sets_date w child = false ->
  agree 0 (visit_child w title fr child) fr.
Proof.
  intros Hd Hs. destruct (is_heading child) eqn:Hh.
  - rewrite (visit_child_heading _ _ _ _ Hh).
    unfold sets_date in Hs. rewrite Hh in Hs. simpl in Hs.
    destruct (heading_date w child); [discriminate|].
    unfold agree; simpl. rewrite Hd. repeat split; lia.
  - destruct child as [nm cl cs|t]; [|apply agree_refl].
    unfold visit_child. unfold is_heading in Hh. rewrite Hh.
    destruct (String.eqb nm "li"); [|apply agree_refl].
    rewrite Hd. unfold agree; simpl. repeat split; lia.
Qed.

Lemma fold_visit_child_no_date w title items : forall fr,
  current_date fr = None ->
  Forall (fun c => sets_date w c = false) items ->
  agree 0 (fold_left (visit_child w title) items fr) fr.
Proof.
  induction items as [|c items IH]; intros fr Hd Hall; [apply agree_refl|].
  inversion Hall as [|? ? Hc Hrest]; subst. cbn [fold_left].
  pose proof (visit_child_no_date w title fr c Hd Hc) as Hstep.
  assert (Hd' : current_date (visit_child w title fr c) = None).
  { destruct Hstep as (_ & _ & _ & H & _). congruence. }
  specialize (IH _ Hd' Hrest).
  destruct IH as (a1 & a2 & a3 & a4 & a5), Hstep as (b1 & b2 & b3 & b4 & b5).
  unfold agree. repeat split; try congruence. lia.
Qed.

Lemma screenings_visit_container w fr c perf_list :
  String.eqb (film_title_of c) "" = false ->
  perf_list_of c = Some perf_list ->
  screenings (visit_container w fr c)
  = screenings (fold_left (visit_child w (film_title_of c))
                          (children perf_list) (start_film fr)).
Proof.
  intros Ht Hp. unfold visit_container. rewrite Ht, Hp.
  destruct (_ =? 0)%Z; reflexivity.
Qed.

(** C7. In a film block whose showings list starts with children [pre]
    among which no heading parses, the scan of [pre] emits no record and
    ends with no date, so the records of the block are those of the
    children after [pre], scanned from the state without a date; and the
    records of a block never depend on the date the previous block left. *)
Theorem time_item_before_heading_discarded
        (w : World) (c perf_list : PageElement) (pre rest : list PageElement) :
  String.eqb (film_title_of c) "" = false ->
  perf_list_of c = Some perf_list ->
  children perf_list = (pre ++ rest)%list ->
  Forall (fun child => sets_date w child = false) pre ->
  forall fr,
    let scan := fold_left (visit_child w (film_title_of c)) in
    screenings (scan pre (start_film fr)) = screenings fr
    /\ current_date (scan pre (start_film fr)) = None
    /\ screenings (visit_container w fr c)
       = screenings (scan rest (start_film fr))
    /\ forall d, screenings (visit_container w (set_current_date d fr) c)
                 = screenings (visit_container w fr c).
Proof.
  intros Ht Hp Hch Hpre fr scan.
  pose proof (fold_visit_child_no_date w (film_title_of c) pre
                (start_film fr) eq_refl Hpre) as Hag.
  split; [|split; [|split]].
  - destruct Hag as (H & _). exact H.
  - destruct Hag as (_ & _ & _ & H & _). exact H.
  - rewrite (screenings_visit_container _ _ _ _ Ht Hp), Hch.
    rewrite fold_left_app.
    apply (fold_visit_child_agree w (film_title_of c) 0 rest) in Hag.
    destruct Hag as (H & _). exact H.
  - intros d. rewrite !(screenings_visit_container _ _ _ _ Ht Hp).
    reflexivity.
Qed.

Lemma time_item_before_heading_discarded_witness :
  let c := film "Film B" (Some [li_time "9:00 pm"; heading "Friday 4th April";
                                li_time "6:15 pm"]) in
  let w := world_2025 (page [c]) in
  let fr := mkFrame [mkScreening VENUE "Film A" "2025-04-03" "12:00"] 1 0
                    (Some (mkdate 2025 4 3)) 1 [] in
  Forall (fun child => sets_date w child = false) [li_time "9:00 pm"]
  /\ screenings (visit_container w fr c)
     = [mkScreening VENUE "Film A" "2025-04-03" "12:00";
        mkScreening VENUE "Film B" "2025-04-04" "18:15"].
Proof.
  intros c w fr.
  assert (H : Forall (fun child => sets_date w child = false)
                     [li_time "9:00 pm"])
    by (constructor; [reflexivity|constructor]).
  split; [exact H|].
  destruct (time_item_before_heading_discarded w c
              (Tag "ul" (Some ["performance-list-items"])
                   [li_time "9:00 pm"; heading "Friday 4th April";
                    li_time "6:15 pm"])
              [li_time "9:00 pm"]
              [heading "Friday 4th April"; li_time "6:15 pm"]
              eq_refl eq_refl eq_refl H fr) as (_ & _ & Heq & _).
  rewrite Heq. vm_compute. reflexivity.
Defined.

(** C1, as the code has it.  A heading that fails to parse clears the
    current date, whatever it was; it adds no record, and the children
    after it add none until a heading parses. *)
Theorem failed_heading_clears_date
        (w : World) (title : string) (fr : Frame) (child : PageElement) :
  is_heading child = true ->
  heading_date w child = None ->
  current_date (visit_child w title fr child) = None
  /\ screenings (visit_child w title fr child) = screenings fr
  /\ forall items,
       Forall (fun c => sets_date w c = false) items ->
       screenings (fold_left (visit_child w title) items
                             (visit_child w title fr child))
       = screenings fr.
Proof.
  intros Hh Hd.
  assert (H1 : current_date (visit_child w title fr child) = None
               /\ screenings (visit_child w title fr child) = screenings fr).
  { rewrite (visit_child_heading _ _ _ _ Hh), Hd. split; reflexivity. }
  destruct H1 as [H1 H2]. repeat split; trivial.
  intros items Hall.
  destruct (fold_visit_child_no_date w title items _ H1 Hall) as (H & _).
  congruence.
Qed.

Lemma failed_heading_clears_date_witness :
  let w := world_2025 (page []) in
  let fr := mkFrame [] 1 0 (Some (mkdate 2025 4 3)) 0 [] in
  is_heading (heading "Coming soon") = true
  /\ heading_date w (heading "Coming soon") = None
  /\ current_date (visit_child w "Film A" fr (heading "Coming soon")) = None.
Proof.
  intros w fr. split; [reflexivity|]. split; [reflexivity|].
  apply (failed_heading_clears_date w "Film A" fr (heading "Coming soon")
           eq_refl eq_refl).
Defined.

(** C1 as stated fails: after the heading "Thursday 3rd April" has set the
    date, the heading "Coming soon" does not parse and the date is gone;
    the time item that follows is dropped, not paired with 3 April. *)
Lemma failed_heading_keeps_date_counterexample :
  let w := world_2025 (page [film "Film A" (Some [heading "Thursday 3rd April";
                                                   heading "Coming soon";
                                                   li_time "12:00 pm"])]) in
  let fr0 := start_film (mkFrame [] 0 0 None 0 []) in
  let fr1 := visit_child w "Film A" fr0 (heading "Thursday 3rd April") in
  let fr2 := visit_child w "Film A" fr1 (heading "Coming soon") in
  let fr3 := visit_child w "Film A" fr2 (li_time "12:00 pm") in
  current_date fr1 = Some (mkdate 2025 4 3)
  /\ heading_date w (heading "Coming soon") = None
  /\ current_date fr2 <> current_date fr1
  /\ screenings fr3 = []
  /\ fst (scrape_pcc w) = inr [].
Proof.
  vm_compute. repeat split; try reflexivity. discriminate.
Qed.

(** ** The ends of a run *)

Lemma prefix_app : forall a b c, prefix a b = true -> prefix a (b ++ c) = true.
Proof.
  induction a as [|x a IH]; intros b c H.
  - destruct (b ++ c); reflexivity.
  - destruct b as [|y b]; [discriminate|]. simpl in *.
    destruct (ascii_dec x y); [auto|discriminate].
Qed.

Lemma contains_app_l n : forall a b,
  PyStr.contains n a = true -> PyStr.contains n (a ++ b) = true.
Proof.
  induction a as [|x a IH]; intros b H.
  - simpl in H. rewrite orb_false_r in H.
    destruct n; [|discriminate]. destruct b; reflexivity.
  - cbn [PyStr.contains] in H. apply orb_prop in H.
    change (String x a ++ b) with (String x (a ++ b)).
    cbn [PyStr.contains]. destruct H as [H|H].
    + apply (prefix_app _ _ b) in H. simpl in H. simpl. rewrite H.
      reflexivity.
    + rewrite (IH _ H). apply orb_true_r.
Qed.

Lemma contains_app_r n : forall a b,
  PyStr.contains n b = true -> PyStr.contains n (a ++ b) = true.
Proof.
  induction a as [|x a IH]; intros b H; [exact H|].
  change (String x a ++ b) with (String x (a ++ b)).
  cbn [PyStr.contains]. rewrite (IH _ H). apply orb_true_r.
Qed.

Lemma contains_join n v : forall l,
  In v l -> PyStr.contains n v = true ->
  PyStr.contains n (PyStr.join " " l) = true.
Proof.
  induction l as [|x l IH]; intros Hin H; [destruct Hin|].
  destruct l as [|y l].
  - destruct Hin as [->|[]]. exact H.
  - change (PyStr.join " " (x :: y :: l))
      with (x ++ " " ++ PyStr.join " " (y :: l)).
    destruct Hin as [->|Hin].
    + apply contains_app_l, H.
    + apply contains_app_r, contains_app_r, IH; assumption.
Qed.


(** A [div] whose class attribute has the three markers among its
    values carries them. *)
Lemma contains_self n : PyStr.contains n n = true.
Proof.
  destruct n as [|x n]; [reflexivity|]. cbn [PyStr.contains].
  assert (H : forall s, prefix s s = true).
  { induction s as [|y s IH]; [reflexivity|]. simpl.
    destruct (ascii_dec y y); [exact IH|congruence]. }
  rewrite H. reflexivity.
Qed.

Lemma class_values_carry_markers l cs :
  In "jacro-event" l -> In "movie-tabs" l -> In "row" l ->
  carries_markers (Tag "div" (Some l) cs) = true.
Proof.
  intros H1 H2 H3. unfold carries_markers.
  rewrite (contains_join _ _ l H1 (contains_self _)),
    (contains_join _ _ l H2 (contains_self _)),
    (contains_join _ _ l H3 (contains_self _)).
  reflexivity.
Qed.



(** C2, on the code.  When the fetch raises a [RequestException], the
    handler logs the error, and the closing log call of line 161 then
    reads [processed_count], which was never bound: [UnboundLocalError]
    escapes [scrape_pcc] and no list is returned. *)
Theorem network_failure_escapes (w : World) (e : exn) :
  fetch_raises w = Some e ->
  is_RequestException e = true ->
  scrape_pcc w
  = (inl (UnboundLocalError "processed_count"),
     [(INFO, StartingScrape); (ERROR, NetworkError e)]).
Proof.
  unfold fetch_raises, scrape_pcc, try_block. intros Hf He.
  destruct (get w) as [e'|response].
  - injection Hf as ->. rewrite He. reflexivity.
  - destruct (_ && _)%Z; [|discriminate]. injection Hf as <-. reflexivity.
Qed.

Lemma network_failure_escapes_witness :
  let w := mkWorld 2025 (mkdate 2025 4 1) (inl Timeout) in
  fetch_raises w = Some Timeout
  /\ is_RequestException Timeout = true
  /\ fst (scrape_pcc w) = inl (UnboundLocalError "processed_count").
Proof.
  intros w. split; [reflexivity|]. split; [reflexivity|].
  rewrite (network_failure_escapes w Timeout eq_refl eq_refl).
  reflexivity.
Defined.

(** ** Strings *)

Lemma sapp_nil_r s : s ++ "" = s.
Proof. induction s; simpl; congruence. Qed.

Lemma sapp_assoc a b c : (a ++ b) ++ c = a ++ (b ++ c).
Proof. induction a; simpl; congruence. Qed.

Lemma slength_app a b : String.length (a ++ b) = String.length a + String.length b.
Proof. induction a; simpl; congruence. Qed.

Lemma sapp_inv_head a x y : a ++ x = a ++ y -> x = y.
Proof. induction a; simpl; intros H; [exact H|]. injection H; auto. Qed.

Lemma sapp_inv_tail_len : forall a b x y,
  a ++ x = b ++ y -> String.length x = String.length y -> a = b /\ x = y.
Proof.
  induction a as [|c a IH]; intros b x y H L.
  - destruct b as [|d b]; [auto|].
    simpl in H. subst x. simpl in L. rewrite slength_app in L. lia.
  - destruct b as [|d b].
    + simpl in H. subst y. simpl in L. rewrite slength_app in L. lia.
    + simpl in H. injection H; intros H' ->.
      destruct (IH _ _ _ H' L) as [-> ->]. auto.
Qed.

Lemma substring_app_head w r : substring 0 (String.length w) (w ++ r) = w.
Proof.
  induction w as [|c w IH]; simpl.
  - destruct r; reflexivity.
  - rewrite IH. reflexivity.
Qed.

Lemma all_chars_app p a b :
  PyStr.all_chars p (a ++ b) = PyStr.all_chars p a && PyStr.all_chars p b.
Proof.
  induction a as [|c a IH]; simpl; [reflexivity|].
  rewrite IH, andb_assoc. reflexivity.
Qed.

(** ** The matcher and the language of a regex *)

Lemma star_rests_sound p : forall s r,
  In r (star_rests p s) -> exists w, s = w ++ r /\ PyStr.all_chars p w = true.
Proof.
  induction s as [|c s IH]; intros r H; simpl in H.
  - destruct H as [<-|[]]. exists ""; auto.
  - destruct (p c) eqn:E.
    + apply in_app_or in H. destruct H as [H|[<-|[]]].
      * destruct (IH _ H) as (w & -> & Hw).
        exists (String c w). simpl. rewrite E. auto.
      * exists ""; auto.
    + destruct H as [<-|[]]. exists ""; auto.
Qed.

Lemma star_rests_complete p : forall w r,
  PyStr.all_chars p w = true -> In r (star_rests p (w ++ r)).
Proof.
  induction w as [|c w IH]; intros r H; simpl in *.
  - destruct r as [|d r]; simpl; [auto|].
    destruct (p d); [apply in_or_app; right|]; simpl; auto.
  - apply andb_prop in H. destruct H as [Hc Hw]. rewrite Hc.
    apply in_or_app. left. auto.
Qed.

Lemma consumed_app w rest : consumed (w ++ rest) rest = w.
Proof.
  unfold consumed. rewrite slength_app.
  replace (String.length w + String.length rest - String.length rest)
    with (String.length w) by lia.
  apply substring_app_head.
Qed.

Lemma matches_sound : forall r s g rest,
  In (g, rest) (matches r s) -> exists w, s = w ++ rest /\ derives r w g.
Proof.
  induction r as [|p|r1 IH1 r2 IH2|r1 IH1 r2 IH2|p|name r1 IH1];
    intros s g rest H; simpl in H.
  - destruct H as [H|[]]. injection H as <- <-. exists ""; simpl; auto.
  - destruct s as [|c s]; [destruct H|].
    destruct (p c) eqn:E; [|destruct H].
    destruct H as [H|[]]. injection H as <- <-.
    exists (String c ""). simpl. eauto.
  - apply in_flat_map in H. destruct H as ([g1 s1] & H1 & H2).
    apply in_map_iff in H2. destruct H2 as ([g2 s2] & Heq & H2).
    simpl in Heq. injection Heq as <- <-.
    destruct (IH1 _ _ _ H1) as (w1 & -> & D1).
    simpl in H2. destruct (IH2 _ _ _ H2) as (w2 & -> & D2).
    exists (w1 ++ w2). rewrite sapp_assoc. split; [reflexivity|].
    simpl. exists w1, w2, g1, g2. auto.
  - apply in_app_or in H. destruct H as [H|H].
    + destruct (IH1 _ _ _ H) as (w & -> & D). exists w; simpl; auto.
    + destruct (IH2 _ _ _ H) as (w & -> & D). exists w; simpl; auto.
  - destruct s as [|c s]; [destruct H|].
    destruct (p c) eqn:E; [|destruct H].
    apply in_map_iff in H. destruct H as (r & Heq & H).
    injection Heq as <- <-.
    destruct (star_rests_sound _ _ _ H) as (w & -> & Hw).
    exists (String c w). simpl. rewrite E, Hw.
    repeat split; auto. discriminate.
  - apply in_map_iff in H. destruct H as ([g1 s1] & Heq & H).
    simpl in Heq. injection Heq as <- <-.
    destruct (IH1 _ _ _ H) as (w & -> & D).
    exists w. rewrite consumed_app. simpl. eauto.
Qed.

Lemma matches_complete : forall r w g rest,
  derives r w g -> In (g, rest) (matches r (w ++ rest)).
Proof.
  induction r as [|p|r1 IH1 r2 IH2|r1 IH1 r2 IH2|p|name r1 IH1];
    intros w g rest D; simpl in D.
  - destruct D as [-> ->]. simpl. auto.
  - destruct D as (c & -> & Hc & ->). simpl. rewrite Hc. simpl. auto.
  - destruct D as (w1 & w2 & g1 & g2 & -> & -> & D1 & D2).
    simpl. apply in_flat_map. exists (g1, w2 ++ rest). split.
    + rewrite sapp_assoc. apply IH1, D1.
    + apply in_map_iff. exists (g2, rest). split; [reflexivity|].
      apply IH2, D2.
  - simpl. apply in_or_app. destruct D as [D|D]; [left; apply IH1|right; apply IH2];
      exact D.
  - destruct D as (Hne & Hall & ->).
    destruct w as [|c w]; [congruence|]. simpl in Hall.
    apply andb_prop in Hall. destruct Hall as [Hc Hw].
    simpl. rewrite Hc. apply in_map_iff. exists rest. split; [reflexivity|].
    apply star_rests_complete, Hw.
  - destruct D as (g1 & -> & D). simpl. apply in_map_iff.
    exists (g1, rest). simpl. rewrite consumed_app. split; [reflexivity|].
    apply IH1, D.
Qed.

Lemma re_match_sound r s g rest :
  re_match r s = Some (g, rest) -> exists w, s = w ++ rest /\ derives r w g.
Proof.
  unfold re_match. intros H. apply matches_sound.
  destruct (matches r s); [discriminate|]. injection H as ->. left; reflexivity.
Qed.

Lemma re_match_complete r w g rest :
  derives r w g -> exists g' rest', re_match r (w ++ rest) = Some (g', rest').
Proof.
  intros D. pose proof (matches_complete _ _ _ rest D) as H.
  unfold re_match. destruct (matches r (w ++ rest)) as [|[g' r'] l]; [destruct H|].
  exists g', r'. reflexivity.
Qed.

(** ** Characters *)

Ltac all_ascii c :=
  destruct c as [[] [] [] [] [] [] [] []]; vm_compute; try reflexivity;
  try discriminate; auto.

Lemma lower_char_isspace c : PyStr.isspace (PyStr.lower_char c) = PyStr.isspace c.
Proof. all_ascii c. Qed.

Lemma lower_char_isdigit c : PyStr.isdigit (PyStr.lower_char c) = PyStr.isdigit c.
Proof. all_ascii c. Qed.

Lemma lower_char_digit c : PyStr.isdigit c = true -> PyStr.lower_char c = c.
Proof. all_ascii c. Qed.

Lemma lower_char_idem c : PyStr.lower_char (PyStr.lower_char c) = PyStr.lower_char c.
Proof. all_ascii c. Qed.

Lemma digit_not_space c : PyStr.isdigit c = true -> PyStr.isspace c = false.
Proof. all_ascii c. Qed.

Lemma lower_char_colon c : PyStr.lower_char c = ":"%char -> c = ":"%char.
Proof. all_ascii c. Qed.

Lemma letter_not_space c : lower_letter c = true -> PyStr.isspace c = false.
Proof. all_ascii c. Qed.


(** ** [lower] *)

Lemma lower_app a b : PyStr.lower (a ++ b) = PyStr.lower a ++ PyStr.lower b.
Proof. induction a; simpl; congruence. Qed.

Lemma lower_length s : String.length (PyStr.lower s) = String.length s.
Proof. induction s; simpl; congruence. Qed.

Lemma lower_idem s : PyStr.lower (PyStr.lower s) = PyStr.lower s.
Proof. induction s; simpl; [|rewrite lower_char_idem]; congruence. Qed.

Lemma lower_digits s :
  PyStr.all_chars PyStr.isdigit s = true -> PyStr.lower s = s.
Proof.
  induction s as [|c s IH]; simpl; [reflexivity|]. intros H.
  apply andb_prop in H. destruct H as [Hc Hs].
  rewrite lower_char_digit, IH; auto.
Qed.

(** ** Literals and alternations *)

Lemma lit_ci_derives : forall n w g,
  derives (lit_ci n) w g <-> g = [] /\ PyStr.lower w = PyStr.lower n.
Proof.
  induction n as [|c n IH]; intros w g; simpl.
  - split.
    + intros [-> ->]. auto.
    + intros [-> H]. destruct w; [auto|discriminate].
  - destruct n as [|d n].
    + simpl. split.
      * intros (x & -> & Hx & ->). unfold char_is_ci in Hx.
        apply Ascii.eqb_eq in Hx. simpl. rewrite Hx. auto.
      * intros [-> H]. destruct w as [|x [|y w]]; try discriminate.
        injection H as H. exists x. unfold char_is_ci.
        rewrite H, Ascii.eqb_refl. auto.
    + split.
      * intros (w1 & w2 & g1 & g2 & -> & -> & (x & -> & Hx & ->) & D2).
        apply IH in D2. destruct D2 as [-> D2].
        unfold char_is_ci in Hx. apply Ascii.eqb_eq in Hx.
        simpl. simpl in D2. rewrite Hx, D2. auto.
      * intros [-> H]. destruct w as [|x w]; [discriminate|].
        simpl in H. injection H as Hx H.
        exists (String x ""), w, [], []. repeat split.
        -- exists x. unfold char_is_ci. rewrite Hx, Ascii.eqb_refl. auto.
        -- apply IH. auto.
Qed.

Lemma alts_derives : forall l w g,
  derives (alts l) w g <-> exists r, In r l /\ derives r w g.
Proof.
  induction l as [|r l IH]; intros w g; simpl.
  - split; [intros (c & _ & H & _); discriminate|intros (r & [] & _)].
  - destruct l as [|r' l].
    + split; [eauto|]. intros (x & [<-|[]] & D). exact D.
    + split.
      * intros [D|D]; [eauto|]. apply IH in D. destruct D as (x & Hx & D).
        eauto.
      * intros (x & [<-|Hx] & D); [left; exact D|]. right. apply IH. eauto.
Qed.

Lemma names_derives names w g :
  derives (alts (map lit_ci names)) w g
  <-> g = [] /\ exists n, In n names /\ PyStr.lower w = PyStr.lower n.
Proof.
  rewrite alts_derives. split.
  - intros (r & Hr & D). apply in_map_iff in Hr. destruct Hr as (n & <- & Hn).
    apply lit_ci_derives in D. destruct D as [-> D]. eauto.
  - intros (-> & n & Hn & H). exists (lit_ci n). split.
    + apply in_map, Hn.
    + apply lit_ci_derives. auto.
Qed.

(** ** Scanning *)

Lemma span_app p : forall a b,
  PyStr.all_chars p a = true -> stops p b -> span p (a ++ b) = (a, b).
Proof.
  induction a as [|c a IH]; intros b Ha Hb; simpl in *.
  - destruct b as [|d b]; [reflexivity|]. simpl in Hb. simpl. rewrite Hb.
    reflexivity.
  - apply andb_prop in Ha. destruct Ha as [Hc Ha]. rewrite Hc.
    rewrite (IH b Ha Hb). reflexivity.
Qed.

Lemma span_spec p : forall s,
  s = fst (span p s) ++ snd (span p s)
  /\ PyStr.all_chars p (fst (span p s)) = true
  /\ stops p (snd (span p s)).
Proof.
  induction s as [|c s (IH1 & IH2 & IH3)]; simpl; [auto|].
  destruct (p c) eqn:E; simpl.
  - rewrite E. repeat split; auto. congruence.
  - auto.
Qed.

Lemma sdrop_app w r : sdrop (String.length w) (w ++ r) = r.
Proof. induction w; simpl; auto. Qed.

Lemma starts_with_app pre r : starts_with pre (pre ++ r) = true.
Proof. induction pre; simpl; [|rewrite Ascii.eqb_refl]; auto. Qed.

Lemma starts_with_trans_app : forall m n r,
  starts_with m (n ++ r) = true ->
  starts_with m n = true \/ starts_with n m = true.
Proof.
  induction m as [|a m IH]; intros n r H; simpl; [auto|].
  destruct n as [|b n]; [simpl; auto|].
  simpl in H. apply andb_prop in H. destruct H as [Hab H].
  destruct (IH _ _ H) as [H'|H']; [left|right]; simpl;
    [|rewrite Ascii.eqb_sym]; rewrite Hab, H'; reflexivity.
Qed.

Lemma match_name_app names : forall n w r,
  prefix_free names = true -> In n names -> PyStr.lower n = n ->
  PyStr.lower w = n ->
  match_name names (w ++ r) = Some (n, r).
Proof.
  intros n w r Hpf Hn Hln Hw.
  assert (Hall : forall m, In m names -> prefix_free_from n names = true ->
                           String.eqb n m = true
                           \/ (starts_with m n || starts_with n m) = false).
  { intros m Hm. clear Hpf Hn. induction names as [|x names IH]; [destruct Hm|].
    simpl. intros H. apply andb_prop in H. destruct H as [H1 H2].
    destruct Hm as [->|Hm]; [|auto].
    apply orb_prop in H1. destruct H1 as [H1|H1]; [auto|].
    right. apply negb_true_iff in H1. exact H1. }
  assert (Hfree : prefix_free_from n names = true).
  { unfold prefix_free in Hpf. rewrite forallb_forall in Hpf. auto. }
  assert (Hlen : String.length w = String.length n).
  { rewrite <- Hw, lower_length. reflexivity. }
  clear Hpf. revert Hn Hall. generalize names at 1 2 4 as l.
  induction l as [|m l IH]; intros Hn Hall; [destruct Hn|].
  simpl. rewrite lower_app, Hw.
  destruct (starts_with m (n ++ PyStr.lower r)) eqn:E.
  - destruct (Hall m (or_introl eq_refl) Hfree) as [H|H].
    + apply String.eqb_eq in H. subst m. rewrite <- Hlen, sdrop_app.
      reflexivity.
    + apply starts_with_trans_app in E. apply orb_false_elim in H.
      destruct H as [H1 H2]. destruct E; congruence.
  - destruct Hn as [->|Hn].
    + rewrite starts_with_app in E. discriminate.
    + apply IH; auto. intros x Hx. apply Hall. right; exact Hx.
Qed.

(** ** The format [%I:%M %p] *)

Ltac break :=
  repeat match goal with
         | H : _ /\ _ |- _ => destruct H
         | H : exists _, _ |- _ => destruct H
         | H : _ \/ _ |- _ => destruct H
         end; subst.

Ltac use_true :=
  unfold char_is, range, digit in *;
  repeat match goal with
         | H : _ = true |- _ => rewrite H
         end;
  rewrite ?orb_true_r; try reflexivity.

Lemma pattern_time : pattern "%I:%M %p" = Some time_re.
Proof. reflexivity. Qed.

Lemma hour_derives w g : derives hour_re w g -> g = [] /\ valid_hour w = true.
Proof.
  unfold hour_re. simpl. intros D. break; simpl; split; auto; use_true.
Qed.

Lemma minute_derives w g : derives minute_re w g -> g = [] /\ valid_minute w = true.
Proof.
  unfold minute_re. simpl. intros D. break; simpl; split; auto; use_true.
Qed.

Lemma meridiem_derives w g :
  derives meridiem_re w g ->
  g = [] /\ (PyStr.lower w = "am" \/ PyStr.lower w = "pm").
Proof.
  unfold meridiem_re. intros D. apply names_derives in D.
  destruct D as (-> & n & Hn & H). split; [reflexivity|].
  destruct Hn as [<-|[<-|[]]]; auto.
Qed.

Lemma time_derives w g :
  derives time_re w g ->
  exists wI wM W wp,
    w = wI ++ ":" ++ wM ++ W ++ wp
    /\ g = [("I", wI); ("M", wM); ("p", wp)]
    /\ valid_hour wI = true /\ valid_minute wM = true
    /\ W <> "" /\ PyStr.all_chars PyStr.isspace W = true
    /\ (PyStr.lower wp = "am" \/ PyStr.lower wp = "pm").
Proof.
  unfold time_re. cbn [derives].
  intros (wI & w1 & g1 & g1' & -> & -> & (gI & -> & DI)
          & (wc & w2 & gc & g2' & -> & -> & (c & -> & Hc & ->)
             & (wM & w3 & gM' & g3' & -> & -> & (gM & -> & DM)
                & (W & wp & gW & gp' & -> & -> & (HW & HW' & ->)
                   & (gp & -> & Dp))))).
  apply hour_derives in DI. destruct DI as [-> HI].
  apply minute_derives in DM. destruct DM as [-> HM].
  apply meridiem_derives in Dp. destruct Dp as [-> Hp].
  unfold char_is_ci in Hc. apply Ascii.eqb_eq in Hc.
  apply lower_char_colon in Hc. subst c.
  exists wI, wM, W, wp. repeat split; auto.
Qed.


(** ** Malformed times *)






Lemma isdigit_spec c :
  PyStr.isdigit c = true <-> 48 <= nat_of_ascii c <= 57.
Proof.
  unfold PyStr.isdigit. cbv zeta. rewrite andb_true_iff, !Nat.leb_le. tauto.
Qed.

Lemma in_range_spec lo hi c :
  PyStr.in_range lo hi c = true
  <-> nat_of_ascii lo <= nat_of_ascii c <= nat_of_ascii hi.
Proof.
  unfold PyStr.in_range. rewrite andb_true_iff, !Nat.leb_le. tauto.
Qed.

(** Replace the code of each literal character by its number. *)
Ltac codes :=
  repeat match goal with
         | H : context [nat_of_ascii (Ascii ?a ?b ?c ?d ?e ?f ?g ?h)] |- _ =>
             let v := eval vm_compute in (nat_of_ascii (Ascii a b c d e f g h)) in
             change (nat_of_ascii (Ascii a b c d e f g h)) with v in H
         | |- context [nat_of_ascii (Ascii ?a ?b ?c ?d ?e ?f ?g ?h)] =>
             let v := eval vm_compute in (nat_of_ascii (Ascii a b c d e f g h)) in
             change (nat_of_ascii (Ascii a b c d e f g h)) with v
         end.

(** Turn the tests on characters among the hypotheses into bounds. *)
Ltac bounds :=
  repeat match goal with
         | H : _ && _ = true |- _ => apply andb_prop in H; destruct H
         | H : PyStr.in_range _ _ _ = true |- _ => apply in_range_spec in H
         | H : PyStr.isdigit _ = true |- _ => apply isdigit_spec in H
         | H : Ascii.eqb _ _ = true |- _ => apply Ascii.eqb_eq in H; subst
         end;
  codes.

Lemma digits_val_1 a : PyStr.digits_val 0 (String a "") = PyStr.digit_val a.
Proof. reflexivity. Qed.

Lemma digits_val_2 a b :
  PyStr.digits_val 0 (String a (String b ""))
  = (10 * PyStr.digit_val a + PyStr.digit_val b)%Z.
Proof. unfold PyStr.digits_val. f_equal. Qed.

Lemma all_digits_1 a :
  PyStr.all_chars PyStr.isdigit (String a "") = PyStr.isdigit a.
Proof. simpl. apply andb_true_r. Qed.

Lemma all_digits_2 a b :
  PyStr.all_chars PyStr.isdigit (String a (String b ""))
  = PyStr.isdigit a && PyStr.isdigit b.
Proof. simpl. rewrite andb_true_r. reflexivity. Qed.

Ltac digit_goal :=
  rewrite ?all_digits_1, ?all_digits_2, ?digits_val_1, ?digits_val_2;
  rewrite ?andb_true_iff, ?isdigit_spec;
  unfold PyStr.digit_val; codes; lia.

Lemma valid_hour_digits hs :
  valid_hour hs = true ->
  hs <> "" /\ PyStr.all_chars PyStr.isdigit hs = true
  /\ (1 <= PyStr.digits_val 0 hs <= 12)%Z.
Proof.
  destruct hs as [|a [|b [|c hs]]]; try discriminate; unfold valid_hour;
    intros H; (split; [discriminate|]).
  - bounds. split; digit_goal.
  - apply orb_prop in H. destruct H as [H|H]; bounds; split; digit_goal.
Qed.


Lemma parse_pcc_time_some s r :
  fst (parse_pcc_time s) = Some r ->
  s <> "" /\ exists dt, strptime (PyStr.lower s) "%I:%M %p" = inr dt
                        /\ r = strftime_HM dt.
Proof.
  unfold parse_pcc_time. destruct (String.eqb s "") eqn:E; [discriminate|].
  apply String.eqb_neq in E.
  destruct (strptime _ _) as [e|dt]; [discriminate|].
  simpl. intros H. injection H as <-. eauto.
Qed.


(** ** The format [%A %d %B %Y] *)

Lemma pattern_date : pattern "%A %d %B %Y" = Some date_re.
Proof. reflexivity. Qed.

Lemma day_derives w g :
  derives day_re w g ->
  g = []
  /\ (valid_day w = true
      \/ exists x, w = String " " (String x "")
                   /\ PyStr.in_range "1" "9" x = true).
Proof.
  unfold day_re. simpl. intros D. break; simpl; (split; [reflexivity|]);
    try solve [left; use_true].
  right. unfold char_is in *.
  match goal with H : Ascii.eqb _ _ = true |- _ =>
    apply Ascii.eqb_eq in H; subst end.
  eauto.
Qed.

Lemma day_derives_intro ds : valid_day ds = true -> derives day_re ds [].
Proof.
  unfold day_re. destruct ds as [|a [|b [|c ds]]]; try discriminate;
    unfold valid_day; intros H; simpl.
  - right; right; right; left. exists a. auto.
  - apply orb_prop in H. destruct H as [H|H];
      [apply orb_prop in H; destruct H as [H|H]|];
      apply andb_prop in H; destruct H as [H1 H2].
    + left. exists (String a ""), (String b ""), [], [].
      repeat split; eauto.
    + right; left. exists (String a ""), (String b ""), [], [].
      repeat split; eauto.
    + right; right; left. exists (String a ""), (String b ""), [], [].
      repeat split; eauto.
Qed.

Lemma year_derives w g : derives year_re w g <-> g = [] /\ year_text w.
Proof.
  unfold year_re, year_text. simpl. split.
  - intros D. break. simpl. unfold digit in *.
    repeat match goal with H : _ = true |- _ => rewrite H end. auto.
  - intros (-> & Hl & Hd).
    destruct w as [|a [|b [|c [|d [|e w]]]]]; try discriminate.
    simpl in Hd. rewrite andb_true_r in Hd.
    apply andb_prop in Hd. destruct Hd as [Ha Hd].
    apply andb_prop in Hd. destruct Hd as [Hb Hd].
    apply andb_prop in Hd. destruct Hd as [Hc Hd].
    exists (String a ""), (String b (String c (String d ""))), [], [].
    repeat split; [eauto|].
    exists (String b ""), (String c (String d "")), [], [].
    repeat split; [eauto|].
    exists (String c ""), (String d ""), [], [].
    repeat split; eauto.
Qed.

Lemma weekday_derives w g :
  derives weekday_re w g <-> g = [] /\ In (PyStr.lower w) f_weekday.
Proof.
  unfold weekday_re. rewrite names_derives. split.
  - intros (-> & n & Hn & H). split; [reflexivity|]. rewrite H.
    simpl in Hn. simpl. intuition (subst; auto).
  - intros (-> & H). split; [reflexivity|]. exists (PyStr.lower w).
    rewrite lower_idem. split; [|reflexivity].
    simpl in H. simpl. intuition.
Qed.

Lemma month_derives w g :
  derives month_re w g <-> g = [] /\ In (PyStr.lower w) (tl f_month).
Proof.
  unfold month_re. rewrite names_derives. split.
  - intros (-> & n & Hn & H). split; [reflexivity|]. rewrite H.
    simpl in Hn. simpl. intuition (subst; auto).
  - intros (-> & H). split; [reflexivity|]. exists (PyStr.lower w).
    rewrite lower_idem. split; [|reflexivity].
    simpl in H. simpl. intuition.
Qed.

(** *** What the groups convert to *)

Lemma lstrip_stops s : stops PyStr.isspace s -> PyStr.lstrip s = s.
Proof. destruct s as [|c s]; simpl; [auto|]. intros ->. reflexivity. Qed.

Lemma rstrip_no_space : forall s,
  PyStr.all_chars (fun c => negb (PyStr.isspace c)) s = true ->
  PyStr.rstrip s = s.
Proof.
  induction s as [|c s IH]; simpl; [reflexivity|]. intros H.
  apply andb_prop in H. destruct H as [Hc Hs]. rewrite (IH Hs).
  apply negb_true_iff in Hc. rewrite Hc. destruct s; reflexivity.
Qed.

Lemma all_chars_impl (p q : ascii -> bool) s :
  (forall c, p c = true -> q c = true) ->
  PyStr.all_chars p s = true -> PyStr.all_chars q s = true.
Proof.
  intros Hpq. induction s as [|c s IH]; simpl; [auto|]. intros H.
  apply andb_prop in H. destruct H as [Hc Hs]. rewrite (Hpq _ Hc), (IH Hs).
  reflexivity.
Qed.

Lemma digits_no_space s :
  PyStr.all_chars PyStr.isdigit s = true ->
  PyStr.all_chars (fun c => negb (PyStr.isspace c)) s = true.
Proof.
  apply all_chars_impl. intros c H. rewrite (digit_not_space _ H). reflexivity.
Qed.

Lemma strip_digits s :
  PyStr.all_chars PyStr.isdigit s = true -> PyStr.strip s = s.
Proof.
  intros H. unfold PyStr.strip. rewrite lstrip_stops.
  - apply rstrip_no_space, digits_no_space, H.
  - destruct s as [|c s]; simpl; [auto|]. simpl in H.
    apply andb_prop in H. destruct H as [H _]. apply digit_not_space, H.
Qed.

Lemma int_digits s :
  s <> "" -> PyStr.all_chars PyStr.isdigit s = true ->
  PyStr.int s = Some (PyStr.digits_val 0 s).
Proof.
  intros Hne H. unfold PyStr.int. rewrite (strip_digits _ H).
  destruct s; [congruence|]. rewrite H. reflexivity.
Qed.

Lemma int_space_digit x :
  PyStr.isdigit x = true ->
  PyStr.int (String " " (String x "")) = Some (PyStr.digits_val 0 (String x "")).
Proof.
  intros H. unfold PyStr.int, PyStr.strip.
  change (PyStr.lstrip (String " " (String x "")))
    with (PyStr.lstrip (String x "")).
  rewrite lstrip_stops by (simpl; apply digit_not_space, H).
  simpl. rewrite (digit_not_space _ H), H. reflexivity.
Qed.

Lemma valid_day_digits ds :
  valid_day ds = true ->
  ds <> "" /\ PyStr.all_chars PyStr.isdigit ds = true
  /\ (1 <= PyStr.digits_val 0 ds <= 31)%Z.
Proof.
  destruct ds as [|a [|b [|c ds]]]; try discriminate; unfold valid_day;
    intros H; (split; [discriminate|]).
  - bounds. split; digit_goal.
  - apply orb_prop in H. destruct H as [H|H];
      [apply orb_prop in H; destruct H as [H|H]|]; bounds; split; digit_goal.
Qed.

Lemma month_number_range wB :
  In (PyStr.lower wB) (tl f_month) ->
  option_map Z.of_nat (index (PyStr.lower wB) f_month) = Some (month_number wB)
  /\ (1 <= month_number wB <= 12)%Z.
Proof.
  unfold month_number. intros H. simpl in H.
  repeat (destruct H as [H|H]; [rewrite <- H; vm_compute; intuition congruence|]).
  destruct H.
Qed.

Lemma weekday_index wA :
  In (PyStr.lower wA) f_weekday ->
  exists k, option_map Z.of_nat (index (PyStr.lower wA) f_weekday) = Some k.
Proof.
  intros H. simpl in H.
  repeat (destruct H as [H|H]; [rewrite <- H; vm_compute; eauto|]).
  destruct H.
Qed.

(** *** The shape of a text the format matches

    A weekday name, white space, the digits of the day, white space, a
    month name, white space, four digits; names in any letter case. *)
Definition date_shape (s ds wB wY : string) : Prop :=
  exists wA W1 W2 W3,
    s = wA ++ W1 ++ ds ++ W2 ++ wB ++ W3 ++ wY
    /\ In (PyStr.lower wA) f_weekday
    /\ spaces W1 /\ valid_day ds = true
    /\ spaces W2 /\ In (PyStr.lower wB) (tl f_month)
    /\ spaces W3 /\ year_text wY.

Lemma date_groups wA wd wB wY :
  let g := [("A", wA); ("d", wd); ("B", wB); ("Y", wY)] in
  group "Y" g = Some wY /\ group "B" g = Some wB /\ group "d" g = Some wd
  /\ group "A" g = Some wA /\ group "M" g = None /\ group "I" g = None.
Proof. repeat split; reflexivity. Qed.

Lemma converts_intro wA wd wB wY y m d k :
  PyStr.int wY = Some y ->
  option_map Z.of_nat (index (PyStr.lower wB) f_month) = Some m ->
  PyStr.int wd = Some d ->
  option_map Z.of_nat (index (PyStr.lower wA) f_weekday) = Some k ->
  converts [("A", wA); ("d", wd); ("B", wB); ("Y", wY)] y m d.
Proof.
  intros HY HB Hd HA.
  destruct (date_groups wA wd wB wY) as (gY & gB & gd & gA & gM & gI).
  unfold converts, int_group, name_group.
  rewrite gY, gB, gd, gA, gM, gI, HY, HB, Hd, HA. repeat split; eauto.
Qed.

Lemma date_derives w g :
  derives date_re w g ->
  exists ds wB wY,
    date_shape w ds wB wY
    /\ converts g (PyStr.digits_val 0 wY) (month_number wB)
                (PyStr.digits_val 0 ds).
Proof.
  unfold date_re. cbn [derives].
  intros (wA & w1 & gA' & g1 & -> & -> & (gA & -> & DA)
          & (W1 & w2 & gW1 & g2 & -> & -> & (HW1 & HW1' & ->)
             & (wd & w3 & gd' & g3 & -> & -> & (gd & -> & Dd)
                & (W2 & w4 & gW2 & g4 & -> & -> & (HW2 & HW2' & ->)
                   & (wB & w5 & gB' & g5 & -> & -> & (gB & -> & DB)
                      & (W3 & wY & gW3 & gY' & -> & -> & (HW3 & HW3' & ->)
                         & (gY & -> & DY))))))).
  apply weekday_derives in DA. destruct DA as [-> HA].
  apply day_derives in Dd. destruct Dd as [-> Hd].
  apply month_derives in DB. destruct DB as [-> HB].
  apply year_derives in DY. destruct DY as [-> HY].
  destruct (month_number_range wB HB) as [Hm _].
  destruct (weekday_index wA HA) as [k Hk].
  assert (HYint : PyStr.int wY = Some (PyStr.digits_val 0 wY)).
  { destruct HY as [HYl HYd]. apply int_digits; [|exact HYd].
    destruct wY; [discriminate|congruence]. }
  destruct Hd as [Hd|(x & -> & Hx)].
  - exists wd, wB, wY. split.
    + exists wA, W1, W2, W3. unfold spaces. repeat split; auto; apply HY.
    + destruct (valid_day_digits _ Hd) as (Hne & Hdig & _).
      cbn [app]. apply (converts_intro _ _ _ _ _ _ _ k); auto.
      apply int_digits; auto.
  - exists (String x ""), wB, wY. split.
    + exists wA, (W1 ++ " "), W2, W3. unfold spaces.
      repeat split; auto; try apply HY.
      * rewrite !sapp_assoc. reflexivity.
      * destruct W1; [congruence|discriminate].
      * rewrite all_chars_app, HW1'. reflexivity.
    + assert (Hxd : PyStr.isdigit x = true) by (bounds; digit_goal).
      cbn [app]. apply (converts_intro _ _ _ _ _ _ _ k); auto.
      apply int_space_digit, Hxd.
Qed.

Lemma date_derives_intro s ds wB wY :
  date_shape s ds wB wY -> exists g, derives date_re s g.
Proof.
  intros (wA & W1 & W2 & W3 & -> & HA & [HW1 HW1'] & Hd & [HW2 HW2'] & HB
          & [HW3 HW3'] & HY).
  exists [("A", wA); ("d", ds); ("B", wB); ("Y", wY)].
  unfold date_re. cbn [derives].
  exists wA, (W1 ++ ds ++ W2 ++ wB ++ W3 ++ wY), [("A", wA)],
    [("d", ds); ("B", wB); ("Y", wY)].
  split; [reflexivity|]. split; [reflexivity|]. split.
  { exists []. split; [reflexivity|]. apply weekday_derives. auto. }
  exists W1, (ds ++ W2 ++ wB ++ W3 ++ wY), [],
    [("d", ds); ("B", wB); ("Y", wY)].
  split; [reflexivity|]. split; [reflexivity|]. split; [repeat split; auto|].
  exists ds, (W2 ++ wB ++ W3 ++ wY), [("d", ds)], [("B", wB); ("Y", wY)].
  split; [reflexivity|]. split; [reflexivity|]. split.
  { exists []. split; [reflexivity|]. apply day_derives_intro, Hd. }
  exists W2, (wB ++ W3 ++ wY), [], [("B", wB); ("Y", wY)].
  split; [reflexivity|]. split; [reflexivity|]. split; [repeat split; auto|].
  exists wB, (W3 ++ wY), [("B", wB)], [("Y", wY)].
  split; [reflexivity|]. split; [reflexivity|]. split.
  { exists []. split; [reflexivity|]. apply month_derives. auto. }
  exists W3, wY, [], [("Y", wY)].
  split; [reflexivity|]. split; [reflexivity|]. split; [repeat split; auto|].
  exists []. split; [reflexivity|]. apply year_derives. auto.
Qed.

(** *** Reading a date text left to right

    [scan_date] finds the fields by taking each run as long as it goes; the
    text can be cut into the fields of the format in one way only, which
    is the way it finds. *)

Lemma stake_app w r : stake (String.length w) (w ++ r) = w.
Proof. induction w; simpl; congruence. Qed.

Lemma stops_digits a b :
  a <> "" -> PyStr.all_chars PyStr.isdigit a = true ->
  stops PyStr.isspace (a ++ b).
Proof.
  destruct a as [|c a]; [congruence|]. simpl. intros _ H.
  apply andb_prop in H. destruct H as [H _]. apply digit_not_space, H.
Qed.

Lemma stops_spaces W b : spaces W -> stops PyStr.isdigit (W ++ b).
Proof.
  intros [Hne H]. destruct W as [|c W]; [congruence|]. simpl. simpl in H.
  apply andb_prop in H. destruct H as [H _].
  destruct (PyStr.isdigit c) eqn:E; [|reflexivity].
  rewrite (digit_not_space _ E) in H. discriminate.
Qed.

Lemma stops_month wB b :
  In (PyStr.lower wB) (tl f_month) -> stops PyStr.isspace (wB ++ b).
Proof.
  intros H. destruct wB as [|c wB].
  - simpl in H. repeat (destruct H as [H|H]; [discriminate|]). destruct H.
  - simpl. apply letter_not_space. unfold lower_letter.
    cbn [PyStr.lower tl f_month In] in H.
    repeat (destruct H as [H|H];
            [injection H as <- _; reflexivity|]).
    destruct H.
Qed.

Lemma prefix_free_weekdays : prefix_free f_weekday = true.
Proof. vm_compute. reflexivity. Qed.

Lemma prefix_free_months : prefix_free (tl f_month) = true.
Proof. vm_compute. reflexivity. Qed.

Lemma shape_scan s ds wB wY r :
  date_shape s ds wB wY ->
  scan_date (s ++ r)
  = Some (PyStr.digits_val 0 wY, month_number wB, PyStr.digits_val 0 ds, r).
Proof.
  intros (wA & W1 & W2 & W3 & -> & HA & HW1 & Hd & HW2 & HB & HW3 & HYl & HYd).
  destruct (valid_day_digits _ Hd) as (Hdne & Hdd & _).
  rewrite !sapp_assoc. unfold scan_date.
  rewrite (match_name_app f_weekday (PyStr.lower wA) wA _
             prefix_free_weekdays HA (lower_idem wA) eq_refl).
  rewrite (span_app PyStr.isspace W1 _ (proj2 HW1) (stops_digits ds _ Hdne Hdd)).
  cbn [fst snd].
  rewrite (span_app PyStr.isdigit ds _ Hdd (stops_spaces W2 _ HW2)).
  cbn [fst snd].
  rewrite (span_app PyStr.isspace W2 _ (proj2 HW2) (stops_month wB _ HB)).
  cbn [fst snd].
  rewrite (match_name_app (tl f_month) (PyStr.lower wB) wB _
             prefix_free_months HB (lower_idem wB) eq_refl).
  assert (HYne : wY <> "") by (destruct wY; [discriminate|congruence]).
  rewrite (span_app PyStr.isspace W3 _ (proj2 HW3) (stops_digits wY _ HYne HYd)).
  cbn [fst snd].
  rewrite <- HYl, stake_app, sdrop_app.
  unfold month_number. rewrite lower_idem. reflexivity.
Qed.

Lemma strptime_converts s found y m d :
  re_match date_re s = Some (found, "") ->
  converts found y m d ->
  strptime s "%A %d %B %Y"
  = match new_date y m d with
    | inr dd => inr (mkdatetime dd 0 0)
    | inl _ => inl ValueError
    end.
Proof.
  intros Hm (HY & HB & Hd & (k & HA) & HM & HI).
  unfold strptime. rewrite pattern_date, Hm. cbn [String.eqb negb].
  rewrite HY, HB, Hd, HA, HM, HI.
  destruct (new_date y m d); reflexivity.
Qed.

Lemma strptime_date_shape s ds wB wY :
  date_shape s ds wB wY ->
  strptime s "%A %d %B %Y" = date_result wY wB ds.
Proof.
  intros Hs.
  destruct (date_derives_intro _ _ _ _ Hs) as [g0 D0].
  destruct (re_match_complete _ _ _ "" D0) as (g' & r' & Hm).
  rewrite sapp_nil_r in Hm.
  destruct (re_match_sound _ _ _ _ Hm) as (w' & Heq & D').
  destruct (date_derives _ _ D') as (ds' & wB' & wY' & Hs' & Hc').
  pose proof (shape_scan _ _ _ _ r' Hs') as S1.
  pose proof (shape_scan _ _ _ _ "" Hs) as S2.
  rewrite sapp_nil_r in S2. rewrite <- Heq, S2 in S1.
  injection S1 as HY HB Hd Hr. subst r'.
  rewrite <- HY, <- HB, <- Hd in Hc'.
  apply (strptime_converts _ _ _ _ _ Hm Hc').
Qed.

Lemma strptime_date_inv s dt :
  strptime s "%A %d %B %Y" = inr dt ->
  exists ds wB wY,
    date_shape s ds wB wY /\ date_result wY wB ds = inr dt.
Proof.
  intros H.
  assert (Hm : exists found, re_match date_re s = Some (found, "")).
  { unfold strptime in H. rewrite pattern_date in H.
    destruct (re_match date_re s) as [[found rest]|]; [|discriminate].
    destruct (String.eqb rest "") eqn:E; [|discriminate].
    apply String.eqb_eq in E. subst. eauto. }
  destruct Hm as [found Hm].
  destruct (re_match_sound _ _ _ _ Hm) as (w & Heq & D).
  rewrite sapp_nil_r in Heq. subst w.
  destruct (date_derives _ _ D) as (ds & wB & wY & Hs & Hc).
  exists ds, wB, wY. split; [exact Hs|].
  rewrite <- (strptime_date_shape _ _ _ _ Hs). exact H.
Qed.

(** ** Valid times *)

Lemma in_Zrange lo n x :
  (lo <= x < lo + Z.of_nat n)%Z -> In x (Zrange lo n).
Proof.
  intros H. unfold Zrange. apply in_map_iff.
  exists (Z.to_nat (x - lo)). split; [lia|]. apply in_seq. lia.
Qed.

Lemma all_times_ok :
  forallb (fun h => forallb (time_ok h) (Zrange 0 60)) (Zrange 1 12) = true.
Proof. vm_compute. reflexivity. Qed.

(** C5. For an hour [h] in 1..12 written with or without a leading zero, a
    minute [m] in 0..59 written with two digits, one space and [am] or [pm]
    in any letter case, [parse_pcc_time] returns the zero-padded 24-hour
    text of that time; so "12:00 am" gives "00:00", "12:00 pm" gives
    "12:00" and "1:05 pm" gives "13:05". *)
Theorem valid_time_normalised :
  (forall (h m : Z) (hs mer : string) (pm : bool),
      (1 <= h <= 12)%Z -> (0 <= m <= 59)%Z ->
      In hs [PyStr.str h; PyStr.zfill 2 h] ->
      In (mer, pm) meridiem_texts ->
      fst (parse_pcc_time (time_text hs m mer))
      = Some (PyStr.zfill 2 (hour_of_day h pm) ++ ":" ++ PyStr.zfill 2 m))
  /\ fst (parse_pcc_time "12:00 am") = Some "00:00"
  /\ fst (parse_pcc_time "12:00 pm") = Some "12:00"
  /\ fst (parse_pcc_time "1:05 pm") = Some "13:05".
Proof.
  split; [|repeat split; reflexivity].
  intros h m hs mer pm Hh Hm Hhs Hmer.
  pose proof all_times_ok as H. rewrite forallb_forall in H.
  specialize (H h (in_Zrange 1 12 h ltac:(lia))).
  rewrite forallb_forall in H.
  specialize (H m (in_Zrange 0 60 m ltac:(lia))).
  unfold time_ok in H. rewrite forallb_forall in H.
  specialize (H (mer, pm) Hmer). cbn [fst snd] in H.
  rewrite forallb_forall in H. specialize (H hs Hhs).
  destruct (fst (parse_pcc_time (time_text hs m mer))) as [r|];
    [|discriminate].
  apply String.eqb_eq in H. congruence.
Qed.

Lemma valid_time_normalised_witness :
  fst (parse_pcc_time (time_text "3" 30 "PM")) = Some "15:30".
Proof.
  apply (proj1 valid_time_normalised 3%Z 30%Z "3" "PM" true); try lia.
  - left; reflexivity.
  - right; right; right; right; right; left; reflexivity.
Defined.

(** ** Years and days as text *)

Lemma all_years_ok : forallb year_str_ok (Zrange 1000 (Z.to_nat 9000)) = true.
Proof. vm_compute. reflexivity. Qed.

Lemma year_str y :
  (1000 <= y <= 9999)%Z ->
  year_text (PyStr.str y) /\ PyStr.digits_val 0 (PyStr.str y) = y.
Proof.
  intros H. pose proof all_years_ok as A. rewrite forallb_forall in A.
  specialize (A y (in_Zrange 1000 (Z.to_nat 9000) y ltac:(lia))).
  unfold year_str_ok in A. apply andb_prop in A. destruct A as [A A3].
  apply andb_prop in A. destruct A as [A1 A2].
  apply Nat.eqb_eq in A1. apply Z.eqb_eq in A3. unfold year_text. auto.
Qed.

Lemma parse_pcc_date_unfold w text :
  text <> "" ->
  fst (parse_pcc_date w text)
  = match date_under (CURRENT_YEAR w) text with
    | None => None
    | Some d1 =>
        if (days_between (today w) d1 >? 60)%Z
        then date_under (CURRENT_YEAR w + 1) text
        else Some d1
    end.
Proof.
  intros Hne. unfold parse_pcc_date, date_under.
  apply String.eqb_neq in Hne. rewrite Hne.
  destruct (strptime _ _) as [e|dt]; [reflexivity|].
  destruct (_ >? 60)%Z; [|reflexivity].
  destruct (strptime _ _) as [e|dt2]; reflexivity.
Qed.

Lemma new_date_fields y m d dd :
  new_date y m d = inr dd -> year dd = y /\ month dd = m /\ day dd = d.
Proof.
  unfold new_date. destruct (_ && _); [|discriminate].
  intros H. injection H as <-. auto.
Qed.

Lemma date_result_inr wY wB ds dt :
  date_result wY wB ds = inr dt ->
  new_date (PyStr.digits_val 0 wY) (month_number wB) (PyStr.digits_val 0 ds)
  = inr (dt_date dt).
Proof.
  unfold date_result. destruct (new_date _ _ _); [discriminate|].
  intros H. injection H as <-. reflexivity.
Qed.

(** A text that ends in a white-space run cannot end in a digit. *)
Lemma last_char_split : forall s, s <> "" ->
  exists s' c, s = s' ++ String c "".
Proof.
  induction s as [|a s IH]; [congruence|]. intros _.
  destruct s as [|b s].
  - exists "", a. reflexivity.
  - destruct IH as (s' & c & E); [discriminate|].
    exists (String a s'), c. simpl. rewrite <- E. reflexivity.
Qed.

Lemma spaces_end X W Z c :
  spaces W -> X ++ W = Z ++ String c "" -> PyStr.isspace c = true.
Proof.
  intros [Hne Hall] H.
  destruct (last_char_split W Hne) as (W' & l & ->).
  rewrite <- sapp_assoc in H.
  apply sapp_inv_tail_len in H; [|reflexivity].
  destruct H as [_ H]. injection H as ->.
  rewrite all_chars_app in Hall. apply andb_prop in Hall.
  destruct Hall as [_ Hall]. simpl in Hall. rewrite andb_true_r in Hall.
  exact Hall.
Qed.

Lemma shape_regroup wA W1 ds W2 wB W3 wY :
  wA ++ W1 ++ ds ++ W2 ++ wB ++ W3 ++ wY
  = (wA ++ W1 ++ ds ++ W2 ++ wB ++ W3) ++ wY.
Proof. rewrite !sapp_assoc. reflexivity. Qed.

(** A text that parses with one four-digit year appended parses with any
    other, to the same day and month. *)
Lemma strptime_year_swap c y dt :
  (1000 <= y <= 9999)%Z ->
  strptime (c ++ " " ++ PyStr.str y) "%A %d %B %Y" = inr dt ->
  year (dt_date dt) = y
  /\ forall y', (1000 <= y' <= 9999)%Z ->
       strptime (c ++ " " ++ PyStr.str y') "%A %d %B %Y"
       = match new_date y' (month (dt_date dt)) (day (dt_date dt)) with
         | inr dd => inr (mkdatetime dd 0 0)
         | inl _ => inl ValueError
         end.
Proof.
  intros Hy H.
  destruct (strptime_date_inv _ _ H) as (ds & wB & wY & Hs & Hr).
  destruct Hs as (wA & W1 & W2 & W3 & Heq & HA & HW1 & Hd & HW2 & HB & HW3
                  & HYl & HYd).
  destruct (year_str y Hy) as [[Hyl Hyd] Hyv].
  rewrite shape_regroup in Heq.
  replace (c ++ " " ++ PyStr.str y) with ((c ++ " ") ++ PyStr.str y) in Heq
    by (rewrite sapp_assoc; reflexivity).
  apply sapp_inv_tail_len in Heq; [|congruence].
  destruct Heq as [Hc HwY]. subst wY.
  apply date_result_inr in Hr. rewrite Hyv in Hr.
  apply new_date_fields in Hr. destruct Hr as (Hry & Hrm & Hrd).
  split; [exact Hry|].
  intros y' Hy'. destruct (year_str y' Hy') as [Hyt' Hyv'].
  replace (c ++ " " ++ PyStr.str y') with ((c ++ " ") ++ PyStr.str y')
    by (rewrite sapp_assoc; reflexivity).
  rewrite Hc, <- shape_regroup.
  rewrite (strptime_date_shape _ ds wB (PyStr.str y')).
  - unfold date_result. rewrite Hyv', Hrm, Hrd. reflexivity.
  - exists wA, W1, W2, W3. repeat split; auto; try apply HW1; try apply HW2;
      try apply HW3; apply Hyt'.
Qed.

(** Nothing parses with the five digits of 10000 appended. *)
Lemma strptime_year_10000 c :
  strptime (c ++ " " ++ PyStr.str 10000) "%A %d %B %Y" = inl ValueError.
Proof.
  destruct (strptime _ _) as [[]|dt] eqn:H; try reflexivity;
    try (exfalso; revert H; unfold strptime; rewrite pattern_date;
         destruct (re_match _ _) as [[f r]|]; [|discriminate];
         destruct (negb _); [discriminate|];
         repeat match goal with
                | |- context [match ?x with _ => _ end] => destruct x
                end; discriminate).
  exfalso.
  destruct (strptime_date_inv _ _ H) as (ds & wB & wY & Hs & _).
  destruct Hs as (wA & W1 & W2 & W3 & Heq & _ & _ & _ & _ & _ & HW3 & HYl & _).
  change (PyStr.str 10000) with ("1" ++ "0000") in Heq.
  rewrite shape_regroup in Heq.
  replace (c ++ " " ++ "1" ++ "0000") with ((c ++ " " ++ "1") ++ "0000") in Heq
    by (rewrite !sapp_assoc; reflexivity).
  apply sapp_inv_tail_len in Heq; [|symmetry; exact HYl].
  destruct Heq as [Hc _].
  replace (wA ++ W1 ++ ds ++ W2 ++ wB ++ W3)
    with ((wA ++ W1 ++ ds ++ W2 ++ wB) ++ W3) in Hc
    by (rewrite !sapp_assoc; reflexivity).
  replace (c ++ " " ++ "1") with ((c ++ " ") ++ "1") in Hc
    by (rewrite !sapp_assoc; reflexivity).
  symmetry in Hc. apply (spaces_end _ _ _ _ HW3) in Hc. discriminate.
Qed.

(** ** The year of a heading *)

Lemma date_under_next y text d1 :
  (1000 <= y <= 9999)%Z ->
  date_under y text = Some d1 ->
  year d1 = y /\ date_under (y + 1) text = same_day_next_year y d1.
Proof.
  intros Hy. unfold date_under, same_day_next_year.
  destruct (strptime _ _) as [e|dt] eqn:H; [discriminate|].
  intros E. injection E as <-.
  destruct (strptime_year_swap _ _ _ Hy H) as [Hyear Hswap].
  split; [exact Hyear|].
  destruct (Z.eq_dec y 9999) as [->|Hne].
  - change (9999 + 1)%Z with 10000%Z. rewrite strptime_year_10000.
    reflexivity.
  - rewrite (Hswap (y + 1)%Z) by lia.
    destruct (new_date _ _ _); reflexivity.
Qed.

Lemma stops_weekday wA b :
  In (PyStr.lower wA) f_weekday -> stops PyStr.isspace (wA ++ b).
Proof.
  intros H. destruct wA as [|c wA].
  - simpl in H. repeat (destruct H as [H|H]; [discriminate|]). destruct H.
  - simpl. apply letter_not_space. unfold lower_letter.
    cbn [PyStr.lower f_weekday In] in H.
    repeat (destruct H as [H|H];
            [injection H as <- _; reflexivity|]).
    destruct H.
Qed.

Lemma date_under_empty y : date_under y "" = None.
Proof.
  unfold date_under.
  destruct (strptime _ _) as [e|dt] eqn:H; [reflexivity|]. exfalso.
  destruct (strptime_date_inv _ _ H) as (ds & wB & wY & Hs & _).
  destruct Hs as (wA & W1 & W2 & W3 & Heq & HA & _).
  pose proof (stops_weekday wA (W1 ++ ds ++ W2 ++ wB ++ W3 ++ wY) HA) as Hst.
  rewrite <- Heq in Hst. discriminate Hst.
Qed.

(** C4, as the code has it.  In a four-digit reference year, a heading
    text that parses under the reference year resolves to a date of that
    year, which is returned when it lies at most 60 days before today;
    when it lies more than 60 days before today, the same day and month of
    the next year are returned if there is such a date, and [None] if
    there is none.  A text that does not parse under the reference year
    yields [None]. *)
Theorem resolves_in_reference_or_next_year (w : World) (text : string) :
  (1000 <= CURRENT_YEAR w <= 9999)%Z ->
  (forall d1,
      date_under (CURRENT_YEAR w) text = Some d1 ->
      year d1 = CURRENT_YEAR w
      /\ fst (parse_pcc_date w text)
         = if (days_between (today w) d1 >? 60)%Z
           then same_day_next_year (CURRENT_YEAR w) d1
           else Some d1)
  /\ (date_under (CURRENT_YEAR w) text = None ->
      fst (parse_pcc_date w text) = None).
Proof.
  intros Hy.
  destruct (string_dec text "") as [->|Hne].
  - split; [|reflexivity]. intros d1. rewrite date_under_empty. discriminate.
  - rewrite (parse_pcc_date_unfold w text Hne). split.
    + intros d1 H. rewrite H.
      destruct (date_under_next _ _ _ Hy H) as [Hyear Hnext].
      rewrite Hnext. auto.
    + intros ->. reflexivity.
Qed.

Lemma resolves_in_reference_or_next_year_witness :
  let w := mkWorld 2025 (mkdate 2025 12 1) (inl Timeout) in
  (1000 <= CURRENT_YEAR w <= 9999)%Z
  /\ date_under (CURRENT_YEAR w) "Friday 3rd April" = Some (mkdate 2025 4 3)
  /\ fst (parse_pcc_date w "Friday 3rd April") = Some (mkdate 2026 4 3).
Proof.
  intros w.
  assert (Hy : (1000 <= CURRENT_YEAR w <= 9999)%Z) by (simpl; lia).
  assert (Hd : date_under (CURRENT_YEAR w) "Friday 3rd April"
               = Some (mkdate 2025 4 3)) by reflexivity.
  split; [exact Hy|]. split; [exact Hd|].
  destruct (proj1 (resolves_in_reference_or_next_year w "Friday 3rd April" Hy)
              (mkdate 2025 4 3) Hd) as [_ ->].
  reflexivity.
Defined.

(** C4 as stated fails: on 1 June 2024 the heading "Thursday 29th
    February" parses under 2024, to a day 93 days back; there is no 29
    February 2025, and the result is [None], not a date of 2025. *)
Lemma next_year_same_day_counterexample :
  let w := mkWorld 2024 (mkdate 2024 6 1) (inl Timeout) in
  date_under (CURRENT_YEAR w) "Thursday 29th February" = Some (mkdate 2024 2 29)
  /\ days_between (today w) (mkdate 2024 2 29) = 93%Z
  /\ fst (parse_pcc_date w "Thursday 29th February") = None.
Proof. vm_compute. auto. Qed.

(** ** Headings of the page's form *)

Lemma all_headings_clean :
  forallb (fun W =>
    forallb (fun d =>
      forallb (fun o =>
        forallb (fun kM => cleans_ok W d o (snd kM)) month_names)
      ordinal_suffixes)
    (Zrange 1 31))
  weekday_names = true.
Proof. vm_compute. reflexivity. Qed.

Lemma heading_cleans W d o k M :
  In W weekday_names -> (1 <= d <= 31)%Z -> In o ordinal_suffixes ->
  In (k, M) month_names ->
  heading_text W d o M <> ""
  /\ Re.sub1 ordinal_re (PyStr.strip (heading_text W d o M)) = plain_text W d M.
Proof.
  intros HW Hd Ho HM. pose proof all_headings_clean as A.
  rewrite forallb_forall in A. specialize (A W HW).
  rewrite forallb_forall in A. specialize (A d (in_Zrange 1 31 d ltac:(lia))).
  rewrite forallb_forall in A. specialize (A o Ho).
  rewrite forallb_forall in A. specialize (A (k, M) HM).
  unfold cleans_ok in A. cbn [snd] in A. apply andb_prop in A.
  destruct A as [A1 A2]. apply negb_true_iff, String.eqb_neq in A1.
  apply String.eqb_eq in A2. auto.
Qed.

Lemma day_str d :
  (1 <= d <= 31)%Z ->
  valid_day (PyStr.str d) = true /\ PyStr.digits_val 0 (PyStr.str d) = d.
Proof.
  intros H.
  assert (A : forallb day_str_ok (Zrange 1 31) = true) by (vm_compute; reflexivity).
  rewrite forallb_forall in A. specialize (A d (in_Zrange 1 31 d ltac:(lia))).
  unfold day_str_ok in A. apply andb_prop in A. destruct A as [A1 A2].
  apply Z.eqb_eq in A2. auto.
Qed.

Lemma weekday_name_lower W :
  In W weekday_names -> In (PyStr.lower W) f_weekday.
Proof.
  intros H. simpl in H.
  repeat (destruct H as [H|H]; [subst W; vm_compute; tauto|]). destruct H.
Qed.

Lemma month_name_lower k M :
  In (k, M) month_names ->
  In (PyStr.lower M) (tl f_month) /\ month_number M = k /\ (1 <= k <= 12)%Z.
Proof.
  intros H. simpl in H.
  repeat (destruct H as [H|H];
          [injection H as <- <-; vm_compute; intuition congruence|]).
  destruct H.
Qed.

Lemma one_space : spaces " ".
Proof. split; [discriminate|reflexivity]. Qed.

(** What a heading of the page's form resolves to under a year. *)
Lemma date_under_heading y W d o k M :
  (1000 <= y <= 9999)%Z ->
  In W weekday_names -> (1 <= d <= 31)%Z -> In o ordinal_suffixes ->
  In (k, M) month_names ->
  date_under y (heading_text W d o M)
  = match new_date y k d with inr dd => Some dd | inl _ => None end.
Proof.
  intros Hy HW Hd Ho HM. unfold date_under.
  destruct (heading_cleans W d o k M HW Hd Ho HM) as [_ ->].
  destruct (year_str y Hy) as [Hyt Hyv].
  destruct (day_str d Hd) as [Hdv Hdd].
  destruct (month_name_lower k M HM) as (HB & Hk & _).
  rewrite (strptime_date_shape _ (PyStr.str d) M (PyStr.str y)).
  - unfold date_result. rewrite Hyv, Hdd, Hk.
    destruct (new_date y k d); reflexivity.
  - exists W, " ", " ", " ". unfold plain_text.
    split; [rewrite !sapp_assoc; reflexivity|].
    repeat split; auto using weekday_name_lower, one_space; try apply one_space;
      apply Hyt.
Qed.

Lemma new_date_valid y m d :
  (1 <= y <= 9999)%Z -> (1 <= m <= 12)%Z -> (1 <= d <= days_in_month y m)%Z ->
  new_date y m d = inr (mkdate y m d).
Proof.
  intros Hy Hm Hd. unfold new_date, MINYEAR, MAXYEAR.
  repeat match goal with
         | |- context [(?a <=? ?b)%Z] =>
             let E := fresh in
             assert (E : (a <=? b)%Z = true) by (apply Z.leb_le; lia);
             rewrite E; clear E
         end.
  reflexivity.
Qed.

(** C3, as the code has it.  For a heading "<Weekday> <Day><ordinal>
    <Month>" in a four-digit reference year: the ordinal is stripped; a
    date that is returned has the day and the month of the text and the
    reference year or the next; one is returned when the day exists in
    that month in both years; and the weekday named has no part in it: any
    other weekday name gives the same result. *)
Theorem heading_day_and_month
        (w : World) (W : string) (d : Z) (o : string) (k : Z) (M : string) :
  (1000 <= CURRENT_YEAR w <= 9998)%Z ->
  In W weekday_names -> (1 <= d <= 31)%Z -> In o ordinal_suffixes ->
  In (k, M) month_names ->
  let text := heading_text W d o M in
  let y := CURRENT_YEAR w in
  Re.sub1 ordinal_re (PyStr.strip text) = plain_text W d M
  /\ (forall dt, fst (parse_pcc_date w text) = Some dt ->
                 day dt = d /\ month dt = k
                 /\ (year dt = y \/ year dt = (y + 1)%Z))
  /\ ((d <= days_in_month y k)%Z -> (d <= days_in_month (y + 1) k)%Z ->
      exists dt, fst (parse_pcc_date w text) = Some dt)
  /\ (forall W', In W' weekday_names ->
                 fst (parse_pcc_date w (heading_text W' d o M))
                 = fst (parse_pcc_date w text)).
Proof.
  intros Hy HW Hd Ho HM text y.
  destruct (heading_cleans W d o k M HW Hd Ho HM) as [Hne Hclean].
  destruct (month_name_lower k M HM) as (_ & _ & Hk).
  assert (Hparse : forall W0, In W0 weekday_names ->
            fst (parse_pcc_date w (heading_text W0 d o M))
            = match new_date y k d with
              | inr d1 =>
                  if (days_between (today w) d1 >? 60)%Z
                  then match new_date (y + 1) k d with
                       | inr d2 => Some d2
                       | inl _ => None
                       end
                  else Some d1
              | inl _ => None
              end).
  { intros W0 HW0.
    destruct (heading_cleans W0 d o k M HW0 Hd Ho HM) as [Hne0 _].
    rewrite (parse_pcc_date_unfold w _ Hne0).
    rewrite !(date_under_heading _ W0 d o k M) by (auto; unfold y; lia).
    fold y. destruct (new_date y k d); reflexivity. }
  split; [exact Hclean|]. split; [|split].
  - intros dt. unfold text. rewrite (Hparse W HW).
    destruct (new_date y k d) as [e|d1] eqn:E1; [discriminate|].
    apply new_date_fields in E1. destruct E1 as (Y1 & M1 & D1).
    destruct (_ >? 60)%Z.
    + destruct (new_date (y + 1) k d) as [e|d2] eqn:E2; [discriminate|].
      apply new_date_fields in E2. destruct E2 as (Y2 & M2 & D2).
      intros H. injection H as <-. auto.
    + intros H. injection H as <-. auto.
  - intros H1 H2. unfold text. rewrite (Hparse W HW).
    rewrite (new_date_valid y k d) by (unfold y in *; lia).
    rewrite (new_date_valid (y + 1) k d) by (unfold y in *; lia).
    destruct (_ >? 60)%Z; eauto.
  - intros W' HW'. unfold text. rewrite (Hparse W HW), (Hparse W' HW').
    reflexivity.
Qed.

Lemma heading_day_and_month_witness :
  let w := mkWorld 2025 (mkdate 2025 4 1) (inl Timeout) in
  (1000 <= CURRENT_YEAR w <= 9998)%Z
  /\ In "Thursday" weekday_names /\ (1 <= 3 <= 31)%Z
  /\ In "rd" ordinal_suffixes /\ In (4%Z, "April") month_names
  /\ Re.sub1 ordinal_re (PyStr.strip (heading_text "Thursday" 3 "rd" "April"))
     = "Thursday 3 April".
Proof.
  intros w.
  assert (H1 : (1000 <= CURRENT_YEAR w <= 9998)%Z) by (simpl; lia).
  assert (H2 : In "Thursday" weekday_names) by (simpl; tauto).
  assert (H3 : (1 <= 3 <= 31)%Z) by lia.
  assert (H4 : In "rd" ordinal_suffixes) by (simpl; tauto).
  assert (H5 : In (4%Z, "April") month_names) by (simpl; tauto).
  repeat (split; [assumption|]).
  apply (heading_day_and_month w "Thursday" 3 "rd" 4 "April" H1 H2 H3 H4 H5).
Defined.

(** C3 as stated fails for the weekday.  On 1 April 2025 "Monday 3rd
    April" resolves to 3 April 2025, a Thursday; and on 1 December 2025
    "Thursday 3rd April", right for 2025, resolves to 3 April 2026, a
    Friday.  ([weekday] counts from Monday, 0.) *)
Lemma heading_weekday_counterexample :
  let spring := mkWorld 2025 (mkdate 2025 4 1) (inl Timeout) in
  let winter := mkWorld 2025 (mkdate 2025 12 1) (inl Timeout) in
  fst (parse_pcc_date spring "Monday 3rd April") = Some (mkdate 2025 4 3)
  /\ weekday (mkdate 2025 4 3) = 3%Z
  /\ index "monday" f_weekday = Some 0
  /\ fst (parse_pcc_date winter "Thursday 3rd April") = Some (mkdate 2026 4 3)
  /\ weekday (mkdate 2026 4 3) = 4%Z
  /\ index "thursday" f_weekday = Some 3.
Proof. vm_compute. repeat split; reflexivity. Qed.

(** ** Malformed dates *)

(** *** [strip] and [re.sub] keep and add no character *)







Lemma lit_derives : forall n w g,
  derives (lit n) w g <-> g = [] /\ w = n.
Proof.
  induction n as [|c n IH]; intros w g; simpl.
  - tauto.
  - destruct n as [|d n].
    + simpl. split.
      * intros (x & -> & Hx & ->). unfold char_is in Hx.
        apply Ascii.eqb_eq in Hx. subst. auto.
      * intros [-> ->]. exists c. unfold char_is.
        rewrite Ascii.eqb_refl. auto.
    + split.
      * intros (w1 & w2 & g1 & g2 & -> & -> & (x & -> & Hx & ->) & D2).
        apply IH in D2. destruct D2 as [-> ->].
        unfold char_is in Hx. apply Ascii.eqb_eq in Hx. subst. auto.
      * intros [-> ->].
        exists (String c ""), (String d n), [], []. repeat split.
        -- exists c. unfold char_is. rewrite Ascii.eqb_refl. auto.
        -- apply IH. auto.
Qed.

(** What a match of [(\d+)(st|nd|rd|th)] consists of. *)
Lemma ordinal_match s g rest :
  re_match ordinal_re s = Some (g, rest) ->
  exists w1 w2,
    s = w1 ++ w2 ++ rest /\ group "1" g = Some w1
    /\ w1 <> "" /\ PyStr.all_chars PyStr.isdigit w1 = true
    /\ In w2 ordinal_suffixes.
Proof.
  intros H. apply re_match_sound in H. destruct H as (w & -> & D).
  unfold ordinal_re in D. cbn [derives] in D.
  destruct D as (w1 & w2 & g1 & g2 & -> & -> & (g1' & -> & (Hne & Hd & ->))
                 & (g2' & -> & D2)).
  apply alts_derives in D2. destruct D2 as (r & Hr & D2).
  apply in_map_iff in Hr. destruct Hr as (n & <- & Hn).
  apply lit_derives in D2. destruct D2 as [-> ->].
  exists w1, n. rewrite sapp_assoc. repeat split; auto.
Qed.

(** The fuel [sub1] starts with is never used up: more fuel gives the same
    text. *)
Lemma sub_fuel_enough : forall n m s,
  String.length s <= n -> String.length s <= m ->
  Re.sub_group1 n ordinal_re s = Re.sub_group1 m ordinal_re s.
Proof.
  induction n as [|n IH]; intros m s Hn Hm.
  - destruct s; [|simpl in Hn; lia]. destruct m; reflexivity.
  - destruct m as [|m].
    + destruct s; [reflexivity|simpl in Hm; lia].
    + cbn [Re.sub_group1]. destruct s as [|c s]; [reflexivity|].
      destruct (re_match ordinal_re (String c s)) as [[g rest]|] eqn:E.
      * destruct (ordinal_match _ _ _ E) as (w1 & w2 & Heq & -> & Hne & _).
        assert (Hlen : String.length rest < String.length (String c s)).
        { rewrite Heq, !slength_app. destruct w1; [congruence|simpl; lia]. }
        simpl in Hn, Hm, Hlen. rewrite (IH m rest) by lia. reflexivity.
      * simpl in Hn, Hm. rewrite (IH m s) by lia. reflexivity.
Qed.





(** *** The shape of a heading that resolves *)













(** ** Times: the texts accepted and the text returned *)

Lemma hour_derives_intro hs : valid_hour hs = true -> derives hour_re hs [].
Proof.
  unfold hour_re. destruct hs as [|a [|b [|c hs]]]; try discriminate;
    unfold valid_hour; intros H; simpl.
  - right; right. exists a. auto.
  - apply orb_prop in H. destruct H as [H|H];
      apply andb_prop in H; destruct H as [H1 H2].
    + left. exists (String a ""), (String b ""), [], [].
      repeat split; eauto.
    + right; left. exists (String a ""), (String b ""), [], [].
      repeat split; eauto.
Qed.

Lemma minute_derives_intro ms :
  valid_minute ms = true -> derives minute_re ms [].
Proof.
  unfold minute_re. destruct ms as [|a [|b [|c ms]]]; try discriminate;
    unfold valid_minute; intros H; simpl.
  - right. exists a. auto.
  - apply andb_prop in H. destruct H as [H1 H2].
    left. exists (String a ""), (String b ""), [], [].
    repeat split; eauto.
Qed.

Lemma meridiem_derives_intro wp :
  PyStr.lower wp = "am" \/ PyStr.lower wp = "pm" -> derives meridiem_re wp [].
Proof.
  intros H. unfold meridiem_re. apply names_derives.
  split; [reflexivity|]. exists (PyStr.lower wp). rewrite lower_idem.
  split; [|reflexivity]. destruct H as [-> | ->]; simpl; auto.
Qed.

Lemma time_derives_intro s wI wM wp :
  time_shape s wI wM wp ->
  derives time_re s [("I", wI); ("M", wM); ("p", wp)].
Proof.
  intros (W & -> & HI & HM & [HW HW'] & Hp).
  unfold time_re. cbn [derives].
  exists wI, (":" ++ wM ++ W ++ wp), [("I", wI)], [("M", wM); ("p", wp)].
  split; [reflexivity|]. split; [reflexivity|]. split.
  { exists []. split; [reflexivity|]. apply hour_derives_intro, HI. }
  exists ":", (wM ++ W ++ wp), [], [("M", wM); ("p", wp)].
  split; [reflexivity|]. split; [reflexivity|]. split.
  { exists ":"%char. repeat split. }
  exists wM, (W ++ wp), [("M", wM)], [("p", wp)].
  split; [reflexivity|]. split; [reflexivity|]. split.
  { exists []. split; [reflexivity|]. apply minute_derives_intro, HM. }
  exists W, wp, [], [("p", wp)].
  split; [reflexivity|]. split; [reflexivity|]. split; [repeat split; auto|].
  exists []. split; [reflexivity|]. apply meridiem_derives_intro, Hp.
Qed.

Lemma valid_minute_digits ms :
  valid_minute ms = true ->
  ms <> "" /\ PyStr.all_chars PyStr.isdigit ms = true
  /\ (0 <= PyStr.digits_val 0 ms <= 59)%Z.
Proof.
  destruct ms as [|a [|b [|c ms]]]; try discriminate; unfold valid_minute;
    intros H; (split; [discriminate|]).
  - bounds. split; digit_goal.
  - bounds. split; digit_goal.
Qed.

(** A meridiem is two letters. *)
Lemma meridiem_two wp :
  PyStr.lower wp = "am" \/ PyStr.lower wp = "pm" ->
  String.length wp = 2 /\ stops PyStr.isspace wp.
Proof.
  intros H.
  assert (L : String.length (PyStr.lower wp) = 2) by (destruct H as [-> | ->]; reflexivity).
  rewrite lower_length in L. split; [exact L|].
  destruct wp as [|c wp]; [exact I|]. simpl.
  apply letter_not_space. unfold lower_letter.
  destruct H as [H|H]; simpl in H; injection H as -> _; reflexivity.
Qed.

Lemma shape_scan_time s wI wM wp r :
  time_shape s wI wM wp -> scan_time (s ++ r) = Some (wI, wM, wp, r).
Proof.
  intros (W & -> & HI & HM & HW & Hp).
  apply valid_hour_digits in HI. destruct HI as (_ & HI & _).
  apply valid_minute_digits in HM. destruct HM as (_ & HM & _).
  destruct (meridiem_two wp Hp) as [Hl Hst].
  unfold scan_time.
  replace ((wI ++ ":" ++ wM ++ W ++ wp) ++ r)
    with (wI ++ String ":" (wM ++ W ++ wp ++ r))
    by (rewrite !sapp_assoc; reflexivity).
  rewrite (span_app PyStr.isdigit wI _ HI) by reflexivity. cbn [fst snd].
  rewrite (span_app PyStr.isdigit wM _ HM) by (apply stops_spaces, HW).
  cbn [fst snd].
  rewrite (span_app PyStr.isspace W (wp ++ r) (proj2 HW)).
  - cbn [snd]. rewrite <- Hl, stake_app, sdrop_app. reflexivity.
  - destruct wp as [|c wp]; [discriminate|]. exact Hst.
Qed.

Lemma time_groups wI wM wp :
  let g := [("I", wI); ("M", wM); ("p", wp)] in
  group "Y" g = None /\ group "B" g = None /\ group "d" g = None
  /\ group "A" g = None /\ group "M" g = Some wM /\ group "I" g = Some wI
  /\ group "p" g = Some wp.
Proof. repeat split; reflexivity. Qed.

Lemma hour24_of_day h wI wM wp :
  (1 <= h <= 12)%Z ->
  PyStr.lower wp = "am" \/ PyStr.lower wp = "pm" ->
  hour24 h [("I", wI); ("M", wM); ("p", wp)]
  = hour_of_day h (String.eqb (PyStr.lower wp) "pm").
Proof.
  intros Hh Hp. unfold hour24, hour_of_day.
  destruct (time_groups wI wM wp) as (_ & _ & _ & _ & _ & _ & ->).
  destruct (h =? 12)%Z eqn:E.
  - apply Z.eqb_eq in E. subst h. destruct Hp as [-> | ->]; reflexivity.
  - apply Z.eqb_neq in E.
    destruct Hp as [-> | ->];
      repeat match goal with
             | |- context [String.eqb ?a ?b] =>
                 let v := eval vm_compute in (String.eqb a b) in
                 change (String.eqb a b) with v
             end;
      cbn [orb]; rewrite Z.mod_small by lia; lia.
Qed.

(** What [strptime] makes of the groups of a time. *)
Lemma strptime_time_found t wI wM wp :
  re_match time_re t = Some ([("I", wI); ("M", wM); ("p", wp)], "") ->
  valid_hour wI = true -> valid_minute wM = true ->
  PyStr.lower wp = "am" \/ PyStr.lower wp = "pm" ->
  exists dt,
    strptime t "%I:%M %p" = inr dt
    /\ strftime_HM dt = time_value wI wM wp
    /\ (0 <= hour dt <= 23)%Z /\ (0 <= minute dt <= 59)%Z.
Proof.
  intros Hm HI HM Hp.
  apply valid_hour_digits in HI. destruct HI as (HIne & HId & HIr).
  apply valid_minute_digits in HM. destruct HM as (HMne & HMd & HMr).
  unfold strptime. rewrite pattern_time, Hm. cbn [String.eqb negb].
  unfold int_group, name_group.
  destruct (time_groups wI wM wp) as (-> & -> & -> & -> & -> & -> & _).
  rewrite (int_digits wM HMne HMd), (int_digits wI HIne HId).
  cbn [option_map].
  change (new_date 1900 1 1) with (@inr exn date (mkdate 1900 1 1)).
  eexists. split; [reflexivity|].
  rewrite (hour24_of_day _ wI wM wp HIr Hp).
  unfold strftime_HM, time_value. cbn [hour minute].
  split; [reflexivity|]. split; [|exact HMr].
  unfold hour_of_day.
  pose proof (Z.mod_pos_bound (PyStr.digits_val 0 wI) 12 ltac:(lia)).
  destruct (String.eqb _ _); lia.
Qed.

(** A text of the shape parses, to the value of its fields. *)
Lemma strptime_time_intro t wI wM wp :
  time_shape t wI wM wp ->
  exists dt,
    strptime t "%I:%M %p" = inr dt
    /\ strftime_HM dt = time_value wI wM wp.
Proof.
  intros Hs.
  pose proof (time_derives_intro _ _ _ _ Hs) as D0.
  destruct (re_match_complete _ _ _ "" D0) as (g' & r' & Hm).
  rewrite sapp_nil_r in Hm.
  destruct (re_match_sound _ _ _ _ Hm) as (w' & Heq & D').
  destruct (time_derives _ _ D')
    as (wI' & wM' & W' & wp' & Hw' & Hg' & HI' & HM' & HW1 & HW2 & Hp').
  assert (Hs' : time_shape w' wI' wM' wp').
  { exists W'. unfold spaces. repeat split; auto. }
  pose proof (shape_scan_time _ _ _ _ r' Hs') as S1.
  pose proof (shape_scan_time _ _ _ _ "" Hs) as S2.
  rewrite sapp_nil_r in S2. rewrite <- Heq, S2 in S1.
  injection S1 as <- <- <- <-. subst g'.
  destruct (strptime_time_found _ _ _ _ Hm HI' HM' Hp') as (dt & H1 & H2 & _).
  eauto.
Qed.

(** A text that parses has the shape, and the value of its fields. *)
Lemma strptime_time_inv t dt :
  strptime t "%I:%M %p" = inr dt ->
  exists wI wM wp,
    time_shape t wI wM wp
    /\ strftime_HM dt = time_value wI wM wp
    /\ (0 <= hour dt <= 23)%Z /\ (0 <= minute dt <= 59)%Z.
Proof.
  intros H.
  assert (Hm : exists found, re_match time_re t = Some (found, "")).
  { unfold strptime in H. rewrite pattern_time in H.
    destruct (re_match time_re t) as [[found rest]|]; [|discriminate].
    destruct (String.eqb rest "") eqn:E; [|discriminate].
    apply String.eqb_eq in E. subst. eauto. }
  destruct Hm as [found Hm].
  destruct (re_match_sound _ _ _ _ Hm) as (w & Heq & D).
  rewrite sapp_nil_r in Heq. subst w.
  destruct (time_derives _ _ D)
    as (wI & wM & W & wp & Hw & Hg & HI & HM & HW1 & HW2 & Hp).
  subst found.
  destruct (strptime_time_found _ _ _ _ Hm HI HM Hp) as (dt' & H1 & H2 & H3).
  rewrite H in H1. injection H1 as <-.
  exists wI, wM, wp. split; [|auto].
  exists W. unfold spaces. repeat split; auto.
Qed.

(** *** Letter case *)

Lemma lower_spaces W :
  PyStr.all_chars PyStr.isspace W = true -> PyStr.lower W = W.
Proof.
  induction W as [|c W IH]; simpl; [reflexivity|]. intros H.
  apply andb_prop in H. destruct H as [Hc HW]. rewrite (IH HW). f_equal.
  revert Hc. clear. all_ascii c.
Qed.

(** Cutting a lowered text cuts the text. *)
Lemma lower_split : forall a s b,
  PyStr.lower s = a ++ b ->
  exists a' b', s = a' ++ b' /\ PyStr.lower a' = a /\ PyStr.lower b' = b.
Proof.
  induction a as [|x a IH]; intros s b H.
  - exists "", s. auto.
  - destruct s as [|c s]; [discriminate|]. simpl in H. injection H as Hx H.
    destruct (IH _ _ H) as (a' & b' & -> & Ha & Hb).
    exists (String c a'), b'. simpl. rewrite Hx, Ha. auto.
Qed.

Lemma lower_all_chars p s :
  (forall c, p (PyStr.lower_char c) = p c) ->
  PyStr.all_chars p (PyStr.lower s) = PyStr.all_chars p s.
Proof.
  intros Hp. induction s as [|c s IH]; simpl; [reflexivity|].
  rewrite Hp, IH. reflexivity.
Qed.

Lemma lower_is_digits s :
  PyStr.all_chars PyStr.isdigit (PyStr.lower s) = true -> PyStr.lower s = s.
Proof.
  intros H. rewrite (lower_all_chars _ _ lower_char_isdigit) in H.
  apply lower_digits, H.
Qed.

(** The shape of the lowered text is the shape of the text. *)
Lemma time_shape_lower s wI wM wp :
  time_shape (PyStr.lower s) wI wM wp ->
  exists wp', time_shape s wI wM wp' /\ PyStr.lower wp' = wp.
Proof.
  intros (W & Hs & HI & HM & [HW HW'] & Hp).
  destruct (lower_split _ _ _ Hs) as (sI & s1 & -> & HsI & Hs1).
  destruct (lower_split ":" _ _ Hs1) as (sc & s2 & -> & Hsc & Hs2).
  destruct (lower_split _ _ _ Hs2) as (sM & s3 & -> & HsM & Hs3).
  destruct (lower_split _ _ _ Hs3) as (sW & sp & -> & HsW & Hsp).
  pose proof (valid_hour_digits _ HI) as (_ & HId & _).
  pose proof (valid_minute_digits _ HM) as (_ & HMd & _).
  rewrite <- HsI in HId. apply lower_is_digits in HId.
  rewrite <- HsM in HMd. apply lower_is_digits in HMd.
  assert (HWs : PyStr.all_chars PyStr.isspace sW = true).
  { rewrite <- (lower_all_chars _ _ lower_char_isspace), HsW. exact HW'. }
  assert (Hc : sc = ":").
  { destruct sc as [|c [|c' sc]]; try discriminate.
    simpl in Hsc. injection Hsc as Hsc. apply lower_char_colon in Hsc.
    subst c. reflexivity. }
  exists sp. split; [|exact Hsp].
  exists sW. subst sc. rewrite <- HsI, HId, <- HsM, HMd in *.
  split; [reflexivity|]. split; [exact HI|]. split; [exact HM|].
  split.
  - split; [|exact HWs]. intros ->. apply HW. rewrite <- HsW. reflexivity.
  - rewrite <- Hsp, lower_idem in Hp. exact Hp.
Qed.

Lemma lower_time_shape s wI wM wp :
  time_shape s wI wM wp -> time_shape (PyStr.lower s) wI wM (PyStr.lower wp).
Proof.
  intros (W & -> & HI & HM & [HW HW'] & Hp).
  pose proof (valid_hour_digits _ HI) as (_ & HId & _).
  pose proof (valid_minute_digits _ HM) as (_ & HMd & _).
  exists W. rewrite !lower_app, (lower_digits _ HId), (lower_digits _ HMd),
    (lower_spaces _ HW'), lower_idem.
  repeat split; auto.
Qed.

Lemma time_value_lower wI wM wp :
  time_value wI wM (PyStr.lower wp) = time_value wI wM wp.
Proof. unfold time_value. rewrite lower_idem. reflexivity. Qed.

(** *** What [parse_pcc_time] accepts *)

Lemma parse_pcc_time_shape s r :
  fst (parse_pcc_time s) = Some r
  <-> exists wI wM wp, time_shape s wI wM wp /\ r = time_value wI wM wp.
Proof.
  split.
  - intros H. apply parse_pcc_time_some in H.
    destruct H as (_ & dt & Hdt & ->).
    destruct (strptime_time_inv _ _ Hdt) as (wI & wM & wp & Hs & Hv & _).
    destruct (time_shape_lower _ _ _ _ Hs) as (wp' & Hs' & <-).
    exists wI, wM, wp'. rewrite time_value_lower in Hv. auto.
  - intros (wI & wM & wp & Hs & ->).
    assert (Hne : s <> "").
    { destruct Hs as (W & -> & HI & _). destruct wI; [discriminate|].
      discriminate. }
    apply lower_time_shape in Hs.
    destruct (strptime_time_intro _ _ _ _ Hs) as (dt & Hdt & Hv).
    unfold parse_pcc_time. apply String.eqb_neq in Hne. rewrite Hne, Hdt.
    simpl. rewrite Hv, time_value_lower. reflexivity.
Qed.

Lemma all_hh_mm_ok :
  forallb (fun h => forallb (hh_mm_ok h) (Zrange 0 60)) (Zrange 0 24) = true.
Proof. vm_compute. reflexivity. Qed.

Lemma parse_pcc_time_format s r :
  fst (parse_pcc_time s) = Some r -> is_HH_MM r = true.
Proof.
  intros H. apply parse_pcc_time_some in H.
  destruct H as (_ & dt & Hdt & ->).
  destruct (strptime_time_inv _ _ Hdt) as (_ & _ & _ & _ & _ & Hh & Hm).
  pose proof all_hh_mm_ok as A. rewrite forallb_forall in A.
  specialize (A _ (in_Zrange 0 24 (hour dt) ltac:(lia))).
  rewrite forallb_forall in A.
  exact (A _ (in_Zrange 0 60 (minute dt) ltac:(lia))).
Qed.

Lemma HH_MM_nonempty r : is_HH_MM r = true -> String.eqb r "" = false.
Proof. destruct r; [discriminate|reflexivity]. Qed.

(** A meridiem ends in a letter. *)
Lemma meridiem_last wp :
  PyStr.lower wp = "am" \/ PyStr.lower wp = "pm" ->
  exists a m, wp = String a (String m "") /\ PyStr.isspace m = false.
Proof.
  intros H. destruct wp as [|a [|m [|x wp]]];
    try (destruct H as [H|H]; discriminate).
  exists a, m. split; [reflexivity|].
  apply letter_not_space. unfold lower_letter.
  destruct H as [H|H]; simpl in H; injection H as _ ->; reflexivity.
Qed.

Lemma valid_hour_first wI :
  valid_hour wI = true -> exists a r, wI = String a r /\ PyStr.isspace a = false.
Proof.
  intros H. apply valid_hour_digits in H. destruct H as (Hne & Hd & _).
  destruct wI as [|a r]; [congruence|]. exists a, r. split; [reflexivity|].
  simpl in Hd. apply andb_prop in Hd. apply digit_not_space, Hd.
Qed.

(** ** Times: the properties *)

(** X1. Whatever text it is given, a time that [parse_pcc_time] returns is
    five characters [HH:MM]: two digits of an hour 00..23, a colon, two
    digits of a minute 00..59.  It is never empty, so the test of line 144
    drops no time that parsed. *)
Theorem returned_time_is_HH_MM (s r : string) :
  fst (parse_pcc_time s) = Some r ->
  is_HH_MM r = true /\ String.length r = 5 /\ r <> "".
Proof.
  intros H. apply parse_pcc_time_format in H. split; [exact H|].
  destruct r as [|a [|b [|c [|d [|e [|f r]]]]]]; try discriminate.
  split; [reflexivity|discriminate].
Qed.

Lemma returned_time_is_HH_MM_witness :
  fst (parse_pcc_time "7:05 PM") = Some "19:05"
  /\ is_HH_MM "19:05" = true /\ String.length "19:05" = 5 /\ "19:05" <> "".
Proof.
  assert (H : fst (parse_pcc_time "7:05 PM") = Some "19:05") by reflexivity.
  split; [exact H|]. apply (returned_time_is_HH_MM "7:05 PM" "19:05" H).
Defined.

(** X2. The texts [parse_pcc_time] accepts are exactly those made of an
    hour 1..12 in one or two digits (a leading zero allowed), a colon, a
    minute 0..59 in one or two digits, a run of one or more white-space
    characters of any kind, and [am] or [pm] in any letter case, with
    nothing before or after; and the text returned is the 24-hour time of
    these fields, where 12 am is hour 00 and 12 pm hour 12. *)
Theorem time_accepted_exactly (s r : string) :
  fst (parse_pcc_time s) = Some r
  <-> exists wI wM W wp,
        s = wI ++ ":" ++ wM ++ W ++ wp
        /\ valid_hour wI = true /\ valid_minute wM = true
        /\ W <> "" /\ PyStr.all_chars PyStr.isspace W = true
        /\ (PyStr.lower wp = "am" \/ PyStr.lower wp = "pm")
        /\ r = PyStr.zfill 2 (hour_of_day (PyStr.digits_val 0 wI)
                                          (String.eqb (PyStr.lower wp) "pm"))
               ++ ":" ++ PyStr.zfill 2 (PyStr.digits_val 0 wM).
Proof.
  rewrite parse_pcc_time_shape. unfold time_shape, spaces, time_value. split.
  - intros (wI & wM & wp & (W & H1 & H2 & H3 & [H4 H5] & H6) & H7).
    exists wI, wM, W, wp. repeat split; auto.
  - intros (wI & wM & W & wp & H1 & H2 & H3 & H4 & H5 & H6 & H7).
    exists wI, wM, wp. split; [|exact H7]. exists W. repeat split; auto.
Qed.

(** X3. [parse_pcc_time] does not strip its argument: a text that starts
    or ends with a white-space character yields [None], whatever lies
    between.  (Line 141 strips the text of the page before the call.) *)
Theorem time_is_not_stripped (s : string) (c : ascii) :
  PyStr.isspace c = true ->
  fst (parse_pcc_time (String c s)) = None
  /\ fst (parse_pcc_time (s ++ String c "")) = None.
Proof.
  intros Hc. split.
  - destruct (fst (parse_pcc_time (String c s))) as [r|] eqn:E; [|reflexivity].
    exfalso. apply parse_pcc_time_shape in E.
    destruct E as (wI & wM & wp & (W & Heq & HI & _) & _).
    destruct (valid_hour_first _ HI) as (a & r' & -> & Ha).
    simpl in Heq. injection Heq as -> _. congruence.
  - destruct (fst (parse_pcc_time (s ++ String c ""))) as [r|] eqn:E;
      [|reflexivity].
    exfalso. apply parse_pcc_time_shape in E.
    destruct E as (wI & wM & wp & (W & Heq & _ & _ & _ & Hp) & _).
    destruct (meridiem_last _ Hp) as (a & m & -> & Hm).
    replace (wI ++ ":" ++ wM ++ W ++ String a (String m ""))
      with ((wI ++ ":" ++ wM ++ W ++ String a "") ++ String m "") in Heq
      by (rewrite !sapp_assoc; reflexivity).
    apply sapp_inv_tail_len in Heq; [|reflexivity].
    destruct Heq as [_ Heq]. injection Heq as ->. congruence.
Qed.

Lemma time_is_not_stripped_witness :
  PyStr.isspace " " = true
  /\ fst (parse_pcc_time " 7:30 pm") = None
  /\ fst (parse_pcc_time "7:30 pm ") = None.
Proof.
  assert (H : PyStr.isspace " " = true) by reflexivity.
  split; [exact H|].
  split.
  - apply (proj1 (time_is_not_stripped "7:30 pm" " " H)).
  - apply (proj2 (time_is_not_stripped "7:30 pm" " " H)).
Defined.

(** ** Dates: what is returned *)

Lemma new_date_inr y m d dd :
  new_date y m d = inr dd -> dd = mkdate y m d /\ valid_date dd.
Proof.
  unfold new_date, MINYEAR, MAXYEAR. destruct (_ && _) eqn:E; [|discriminate].
  intros H. injection H as <-. split; [reflexivity|].
  repeat (apply andb_prop in E; destruct E as [E ?]).
  unfold valid_date. cbn [year month day].
  repeat match goal with
         | H : (_ <=? _)%Z = true |- _ => apply Z.leb_le in H
         end.
  lia.
Qed.

Lemma strptime_date_valid s dt :
  strptime s "%A %d %B %Y" = inr dt -> valid_date (dt_date dt).
Proof.
  intros H. destruct (strptime_date_inv _ _ H) as (ds & wB & wY & _ & Hr).
  apply date_result_inr, new_date_inr in Hr. tauto.
Qed.

Lemma parse_pcc_date_valid w text d :
  fst (parse_pcc_date w text) = Some d -> valid_date d.
Proof.
  unfold parse_pcc_date. destruct (String.eqb text ""); [discriminate|].
  destruct (strptime _ _) as [e|dt] eqn:E1; [discriminate|].
  destruct (_ >? 60)%Z.
  - match goal with
    | |- context [strptime ?x ?f] => destruct (strptime x f) as [e|dt2] eqn:E2
    end; [discriminate|].
    simpl. intros H. injection H as <-. apply (strptime_date_valid _ _ E2).
  - simpl. intros H. injection H as <-. apply (strptime_date_valid _ _ E1).
Qed.

Lemma date_under_valid y text d : date_under y text = Some d -> valid_date d.
Proof.
  unfold date_under. destruct (strptime _ _) as [e|dt] eqn:E; [discriminate|].
  intros H. injection H as <-. apply (strptime_date_valid _ _ E).
Qed.

(** *** Ordinals *)

Lemma days_before_next_year y :
  (days_before_year (y + 1)
   = days_before_year y + 365 + (if is_leap y then 1 else 0))%Z.
Proof.
  unfold days_before_year, is_leap.
  replace (y + 1 - 1)%Z with y by lia.
  destruct (y mod 4 =? 0)%Z eqn:E4; destruct (y mod 100 =? 0)%Z eqn:E100;
    destruct (y mod 400 =? 0)%Z eqn:E400; cbn [negb andb orb];
    rewrite ?Z.eqb_eq, ?Z.eqb_neq in *; Z.div_mod_to_equations; lia.
Qed.

Lemma leap_years_apart y : is_leap y = true -> is_leap (y + 1) = false.
Proof.
  unfold is_leap. intros H. apply andb_prop in H. destruct H as [H _].
  apply Z.eqb_eq in H.
  assert (E : ((y + 1) mod 4 =? 0)%Z = false).
  { apply Z.eqb_neq. Z.div_mod_to_equations. lia. }
  rewrite E. reflexivity.
Qed.

Lemma month_cases m :
  (1 <= m <= 12)%Z ->
  In m [1; 2; 3; 4; 5; 6; 7; 8; 9; 10; 11; 12]%Z.
Proof.
  intros H. change [1; 2; 3; 4; 5; 6; 7; 8; 9; 10; 11; 12]%Z with (Zrange 1 12).
  apply in_Zrange. lia.
Qed.

(** Look up the month tables at a given month. *)
Ltac month_tables :=
  repeat match goal with
         | H : context [nth ?n ?l 0%Z] |- _ =>
             let v := eval vm_compute in (nth n l 0%Z) in
             change (nth n l 0%Z) with v in H
         | |- context [nth ?n ?l 0%Z] =>
             let v := eval vm_compute in (nth n l 0%Z) in
             change (nth n l 0%Z) with v
         end;
  cbn [Z.eqb Z.ltb Z.compare Pos.eqb Pos.compare Pos.compare_cont andb orb negb]
    in *.

(** The ordinal of a date lies within its year. *)
Lemma ordinal_in_year d :
  valid_date d ->
  (days_before_year (year d) + 1 <= toordinal d
   <= days_before_year (year d) + 365
      + (if is_leap (year d) then 1 else 0))%Z.
Proof.
  intros (_ & Hm & Hd). unfold toordinal, ymd2ord.
  destruct d as [y m d]. cbn [year month day] in *.
  apply month_cases in Hm. unfold days_in_month, days_before_month in *.
  cbn [In] in Hm.
  repeat (destruct Hm as [<-|Hm];
          [destruct (is_leap y); month_tables; lia|]).
  destruct Hm.
Qed.

(** The same day and month of the next year is a year later. *)
Lemma ordinal_next_year y m d :
  valid_date (mkdate y m d) -> valid_date (mkdate (y + 1) m d) ->
  (365 <= ymd2ord (y + 1) m d - ymd2ord y m d <= 366)%Z.
Proof.
  intros (_ & Hm & _) _. cbn [year month day] in *.
  unfold ymd2ord. rewrite days_before_next_year.
  apply month_cases in Hm. unfold days_before_month. cbn [In] in Hm.
  pose proof (leap_years_apart y) as L.
  repeat (destruct Hm as [<-|Hm];
          [destruct (is_leap y); [rewrite L by reflexivity|];
           try destruct (is_leap (y + 1)); month_tables; lia|]).
  destruct Hm.
Qed.

(** X5. When the reference year is the year of today (a four-digit year),
    a date that [parse_pcc_date] returns lies at most 60 days before today
    and at most 365 days after it, whatever the text. *)
Theorem returned_date_window (w : World) (text : string) (d : date) :
  (1000 <= CURRENT_YEAR w <= 9999)%Z ->
  valid_date (today w) -> year (today w) = CURRENT_YEAR w ->
  fst (parse_pcc_date w text) = Some d ->
  (-365 <= days_between (today w) d <= 60)%Z.
Proof.
  intros Hy Ht Hty H.
  destruct (string_dec text "") as [->|Hne]; [discriminate|].
  rewrite (parse_pcc_date_unfold w text Hne) in H.
  destruct (date_under (CURRENT_YEAR w) text) as [d1|] eqn:E1; [|discriminate].
  pose proof (date_under_valid _ _ _ E1) as V1.
  destruct (date_under_next _ _ _ Hy E1) as [Hy1 E2].
  pose proof (ordinal_in_year _ Ht) as Ot.
  pose proof (ordinal_in_year _ V1) as O1.
  rewrite Hty in Ot. rewrite Hy1 in O1.
  unfold days_between in *.
  destruct (_ >? 60)%Z eqn:G.
  - rewrite E2 in H. unfold same_day_next_year in H.
    destruct (new_date _ _ _) as [e|d2] eqn:N; [discriminate|].
    injection H as <-. apply new_date_inr in N. destruct N as [-> V2].
    pose proof (ordinal_next_year (CURRENT_YEAR w) (month d1) (day d1)) as O2.
    destruct d1 as [y1 m1 dd1]. cbn [year month day] in *. subst y1.
    specialize (O2 V1 V2). unfold toordinal in *. cbn [year month day] in *.
    apply Z.gtb_lt in G. destruct (is_leap (CURRENT_YEAR w)); lia.
  - injection H as <-.
    assert (G' : (toordinal (today w) - toordinal d1 <= 60)%Z).
    { destruct (Z.gtb_spec (toordinal (today w) - toordinal d1) 60); [discriminate|lia]. }
    destruct (is_leap (CURRENT_YEAR w)); lia.
Qed.

Lemma returned_date_window_witness :
  let w := mkWorld 2025 (mkdate 2025 12 1) (inl Timeout) in
  (1000 <= CURRENT_YEAR w <= 9999)%Z
  /\ valid_date (today w) /\ year (today w) = CURRENT_YEAR w
  /\ fst (parse_pcc_date w "Friday 3rd April") = Some (mkdate 2026 4 3)
  /\ (-365 <= days_between (today w) (mkdate 2026 4 3) <= 60)%Z.
Proof.
  intros w.
  assert (H1 : (1000 <= CURRENT_YEAR w <= 9999)%Z) by (simpl; lia).
  assert (H2 : valid_date (today w))
    by (repeat split; vm_compute; discriminate).
  assert (H3 : year (today w) = CURRENT_YEAR w) by reflexivity.
  assert (H4 : fst (parse_pcc_date w "Friday 3rd April")
               = Some (mkdate 2026 4 3)) by reflexivity.
  repeat (split; [assumption|]).
  apply (returned_date_window w "Friday 3rd April" (mkdate 2026 4 3)
           H1 H2 H3 H4).
Defined.

(** X4. Whatever the text, the reference year and the day of the run, a
    date that [parse_pcc_date] returns is a date of the calendar: a year
    1..9999, a month 1..12 and a day that the month has in that year. *)
Theorem returned_date_is_valid (w : World) (text : string) (d : date) :
  fst (parse_pcc_date w text) = Some d ->
  (1 <= year d <= 9999)%Z /\ (1 <= month d <= 12)%Z
  /\ (1 <= day d <= days_in_month (year d) (month d))%Z.
Proof. apply parse_pcc_date_valid. Qed.

Lemma returned_date_is_valid_witness :
  let w := mkWorld 2024 (mkdate 2024 2 1) (inl Timeout) in
  fst (parse_pcc_date w "thursday 29th february") = Some (mkdate 2024 2 29)
  /\ (1 <= 29 <= days_in_month 2024 2)%Z.
Proof.
  intros w.
  assert (H : fst (parse_pcc_date w "thursday 29th february")
              = Some (mkdate 2024 2 29)) by reflexivity.
  split; [exact H|].
  apply (returned_date_is_valid w "thursday 29th february" (mkdate 2024 2 29) H).
Defined.

(** *** The headings accepted *)

Lemma all_chars_last p s c :
  PyStr.all_chars p (s ++ String c "") = PyStr.all_chars p s && p c.
Proof. rewrite all_chars_app. simpl. rewrite andb_true_r. reflexivity. Qed.

(** The cleaned texts that parse with the four digits of [y] appended. *)
Lemma strptime_cleaned c y d :
  (1000 <= y <= 9999)%Z ->
  (exists dt, strptime (c ++ " " ++ PyStr.str y) "%A %d %B %Y" = inr dt
              /\ dt_date dt = d)
  <-> exists wA W1 ds W2 wB T,
        c = wA ++ W1 ++ ds ++ W2 ++ wB ++ T
        /\ In (PyStr.lower wA) f_weekday
        /\ spaces W1 /\ valid_day ds = true
        /\ spaces W2 /\ In (PyStr.lower wB) (tl f_month)
        /\ PyStr.all_chars PyStr.isspace T = true
        /\ new_date y (month_number wB) (PyStr.digits_val 0 ds) = inr d.
Proof.
  intros Hy. destruct (year_str y Hy) as [Hyt Hyv]. split.
  - intros (dt & Hdt & <-).
    destruct (strptime_date_inv _ _ Hdt) as (ds & wB & wY & Hs & Hr).
    destruct Hs as (wA & W1 & W2 & W3 & Heq & HA & HW1 & Hd & HW2 & HB & HW3
                    & HYl & HYd).
    rewrite shape_regroup in Heq.
    replace (c ++ " " ++ PyStr.str y) with ((c ++ " ") ++ PyStr.str y) in Heq
      by (rewrite sapp_assoc; reflexivity).
    apply sapp_inv_tail_len in Heq; [|destruct Hyt; congruence].
    destruct Heq as [Hc HwY]. subst wY.
    apply date_result_inr in Hr. rewrite Hyv in Hr.
    destruct HW3 as [HW3 HW3'].
    destruct (last_char_split W3 HW3) as (T & l & ->).
    rewrite all_chars_last in HW3'. apply andb_prop in HW3'.
    destruct HW3' as [HT _].
    exists wA, W1, ds, W2, wB, T.
    split; [|repeat split; auto; try apply HW1; apply HW2].
    replace (wA ++ W1 ++ ds ++ W2 ++ wB ++ T ++ String l "")
      with ((wA ++ W1 ++ ds ++ W2 ++ wB ++ T) ++ String l "") in Hc
      by (rewrite !sapp_assoc; reflexivity).
    apply sapp_inv_tail_len in Hc; [tauto|reflexivity].
  - intros (wA & W1 & ds & W2 & wB & T & -> & HA & HW1 & Hd & HW2 & HB & HT
            & Hn).
    exists (mkdatetime d 0 0). split; [|reflexivity].
    rewrite (strptime_date_shape _ ds wB (PyStr.str y)).
    + unfold date_result. rewrite Hyv, Hn. reflexivity.
    + exists wA, W1, W2, (T ++ " "). split; [rewrite !sapp_assoc; reflexivity|].
      repeat split; auto; try apply HW1; try apply HW2; try apply Hyt.
      * destruct T; discriminate.
      * rewrite all_chars_last, HT. reflexivity.
Qed.

(** X6. With a four-digit year [y] appended (lines 33-35), a heading text
    resolves to the date [d] exactly when, once stripped and rid of its
    ordinals, it is a weekday name, white space, a day in one or two
    digits, white space and a month name, with at most white space after,
    letter case apart, and [d] is that day of that month of [y], a date
    of the calendar.  The weekday has to be a name and no more. *)
Theorem heading_accepted_exactly (y : Z) (text : string) (d : date) :
  (1000 <= y <= 9999)%Z ->
  date_under y text = Some d
  <-> exists wA W1 ds W2 wB T,
        Re.sub1 ordinal_re (PyStr.strip text)
        = wA ++ W1 ++ ds ++ W2 ++ wB ++ T
        /\ In (PyStr.lower wA) f_weekday
        /\ spaces W1 /\ valid_day ds = true
        /\ spaces W2 /\ In (PyStr.lower wB) (tl f_month)
        /\ PyStr.all_chars PyStr.isspace T = true
        /\ new_date y (month_number wB) (PyStr.digits_val 0 ds) = inr d.
Proof.
  intros Hy. rewrite <- (strptime_cleaned _ y d Hy). unfold date_under.
  destruct (strptime _ _) as [e|dt]; split.
  - discriminate.
  - intros (dt & H & _). discriminate.
  - intros H. injection H as <-. eauto.
  - intros (dt' & H & <-). injection H as <-. reflexivity.
Qed.

Lemma heading_accepted_exactly_witness :
  (1000 <= 2025 <= 9999)%Z
  /\ (date_under 2025 "FRIDAY  4th april" = Some (mkdate 2025 4 4)
      <-> exists wA W1 ds W2 wB T,
            Re.sub1 ordinal_re (PyStr.strip "FRIDAY  4th april")
            = wA ++ W1 ++ ds ++ W2 ++ wB ++ T
            /\ In (PyStr.lower wA) f_weekday
            /\ spaces W1 /\ valid_day ds = true
            /\ spaces W2 /\ In (PyStr.lower wB) (tl f_month)
            /\ PyStr.all_chars PyStr.isspace T = true
            /\ new_date 2025 (month_number wB) (PyStr.digits_val 0 ds)
               = inr (mkdate 2025 4 4)).
Proof.
  assert (H : (1000 <= 2025 <= 9999)%Z) by lia.
  split; [exact H|].
  apply (heading_accepted_exactly 2025 "FRIDAY  4th april" (mkdate 2025 4 4) H).
Defined.

(** *** White space around a heading *)

Lemma lstrip_spaces_app a s :
  PyStr.all_chars PyStr.isspace a = true ->
  PyStr.lstrip (a ++ s) = PyStr.lstrip s.
Proof.
  induction a as [|c a IH]; simpl; [reflexivity|]. intros H.
  apply andb_prop in H. destruct H as [-> H]. auto.
Qed.

Lemma rstrip_spaces b :
  PyStr.all_chars PyStr.isspace b = true -> PyStr.rstrip b = "".
Proof.
  induction b as [|c b IH]; simpl; [reflexivity|]. intros H.
  apply andb_prop in H. destruct H as [Hc H]. rewrite (IH H), Hc. reflexivity.
Qed.

Lemma rstrip_app_spaces b :
  PyStr.all_chars PyStr.isspace b = true ->
  forall s, PyStr.rstrip (s ++ b) = PyStr.rstrip s.
Proof.
  intros Hb. induction s as [|c s IH]; simpl.
  - apply rstrip_spaces, Hb.
  - rewrite IH. reflexivity.
Qed.

Lemma strip_app_spaces b :
  PyStr.all_chars PyStr.isspace b = true ->
  forall s, PyStr.strip (s ++ b) = PyStr.strip s.
Proof.
  intros Hb. unfold PyStr.strip. induction s as [|c s IH].
  - simpl. rewrite (rstrip_spaces (PyStr.lstrip b)); [reflexivity|].
    clear -Hb. induction b as [|x b IH]; simpl in *; [reflexivity|].
    apply andb_prop in Hb. destruct Hb as [-> Hb]. auto.
  - cbn [append PyStr.lstrip]. destruct (PyStr.isspace c); [exact IH|].
    change (String c (s ++ b)) with (String c s ++ b).
    apply rstrip_app_spaces, Hb.
Qed.

Lemma strip_surrounded a s b :
  PyStr.all_chars PyStr.isspace a = true ->
  PyStr.all_chars PyStr.isspace b = true ->
  PyStr.strip (a ++ s ++ b) = PyStr.strip s.
Proof.
  intros Ha Hb. rewrite <- (strip_app_spaces b Hb s).
  unfold PyStr.strip. rewrite (lstrip_spaces_app a _ Ha). reflexivity.
Qed.

Lemma date_under_strip y t1 t2 :
  PyStr.strip t1 = PyStr.strip t2 -> date_under y t1 = date_under y t2.
Proof. unfold date_under. intros ->. reflexivity. Qed.

Lemma parse_pcc_date_date_under w text :
  fst (parse_pcc_date w text)
  = match date_under (CURRENT_YEAR w) text with
    | None => None
    | Some d1 =>
        if (days_between (today w) d1 >? 60)%Z
        then date_under (CURRENT_YEAR w + 1) text
        else Some d1
    end.
Proof.
  destruct (string_dec text "") as [->|Hne].
  - rewrite date_under_empty. reflexivity.
  - apply parse_pcc_date_unfold, Hne.
Qed.

(** X7. White space before and after a heading text has no part in the
    date [parse_pcc_date] returns for it: the text is stripped (line 33)
    before it is read. *)
Theorem surrounding_space_ignored (w : World) (a s b : string) :
  PyStr.all_chars PyStr.isspace a = true ->
  PyStr.all_chars PyStr.isspace b = true ->
  fst (parse_pcc_date w (a ++ s ++ b)) = fst (parse_pcc_date w s).
Proof.
  intros Ha Hb. rewrite !parse_pcc_date_date_under.
  rewrite !(date_under_strip _ (a ++ s ++ b) s) by (apply strip_surrounded; auto).
  reflexivity.
Qed.

Lemma surrounding_space_ignored_witness :
  let w := mkWorld 2025 (mkdate 2025 4 1) (inl Timeout) in
  PyStr.all_chars PyStr.isspace "  " = true
  /\ PyStr.all_chars PyStr.isspace " " = true
  /\ fst (parse_pcc_date w ("  " ++ "Thursday 3rd April" ++ " "))
     = fst (parse_pcc_date w "Thursday 3rd April").
Proof.
  intros w.
  assert (H1 : PyStr.all_chars PyStr.isspace "  " = true) by reflexivity.
  assert (H2 : PyStr.all_chars PyStr.isspace " " = true) by reflexivity.
  split; [exact H1|]. split; [exact H2|].
  apply (surrounding_space_ignored w "  " "Thursday 3rd April" " " H1 H2).
Defined.

(** ** The loops of [scrape_pcc], child by child *)

Lemma visit_child_records w title fr child :
  let fr' := visit_child w title fr child in
  screenings fr'
  = (screenings fr ++ child_records title (current_date fr) child)%list
  /\ current_date fr' = child_date w (current_date fr) child
  /\ processed_count fr' = processed_count fr
  /\ skipped_count fr' = skipped_count fr
  /\ found_screenings_for_film fr'
     = (found_screenings_for_film fr
        + Z.of_nat (List.length (child_records title (current_date fr) child)))%Z.
Proof.
  unfold child_records, child_date.
  destruct child as [nm cl cs|t].
  2:{ cbn [is_heading visit_child]. destruct (current_date fr);
      cbn [item_record olist List.length]; rewrite app_nil_r, Z.add_0_r;
      repeat split. }
  destruct (is_heading (Tag nm cl cs)) eqn:Hh.
  - rewrite (visit_child_heading _ _ _ _ Hh). cbn zeta.
    destruct (heading_date w (Tag nm cl cs)); cbn; rewrite app_nil_r, Z.add_0_r;
      repeat split.
  - unfold visit_child. unfold is_heading in Hh. rewrite Hh.
    unfold item_record.
    destruct (String.eqb nm "li").
    2:{ destruct (current_date fr); cbn [olist List.length];
        rewrite app_nil_r, Z.add_0_r; repeat split. }
    destruct (current_date fr) as [cd|] eqn:Ecd;
      [|cbn; rewrite app_nil_r, Z.add_0_r, Ecd; repeat split].
    destruct (find "span" (class_is "time") (Tag nm cl cs)) as [sp|];
      [|cbn; rewrite app_nil_r, Z.add_0_r, Ecd; repeat split].
    destruct (parse_pcc_time (PyStr.strip (text sp))) as [[ts|] lg] eqn:Ep;
      cbn [fst];
      [|cbn; rewrite app_nil_r, Z.add_0_r, Ecd; repeat split].
    assert (Hts : String.eqb ts "" = false).
    { apply HH_MM_nonempty, (parse_pcc_time_format (PyStr.strip (text sp))).
      rewrite Ep. reflexivity. }
    rewrite Hts. cbn. rewrite Ecd. repeat split.
Qed.

Lemma fold_visit_child_records w title items : forall fr,
  let fr' := fold_left (visit_child w title) items fr in
  screenings fr'
  = (screenings fr ++ list_records w title (current_date fr) items)%list
  /\ processed_count fr' = processed_count fr
  /\ skipped_count fr' = skipped_count fr
  /\ found_screenings_for_film fr'
     = (found_screenings_for_film fr
        + Z.of_nat (List.length (list_records w title (current_date fr) items)))%Z.
Proof.
  induction items as [|c items IH]; intros fr; cbn [fold_left list_records].
  - cbn. rewrite app_nil_r, Z.add_0_r. repeat split.
  - destruct (visit_child_records w title fr c) as (Hs & Hd & Hp & Hk & Hf).
    destruct (IH (visit_child w title fr c)) as (Is & Ip & Ik & If).
    cbn zeta in *. rewrite Is, Ip, Ik, If, Hs, Hd, Hp, Hk, Hf.
    rewrite <- app_assoc, length_app, Nat2Z.inj_add.
    repeat split. lia.
Qed.

(** The records of a film, read off its showings list. *)
Lemma film_screenings_records w c :
  film_screenings w c
  = if String.eqb (film_title_of c) "" then []
    else match perf_list_of c with
         | Some perf_list =>
             list_records w (film_title_of c) None (children perf_list)
         | None => []
         end.
Proof.
  unfold film_screenings.
  destruct (String.eqb (film_title_of c) "") eqn:Et.
  - unfold visit_container. rewrite Et. reflexivity.
  - destruct (perf_list_of c) as [pl|] eqn:Ep.
    + rewrite (screenings_visit_container _ _ _ _ Et Ep).
      destruct (fold_visit_child_records w (film_title_of c) (children pl)
                  (start_film (mkFrame [] 0 0 None 0 []))) as (-> & _).
      reflexivity.
    + unfold visit_container. rewrite Et, Ep. reflexivity.
Qed.

(** A container adds its own records to those of the containers before
    it. *)
Lemma visit_container_records w fr c :
  screenings (visit_container w fr c)
  = (screenings fr ++ film_screenings w c)%list.
Proof.
  rewrite film_screenings_records.
  destruct (String.eqb (film_title_of c) "") eqn:Et.
  - unfold visit_container. rewrite Et. cbn. rewrite app_nil_r. reflexivity.
  - destruct (perf_list_of c) as [pl|] eqn:Ep.
    + rewrite (screenings_visit_container _ _ _ _ Et Ep).
      destruct (fold_visit_child_records w (film_title_of c) (children pl)
                  (start_film fr)) as (-> & _).
      reflexivity.
    + unfold visit_container. rewrite Et, Ep. cbn. rewrite app_nil_r.
      reflexivity.
Qed.

Lemma fold_visit_container_records w cs : forall fr,
  screenings (fold_left (visit_container w) cs fr)
  = (screenings fr ++ flat_map (film_screenings w) cs)%list.
Proof.
  induction cs as [|c cs IH]; intros fr; cbn [fold_left flat_map].
  - rewrite app_nil_r. reflexivity.
  - rewrite IH, visit_container_records, app_assoc. reflexivity.
Qed.

Lemma scrape_pcc_records w response :
  fetched w response ->
  fst (scrape_pcc w)
  = inr (flat_map (film_screenings w) (film_containers response)).
Proof.
  intros [Hget Hst]. unfold scrape_pcc, try_block.
  rewrite Hget, Hst. fold (film_containers response).
  destruct (film_containers response) as [|c cs]; [reflexivity|].
  cbn [fst]. rewrite fold_visit_container_records. reflexivity.
Qed.

(** *** The counters *)

Lemma visit_container_counts w fr c :
  processed_count (visit_container w fr c)
  = (processed_count fr + (if is_processed c then 1 else 0))%Z
  /\ skipped_count (visit_container w fr c)
     = (skipped_count fr + (if is_processed c then 0 else 1))%Z.
Proof.
  unfold visit_container, is_processed.
  destruct (String.eqb (film_title_of c) ""); [cbn; lia|].
  destruct (perf_list_of c) as [pl|]; [|cbn; lia].
  destruct (fold_visit_child_records w (film_title_of c) (children pl)
              (start_film fr)) as (_ & Hp & Hk & _).
  cbn zeta in *.
  destruct (_ =? 0)%Z; cbn [emit emit_all processed_count skipped_count];
    rewrite Hp, Hk; cbn; lia.
Qed.

Lemma fold_visit_container_counts w cs : forall fr,
  processed_count (fold_left (visit_container w) cs fr)
  = (processed_count fr + Z.of_nat (List.length (filter is_processed cs)))%Z
  /\ skipped_count (fold_left (visit_container w) cs fr)
     = (skipped_count fr
        + Z.of_nat (List.length
                      (filter (fun c => negb (is_processed c)) cs)))%Z.
Proof.
  induction cs as [|c cs IH]; intros fr; cbn [fold_left filter].
  - cbn. lia.
  - destruct (IH (visit_container w fr c)) as [-> ->].
    destruct (visit_container_counts w fr c) as [-> ->].
    destruct (is_processed c); cbn [negb List.length]; lia.
Qed.

Lemma filter_partition {A : Type} (p : A -> bool) (l : list A) :
  List.length (filter p l) + List.length (filter (fun x => negb (p x)) l)
  = List.length l.
Proof.
  induction l as [|x l IH]; [reflexivity|]. cbn [filter].
  destruct (p x); cbn [negb List.length]; lia.
Qed.

(** *** The log *)

Lemma parse_pcc_date_log w s :
  existsb is_no_valid (snd (parse_pcc_date w s)) = false.
Proof.
  unfold parse_pcc_date. destruct (String.eqb s ""); [reflexivity|].
  destruct (strptime _ _) as [e|dt]; [reflexivity|].
  destruct (_ >? 60)%Z; [|reflexivity].
  match goal with
  | |- context [strptime ?x ?f] => destruct (strptime x f) as [e|dt2]
  end; reflexivity.
Qed.

Lemma parse_pcc_time_log s : existsb is_no_valid (snd (parse_pcc_time s)) = false.
Proof.
  unfold parse_pcc_time. destruct (String.eqb s ""); [reflexivity|].
  destruct (strptime _ _) as [e|dt]; reflexivity.
Qed.

(** The loop over the children logs after what was logged, and never the
    message of line 154. *)
Lemma visit_child_log w title fr child :
  exists lg,
    log (visit_child w title fr child) = (log fr ++ lg)%list
    /\ existsb is_no_valid lg = false.
Proof.
  destruct child as [nm cl cs|t]; [|exists []; cbn; rewrite app_nil_r; auto].
  unfold visit_child.
  destruct (String.eqb nm "div" && _).
  - pose proof (parse_pcc_date_log w (PyStr.strip (text (Tag nm cl cs)))) as L.
    destruct (parse_pcc_date w _) as [[d|] lg]; cbn [snd] in L.
    + exists lg. cbn. auto.
    + eexists. cbn. rewrite <- app_assoc. split; [reflexivity|].
      rewrite existsb_app, L. reflexivity.
  - destruct (String.eqb nm "li");
      [|exists []; cbn; rewrite app_nil_r; auto].
    destruct (current_date fr) as [cd|]; [|eexists; cbn; split; reflexivity].
    destruct (find "span" _ _) as [sp|]; [|eexists; cbn; split; reflexivity].
    pose proof (parse_pcc_time_log (PyStr.strip (text sp))) as L.
    destruct (parse_pcc_time _) as [[ts|] lg]; cbn [snd] in L.
    + destruct (String.eqb ts ""); exists lg; cbn; auto.
    + exists lg. cbn. auto.
Qed.

Lemma fold_visit_child_log w title items : forall fr,
  exists lg,
    log (fold_left (visit_child w title) items fr) = (log fr ++ lg)%list
    /\ existsb is_no_valid lg = false.
Proof.
  induction items as [|c items IH]; intros fr; cbn [fold_left].
  - exists []. rewrite app_nil_r. auto.
  - destruct (visit_child_log w title fr c) as (l1 & H1 & N1).
    destruct (IH (visit_child w title fr c)) as (l2 & H2 & N2).
    exists (l1 ++ l2)%list. rewrite H2, H1, <- app_assoc.
    split; [reflexivity|]. rewrite existsb_app, N1, N2. reflexivity.
Qed.

Lemma visit_container_log w fr c :
  exists lg, log (visit_container w fr c) = (log fr ++ lg)%list.
Proof.
  unfold visit_container.
  destruct (String.eqb (film_title_of c) ""); [eexists; reflexivity|].
  destruct (perf_list_of c) as [pl|]; [|eexists; reflexivity].
  destruct (fold_visit_child_log w (film_title_of c) (children pl)
              (start_film fr)) as (lg & H & _).
  destruct (_ =? 0)%Z; cbn [emit emit_all log]; rewrite H; cbn [start_film log].
  - rewrite <- app_assoc. eexists; reflexivity.
  - eexists; reflexivity.
Qed.

Lemma fold_visit_container_log w cs : forall fr,
  exists lg, log (fold_left (visit_container w) cs fr) = (log fr ++ lg)%list.
Proof.
  induction cs as [|c cs IH]; intros fr; cbn [fold_left].
  - exists []. rewrite app_nil_r. reflexivity.
  - destruct (visit_container_log w fr c) as (l1 & H1).
    destruct (IH (visit_container w fr c)) as (l2 & H2).
    exists (l1 ++ l2)%list. rewrite H2, H1, <- app_assoc. reflexivity.
Qed.

(** The log of a container with a title and a showings list: what its
    children log, then the message of line 154 when no record came of
    them. *)
Lemma visit_container_no_valid w c pl :
  String.eqb (film_title_of c) "" = false ->
  perf_list_of c = Some pl ->
  exists lg,
    existsb is_no_valid lg = false
    /\ log (visit_container w (mkFrame [] 0 0 None 0 []) c)
       = (lg ++ match film_screenings w c with
                | [] => [(INFO, NoValidScreenings (film_title_of c))]
                | _ => []
                end)%list.
Proof.
  intros Et Ep. rewrite film_screenings_records, Et, Ep.
  unfold visit_container. rewrite Et, Ep.
  set (fr0 := start_film (mkFrame [] 0 0 None 0 [])).
  destruct (fold_visit_child_log w (film_title_of c) (children pl) fr0)
    as (lg & Hl & Hn).
  destruct (fold_visit_child_records w (film_title_of c) (children pl) fr0)
    as (_ & _ & _ & Hf).
  cbn zeta in Hf. cbn [fr0 start_film found_screenings_for_film current_date] in Hf.
  exists lg. split; [exact Hn|].
  set (recs := list_records w (film_title_of c) None (children pl)) in *.
  destruct recs as [|r recs].
  - cbn in Hf. rewrite Hf. cbn. rewrite Hl. reflexivity.
  - assert (E : (found_screenings_for_film
                   (fold_left (visit_child w (film_title_of c)) (children pl) fr0)
                 =? 0)%Z = false).
    { apply Z.eqb_neq. rewrite Hf. cbn [List.length]. lia. }
    rewrite E, Hl, app_nil_r. reflexivity.
Qed.

(** *** What the records hold *)

Lemma all_years_zfill :
  forallb (zfill_ok 4) (Zrange 1 (Z.to_nat 9999)) = true.
Proof. vm_compute. reflexivity. Qed.

Lemma all_days_zfill : forallb (zfill_ok 2) (Zrange 1 31) = true.
Proof. vm_compute. reflexivity. Qed.

Lemma days_in_month_le y m : (days_in_month y m <= 31)%Z.
Proof.
  unfold days_in_month. destruct ((m =? 2)%Z && is_leap y); [lia|].
  unfold DAYS_IN_MONTH.
  destruct (Z.to_nat (m - 1)) as [|[|[|[|[|[|[|[|[|[|[|[|n]]]]]]]]]]]];
    cbn [nth]; try lia.
  destruct n; lia.
Qed.

Lemma isoformat_length d :
  valid_date d -> String.length (isoformat d) = 10.
Proof.
  intros (Hy & Hm & Hd). destruct d as [y m d]. cbn [year month day] in *.
  pose proof (days_in_month_le y m) as Hle.
  pose proof all_years_zfill as A. rewrite forallb_forall in A.
  assert (Iy : In y (Zrange 1 (Z.to_nat 9999))) by (apply in_Zrange; lia).
  assert (Im : In m (Zrange 1 31)) by (apply in_Zrange; lia).
  assert (Id : In d (Zrange 1 31)) by (apply in_Zrange; lia).
  specialize (A y Iy).
  pose proof all_days_zfill as B. rewrite forallb_forall in B.
  pose proof (B m Im) as Bm. pose proof (B d Id) as Bd.
  unfold zfill_ok in *. apply Nat.eqb_eq in A, Bm, Bd.
  unfold isoformat. cbn [year month day].
  rewrite !slength_app, A, Bm, Bd. reflexivity.
Qed.

Lemma item_record_of title cd child s :
  valid_date cd -> item_record title cd child = Some s -> record_of title s.
Proof.
  intros Hv. unfold item_record. destruct child as [nm cl cs|t]; [|discriminate].
  destruct (String.eqb nm "li"); [|discriminate].
  destruct (find "span" _ _) as [sp|]; [|discriminate].
  destruct (fst (parse_pcc_time _)) as [ts|] eqn:E; [|discriminate].
  intros H. injection H as <-. unfold record_of. cbn.
  repeat split; eauto using parse_pcc_time_format.
Qed.

Lemma child_date_valid w cur child :
  (forall cd, cur = Some cd -> valid_date cd) ->
  forall cd, child_date w cur child = Some cd -> valid_date cd.
Proof.
  intros Hc cd. unfold child_date, heading_date.
  destruct (is_heading child); [|apply Hc].
  apply parse_pcc_date_valid.
Qed.

Lemma list_records_of w title items : forall cur,
  (forall cd, cur = Some cd -> valid_date cd) ->
  Forall (record_of title) (list_records w title cur items).
Proof.
  induction items as [|c items IH]; intros cur Hc; cbn [list_records];
    [constructor|].
  apply Forall_app. split.
  - unfold child_records. destruct (is_heading c); [constructor|].
    destruct cur as [cd|]; [|constructor].
    destruct (item_record title cd c) as [s|] eqn:E; [|constructor].
    constructor; [|constructor].
    apply (item_record_of title cd c s (Hc cd eq_refl) E).
  - apply IH, child_date_valid, Hc.
Qed.

Lemma film_screenings_of w c :
  Forall (fun s => record_of (film_title_of c) s /\ film_title_of c <> "")
         (film_screenings w c).
Proof.
  rewrite film_screenings_records.
  destruct (String.eqb (film_title_of c) "") eqn:Et; [constructor|].
  apply String.eqb_neq in Et.
  destruct (perf_list_of c) as [pl|]; [|constructor].
  pose proof (list_records_of w (film_title_of c) (children pl) None) as H.
  eapply Forall_impl; [|apply H; discriminate].
  cbn. auto.
Qed.

(** *** A heading and the items after it *)

Lemma list_records_items w title cd items :
  Forall (fun c => is_heading c = false) items ->
  list_records w title (Some cd) items
  = flat_map (fun c => olist (item_record title cd c)) items.
Proof.
  induction 1 as [|c items Hc _ IH]; [reflexivity|].
  cbn [list_records flat_map]. unfold child_records, child_date.
  rewrite Hc, IH. reflexivity.
Qed.

Lemma fold_visit_child_date w title items : forall fr,
  Forall (fun c => is_heading c = false) items ->
  current_date (fold_left (visit_child w title) items fr) = current_date fr.
Proof.
  induction items as [|c items IH]; intros fr H; [reflexivity|].
  inversion H as [|? ? Hc Hrest]; subst. cbn [fold_left].
  rewrite (IH _ Hrest).
  destruct (visit_child_records w title fr c) as (_ & -> & _).
  unfold child_date. rewrite Hc. reflexivity.
Qed.

Lemma no_valid_not_in lg r :
  existsb is_no_valid lg = false -> is_no_valid r = true -> ~ In r lg.
Proof.
  intros H Hr Hin.
  assert (E : existsb is_no_valid lg = true)
    by (apply existsb_exists; eauto).
  congruence.
Qed.

Lemma try_block_completed w l0 response :
  fetched w response -> film_containers response <> [] ->
  try_block w l0
  = Completed
      (fold_left (visit_container w) (film_containers response)
         (mkFrame [] 0 0 None 0
            (l0 ++ [(INFO, FoundEntries
                             (List.length (film_containers response)))]))).
Proof.
  intros [Hget Hst] Hne. unfold try_block. rewrite Hget, Hst.
  fold (film_containers response).
  destruct (film_containers response); [contradiction|reflexivity].
Qed.

(** ** The run: the properties *)

Lemma sample_fetched : fetched (world_2025 sample_page) sample_response.
Proof. split; reflexivity. Qed.

(** X8. When the page is fetched, what [scrape_pcc] returns is the records
    of the film containers one after the other in the order of the
    document, each container yielding what it yields when it is scanned on
    its own: no container has a part in the records of another. *)
Theorem records_are_per_film (w : World) (response : Response) :
  fetched w response ->
  fst (scrape_pcc w)
  = inr (flat_map (film_screenings w) (film_containers response)).
Proof. apply scrape_pcc_records. Qed.

Lemma records_are_per_film_witness :
  fst (scrape_pcc (world_2025 sample_page))
  = inr (flat_map (film_screenings (world_2025 sample_page))
                  (film_containers sample_response)).
Proof.
  apply (records_are_per_film (world_2025 sample_page) sample_response
           sample_fetched).
Defined.

(** X9. When the page is fetched and has film containers, the run logs
    their number first, and its last record counts as processed the
    containers with a title and a showings list, as skipped the others,
    and as extracted the length of the list returned; so processed and
    skipped add up to the number found. *)
Theorem counts_add_up (w : World) (response : Response) :
  fetched w response -> film_containers response <> [] ->
  let cs := film_containers response in
  let processed := Z.of_nat (List.length (filter is_processed cs)) in
  let skipped :=
    Z.of_nat (List.length (filter (fun c => negb (is_processed c)) cs)) in
  (processed + skipped = Z.of_nat (List.length cs))%Z
  /\ exists result lg,
       scrape_pcc w
       = (inr result,
          ([(INFO, StartingScrape); (INFO, FoundEntries (List.length cs))]
           ++ lg
           ++ [(INFO, Finished processed skipped (List.length result))])%list).
Proof.
  intros [Hget Hst] Hne cs processed skipped. split.
  - unfold processed, skipped. rewrite <- Nat2Z.inj_add.
    rewrite filter_partition. reflexivity.
  - unfold scrape_pcc.
    rewrite (try_block_completed w _ response (conj Hget Hst) Hne). fold cs.
    match goal with
    | |- context [fold_left (visit_container w) cs ?f] => set (fr0 := f)
    end.
    destruct (fold_visit_container_counts w cs fr0) as [Hp Hk].
    destruct (fold_visit_container_log w cs fr0) as [lg Hl].
    exists (screenings (fold_left (visit_container w) cs fr0)), lg.
    rewrite Hp, Hk, Hl. cbn [fr0 processed_count skipped_count log].
    rewrite !Z.add_0_l, <- app_assoc. reflexivity.
Qed.

Lemma counts_add_up_witness :
  film_containers sample_response <> []
  /\ exists result lg,
       scrape_pcc (world_2025 sample_page)
       = (inr result,
          ([(INFO, StartingScrape); (INFO, FoundEntries 2)] ++ lg
           ++ [(INFO, Finished 1 1 (List.length result))])%list).
Proof.
  assert (H : film_containers sample_response <> []) by discriminate.
  split; [exact H|].
  apply (counts_add_up (world_2025 sample_page) sample_response
           sample_fetched H).
Defined.

(** X10. When the page is fetched, every record returned has the venue of
    the module, the title of one of the film containers, which is not
    empty, the ISO text (ten characters) of a date of the calendar, and a
    time of the form [HH:MM]. *)
Theorem records_well_formed
        (w : World) (response : Response) (result : list Screening)
        (s : Screening) :
  fetched w response ->
  fst (scrape_pcc w) = inr result -> In s result ->
  Venue s = VENUE
  /\ (exists c, In c (film_containers response)
                /\ Film s = film_title_of c /\ Film s <> "")
  /\ (exists cd, valid_date cd /\ Date s = isoformat cd)
  /\ String.length (Date s) = 10
  /\ is_HH_MM (Time s) = true.
Proof.
  intros Hf Hr Hin. rewrite (scrape_pcc_records w response Hf) in Hr.
  injection Hr as <-. apply in_flat_map in Hin.
  destruct Hin as (c & Hc & Hs).
  pose proof (film_screenings_of w c) as A. rewrite Forall_forall in A.
  destruct (A s Hs) as ((Hv & Ht & (cd & Hcd & Hd) & Htime) & Hne).
  split; [exact Hv|]. split; [exists c; rewrite Ht; auto|].
  split; [eauto|]. split; [|exact Htime].
  rewrite Hd. apply isoformat_length, Hcd.
Qed.

Lemma records_well_formed_witness :
  let s := mkScreening VENUE "Film A" "2025-04-04" "18:15" in
  fst (scrape_pcc (world_2025 sample_page))
  = inr [mkScreening VENUE "Film A" "2025-04-03" "12:00";
         mkScreening VENUE "Film A" "2025-04-03" "15:30"; s]
  /\ String.length (Date s) = 10.
Proof.
  intros s.
  assert (H : fst (scrape_pcc (world_2025 sample_page))
              = inr [mkScreening VENUE "Film A" "2025-04-03" "12:00";
                     mkScreening VENUE "Film A" "2025-04-03" "15:30"; s])
    by reflexivity.
  split; [exact H|].
  apply (records_well_formed (world_2025 sample_page) sample_response _ s
           sample_fetched H).
  right; right; left; reflexivity.
Defined.

(** X11. A heading that parses dates the items that follow it up to the
    next heading: scanning the heading and then children none of which is
    a heading adds, in order, one record for each list item whose
    [span.time] text parses, all with the date of the heading, and ends
    with that date still current. *)
Theorem heading_dates_following_items
        (w : World) (title : string) (fr : Frame) (h : PageElement)
        (items : list PageElement) (cd : date) :
  is_heading h = true -> heading_date w h = Some cd ->
  Forall (fun c => is_heading c = false) items ->
  let fr' := fold_left (visit_child w title) (h :: items) fr in
  screenings fr'
  = (screenings fr
     ++ flat_map (fun c => olist (item_record title cd c)) items)%list
  /\ current_date fr' = Some cd.
Proof.
  intros Hh Hd Hall fr'. unfold fr'. cbn [fold_left].
  destruct (visit_child_records w title fr h) as (Hs & Hc & _).
  cbn zeta in Hs, Hc. unfold child_records, child_date in Hs, Hc.
  rewrite Hh in Hs, Hc. rewrite app_nil_r in Hs. rewrite Hd in Hc.
  destruct (fold_visit_child_records w title items (visit_child w title fr h))
    as (Is & _).
  cbn zeta in Is. rewrite Is, Hs, Hc, (list_records_items w title cd items Hall).
  split; [reflexivity|].
  rewrite (fold_visit_child_date w title items _ Hall). exact Hc.
Qed.

Lemma heading_dates_following_items_witness :
  let w := world_2025 sample_page in
  let fr := start_film (mkFrame [] 0 0 None 0 []) in
  let items := [li_time "12:00 pm"; NavigableString " "; li_time "soon";
                li_time "3:30 pm"] in
  is_heading (heading "Thursday 3rd April") = true
  /\ heading_date w (heading "Thursday 3rd April") = Some (mkdate 2025 4 3)
  /\ Forall (fun c => is_heading c = false) items
  /\ screenings (fold_left (visit_child w "Film A")
                           (heading "Thursday 3rd April" :: items) fr)
     = [mkScreening VENUE "Film A" "2025-04-03" "12:00";
        mkScreening VENUE "Film A" "2025-04-03" "15:30"].
Proof.
  intros w fr items.
  assert (H1 : is_heading (heading "Thursday 3rd April") = true)
    by reflexivity.
  assert (H2 : heading_date w (heading "Thursday 3rd April")
               = Some (mkdate 2025 4 3)) by reflexivity.
  assert (H3 : Forall (fun c => is_heading c = false) items)
    by (repeat constructor).
  split; [exact H1|]. split; [exact H2|]. split; [exact H3|].
  rewrite (proj1 (heading_dates_following_items w "Film A" fr _ items _
                    H1 H2 H3)).
  reflexivity.
Defined.

(** X12. For a container scanned on its own, the message of line 154, that
    a film was processed but no valid screening extracted, is logged
    exactly when the container has a title and a showings list and yields
    no record, and it names the title of the container: the counter of
    line 151 is the number of records the film added. *)
Theorem no_valid_screenings_logged
        (w : World) (c : PageElement) (t : string) :
  In (INFO, NoValidScreenings t)
     (log (visit_container w (mkFrame [] 0 0 None 0 []) c))
  <-> t = film_title_of c /\ is_processed c = true
      /\ film_screenings w c = [].
Proof.
  unfold is_processed.
  destruct (String.eqb (film_title_of c) "") eqn:Et.
  - unfold visit_container. rewrite Et. cbn. split.
    + intros [H|[]]. discriminate.
    + intros (_ & H & _). discriminate.
  - destruct (perf_list_of c) as [pl|] eqn:Ep.
    + destruct (visit_container_no_valid w c pl Et Ep) as (lg & Hn & ->).
      rewrite in_app_iff. cbn [negb andb]. split.
      * intros [H|H].
        -- exfalso.
           exact (no_valid_not_in lg (INFO, NoValidScreenings t) Hn eq_refl H).
        -- destruct (film_screenings w c); [|destruct H].
           destruct H as [H|[]]. injection H as <-. auto.
      * intros (-> & _ & ->). right. left. reflexivity.
    + unfold visit_container. rewrite Et, Ep. cbn. split.
      * intros [H|[]]. discriminate.
      * intros (_ & H & _). discriminate.
Qed.

(** ** Saving: [save_showtimes] and the command line *)

(** *** [os.path.dirname] *)

Lemma head_of_bare p : bare_name p = true -> Os.head_of p = "".
Proof.
  unfold bare_name. induction p as [|c p IH]; simpl; [reflexivity|].
  intros H. apply andb_prop in H as [Hc Hp]. rewrite (IH Hp).
  apply negb_true_iff in Hc. rewrite Hc. reflexivity.
Qed.

Lemma head_of_not_bare p : bare_name p = false -> Os.head_of p <> "".
Proof.
  unfold bare_name. induction p as [|c p IH]; simpl; [discriminate|].
  intros H. destruct (Os.head_of p) eqn:E.
  - destruct (Ascii.eqb c Os.sep) eqn:Ec; [discriminate|].
    simpl in H. exfalso. apply IH; [exact H|reflexivity].
  - discriminate.
Qed.

Lemma rstrip_sep_empty s :
  Os.rstrip_sep s = "" -> PyStr.all_chars (Ascii.eqb Os.sep) s = true.
Proof.
  induction s as [|c s IH]; simpl; [reflexivity|].
  destruct (Os.rstrip_sep s) eqn:E; [|discriminate].
  destruct (Ascii.eqb c Os.sep) eqn:Ec; [|discriminate].
  intros _. rewrite Ascii.eqb_sym, Ec. simpl. apply IH. reflexivity.
Qed.

Lemma dirname_empty p : Os.dirname p = "" <-> bare_name p = true.
Proof.
  split.
  - intros H. destruct (bare_name p) eqn:E; [reflexivity|].
    apply head_of_not_bare in E. unfold Os.dirname in H.
    destruct (String.eqb (Os.head_of p) "") eqn:E1.
    + apply String.eqb_eq in E1. contradiction.
    + simpl in H.
      destruct (PyStr.all_chars (Ascii.eqb Os.sep) (Os.head_of p)) eqn:E2.
      * contradiction.
      * apply rstrip_sep_empty in H. congruence.
  - intros H. unfold Os.dirname. rewrite (head_of_bare p H). reflexivity.
Qed.

(** *** The encoder *)

Lemma unescape_escape_char c r :
  unescape_char (Json.escape_char c ++ r) = Some (c, r).
Proof.
  destruct c as [[] [] [] [] [] [] [] []]; reflexivity.
Qed.

Lemma unescape_quote r : unescape_char (String Json.quote r) = None.
Proof. reflexivity. Qed.

Lemma escape_inj : forall s1 s2 r1 r2,
  Json.escape s1 ++ String Json.quote r1 = Json.escape s2 ++ String Json.quote r2 ->
  s1 = s2 /\ r1 = r2.
Proof.
  induction s1 as [|c1 s1 IH]; intros [|c2 s2] r1 r2 H; simpl in H.
  - injection H as ->. split; reflexivity.
  - apply (f_equal unescape_char) in H.
    rewrite sapp_assoc, unescape_escape_char, unescape_quote in H.
    discriminate.
  - apply (f_equal unescape_char) in H.
    rewrite sapp_assoc, unescape_escape_char, unescape_quote in H.
    discriminate.
  - apply (f_equal unescape_char) in H.
    rewrite !sapp_assoc, !unescape_escape_char in H.
    injection H as -> H. destruct (IH _ _ _ H) as [-> ->].
    split; reflexivity.
Qed.

Lemma encode_basestring_inj s1 s2 r1 r2 :
  Json.encode_basestring s1 ++ r1 = Json.encode_basestring s2 ++ r2 ->
  s1 = s2 /\ r1 = r2.
Proof.
  unfold Json.encode_basestring. simpl. rewrite !sapp_assoc. simpl.
  intros H. injection H as H. apply escape_inj in H. exact H.
Qed.

Lemma encode_record s r :
  Json.encode_dict 1 (to_dict s) ++ r
  = field_prefix true "Venue" ++ Json.encode_basestring (Venue s)
    ++ field_prefix false "Film" ++ Json.encode_basestring (Film s)
    ++ field_prefix false "Date" ++ Json.encode_basestring (Date s)
    ++ field_prefix false "Time" ++ Json.encode_basestring (Time s)
    ++ Json.newline_indent 1 ++ "}" ++ r.
Proof.
  unfold Json.encode_dict, to_dict, field_prefix. cbn [map PyStr.join fst snd].
  rewrite !sapp_assoc. reflexivity.
Qed.

Lemma encode_record_inj s1 s2 r1 r2 :
  Json.encode_dict 1 (to_dict s1) ++ r1 = Json.encode_dict 1 (to_dict s2) ++ r2 ->
  s1 = s2 /\ r1 = r2.
Proof.
  rewrite !encode_record. intros H.
  apply sapp_inv_head in H. apply encode_basestring_inj in H as [Hv H].
  apply sapp_inv_head in H. apply encode_basestring_inj in H as [Hf H].
  apply sapp_inv_head in H. apply encode_basestring_inj in H as [Hd H].
  apply sapp_inv_head in H. apply encode_basestring_inj in H as [Ht H].
  apply sapp_inv_head in H. apply (sapp_inv_head "}") in H.
  split; [|exact H].
  destruct s1, s2; simpl in *; congruence.
Qed.

Lemma encode_items_inj : forall l1 l2 a b r1 r2,
  PyStr.join ("," ++ Json.newline_indent 1)
             (map (Json.encode_dict 1) (map to_dict (a :: l1)))
    ++ String Json.newline r1
  = PyStr.join ("," ++ Json.newline_indent 1)
               (map (Json.encode_dict 1) (map to_dict (b :: l2)))
    ++ String Json.newline r2 ->
  a :: l1 = b :: l2 /\ r1 = r2.
Proof.
  induction l1 as [|a' l1 IH]; intros [|b' l2] a b r1 r2 H.
  - cbn [map PyStr.join] in H. apply encode_record_inj in H as [-> H].
    injection H as ->. split; reflexivity.
  - exfalso. cbn [map PyStr.join] in H. rewrite sapp_assoc in H.
    apply encode_record_inj in H as [_ H]. discriminate H.
  - exfalso. cbn [map PyStr.join] in H. rewrite sapp_assoc in H.
    apply encode_record_inj in H as [_ H]. discriminate H.
  - change (map (Json.encode_dict 1) (map to_dict (a :: a' :: l1)))
      with (Json.encode_dict 1 (to_dict a)
            :: map (Json.encode_dict 1) (map to_dict (a' :: l1))) in H.
    change (map (Json.encode_dict 1) (map to_dict (b :: b' :: l2)))
      with (Json.encode_dict 1 (to_dict b)
            :: map (Json.encode_dict 1) (map to_dict (b' :: l2))) in H.
    change (PyStr.join ?sp (?x :: map ?f (map ?g (?y :: ?l))))
      with (x ++ sp ++ PyStr.join sp (map f (map g (y :: l)))) in H.
    rewrite !sapp_assoc in H.
    apply encode_record_inj in H as [-> H].
    apply sapp_inv_head in H. apply sapp_inv_head in H.
    destruct (IH _ _ _ _ _ H) as [E ->]. rewrite E. split; reflexivity.
Qed.

Lemma dumps_inj l1 l2 :
  Json.dumps (map to_dict l1) = Json.dumps (map to_dict l2) -> l1 = l2.
Proof.
  unfold Json.dumps, Json.encode_list.
  destruct l1 as [|a l1], l2 as [|b l2].
  - reflexivity.
  - intros H. exfalso. cbn [map] in H. discriminate H.
  - intros H. exfalso. cbn [map] in H. discriminate H.
  - change (map to_dict (a :: l1)) with (to_dict a :: map to_dict l1).
    change (map to_dict (b :: l2)) with (to_dict b :: map to_dict l2).
    cbv iota. intros H. apply sapp_inv_head in H. apply sapp_inv_head in H.
    change (to_dict a :: map to_dict l1) with (map to_dict (a :: l1)) in H.
    change (to_dict b :: map to_dict l2) with (map to_dict (b :: l2)) in H.
    apply encode_items_inj in H as [H _]. exact H.
Qed.

(** *** The run from the command line *)

Lemma save_default fs data :
  save_showtimes fs data DEFAULT_FILENAME
  = match Os.makedirs_raises fs "data" with
    | Some e => (Some e, [])
    | None =>
        match Os.open_raises fs DEFAULT_FILENAME with
        | Some e => (Some e, [MadeDirs "data"])
        | None =>
            (None, [MadeDirs "data";
                    Wrote DEFAULT_FILENAME (Json.dumps (map to_dict data))])
        end
    end.
Proof. reflexivity. Qed.

Lemma scrape_pcc_raised w e :
  fetch_raises w = Some e ->
  fst (scrape_pcc w) = inl (UnboundLocalError "processed_count").
Proof.
  unfold fetch_raises, scrape_pcc, try_block. intros Hf.
  destruct (get w) as [e'|response]; [reflexivity|].
  destruct (_ && _)%Z; [reflexivity|discriminate].
Qed.

(** X13. [save_showtimes] raises [FileNotFoundError] before it creates or
    writes anything, whatever the file system holds, exactly when the file
    name has no slash: [os.path.dirname] is then empty and
    [os.makedirs] refuses the empty name. *)
Theorem bare_file_name_refused (data : list Screening) (filename : string) :
  (forall fs, save_showtimes fs data filename = (Some Os.FileNotFoundError, []))
  <-> bare_name filename = true.
Proof.
  split.
  - intros H. specialize (H permissive_fs).
    destruct (bare_name filename) eqn:E; [reflexivity|exfalso].
    unfold save_showtimes, Os.makedirs in H.
    destruct (String.eqb (Os.dirname filename) "") eqn:E1.
    + apply String.eqb_eq, dirname_empty in E1. congruence.
    + simpl in H. discriminate H.
  - intros H fs. apply dirname_empty in H.
    unfold save_showtimes, Os.makedirs. rewrite H. reflexivity.
Qed.

(** X14. When the fetch raises, the script dies of the
    [UnboundLocalError] of [scrape_pcc] after the banner:
    [save_showtimes] is not reached, so no directory is made and the file
    of an earlier run is left as it was. *)
Theorem failed_fetch_saves_nothing (w : World) (fs : Os.FileSystem) (e : exn) :
  fetch_raises w = Some e ->
  fst (main w fs)
  = (Some (FromScraper (UnboundLocalError "processed_count")), [Printed Banner]).
Proof.
  intros Hf. apply scrape_pcc_raised in Hf. unfold main.
  destruct (scrape_pcc w) as [[x|data] lg]; simpl in Hf; [|discriminate].
  injection Hf as ->. reflexivity.
Qed.

Lemma failed_fetch_saves_nothing_witness :
  let w := mkWorld 2025 (mkdate 2025 4 1) (inl Timeout) in
  fetch_raises w = Some Timeout
  /\ fst (main w permissive_fs)
     = (Some (FromScraper (UnboundLocalError "processed_count")),
        [Printed Banner]).
Proof.
  intros w. split; [reflexivity|].
  apply (failed_fetch_saves_nothing w permissive_fs Timeout eq_refl).
Defined.

(** X15. When the page is fetched and the file system lets the directory
    [data] be made and [data/showtimes_pcc.json] be opened, the script
    prints the banner, makes the directory, writes the JSON text of the
    records of the film containers, in page order, and reports their
    number; a page with no film container overwrites the file with
    [[]]. *)
Theorem saved_file_holds_the_records
        (w : World) (fs : Os.FileSystem) (response : Response) :
  fetched w response ->
  Os.makedirs_raises fs "data" = None ->
  Os.open_raises fs "data/showtimes_pcc.json" = None ->
  let result := flat_map (film_screenings w) (film_containers response) in
  fst (main w fs)
  = (None,
     [Printed Banner;
      MadeDirs "data";
      Wrote "data/showtimes_pcc.json" (Json.dumps (map to_dict result));
      Printed (Done (List.length result))])
  /\ (film_containers response = [] ->
      Json.dumps (map to_dict result) = "[]").
Proof.
  intros Hf Hm Ho result. split.
  - pose proof (scrape_pcc_records w response Hf) as Hr. unfold main.
    destruct (scrape_pcc w) as [[x|data] lg]; simpl in Hr; [discriminate|].
    injection Hr as ->. rewrite save_default, Hm.
    change DEFAULT_FILENAME with "data/showtimes_pcc.json". rewrite Ho.
    reflexivity.
  - intros E. unfold result. rewrite E. reflexivity.
Qed.

Lemma saved_file_holds_the_records_witness :
  let w := world_2025 sample_page in
  let result := flat_map (film_screenings w) (film_containers sample_response) in
  result <> []
  /\ fst (main w permissive_fs)
     = (None,
        [Printed Banner;
         MadeDirs "data";
         Wrote "data/showtimes_pcc.json" (Json.dumps (map to_dict result));
         Printed (Done (List.length result))]).
Proof.
  intros w result. split; [vm_compute; discriminate|].
  apply (saved_file_holds_the_records w permissive_fs sample_response
           sample_fetched eq_refl eq_refl).
Defined.

(** X16. The script reports [Done] only after the file was written: when
    the line is printed, no exception escaped, [scrape_pcc] returned a
    list, the number reported is its length and its JSON text went to
    [data/showtimes_pcc.json]. *)
Theorem done_only_after_write (w : World) (fs : Os.FileSystem) (n : nat) :
  In (Printed (Done n)) (snd (fst (main w fs))) ->
  fst (fst (main w fs)) = None
  /\ exists result,
       fst (scrape_pcc w) = inr result
       /\ n = List.length result
       /\ In (Wrote DEFAULT_FILENAME (Json.dumps (map to_dict result)))
             (snd (fst (main w fs))).
Proof.
  unfold main. destruct (scrape_pcc w) as [[x|data] lg]; simpl.
  - intros [H|[]]. discriminate H.
  - rewrite save_default.
    destruct (Os.makedirs_raises fs "data"); simpl.
    + intros [H|[]]. discriminate H.
    + destruct (Os.open_raises fs DEFAULT_FILENAME); simpl.
      * intros [H|[H|[]]]; discriminate H.
      * intros [H|[H|[H|[H|[]]]]]; try discriminate H.
        injection H as <-. split; [reflexivity|].
        exists data. repeat split. right. right. left. reflexivity.
Qed.

Lemma done_only_after_write_witness :
  let w := world_2025 sample_page in
  In (Printed (Done 3)) (snd (fst (main w permissive_fs)))
  /\ fst (fst (main w permissive_fs)) = None.
Proof.
  intros w.
  assert (H : In (Printed (Done 3)) (snd (fst (main w permissive_fs)))).
  { vm_compute. right. right. right. left. reflexivity. }
  split; [exact H|].
  exact (proj1 (done_only_after_write w permissive_fs 3 H)).
Defined.

(** X17. The text [json.dump] writes determines the records: two result
    lists are written as the same text only when they are the same list,
    whatever characters (quotes, backslashes, line breaks) the film
    titles hold. *)
Theorem saved_text_determines_records (l1 l2 : list Screening) :
  Json.dumps (map to_dict l1) = Json.dumps (map to_dict l2) <-> l1 = l2.
Proof.
  split; [apply dumps_inj|intros ->; reflexivity].
Qed.
